(** * A moderation bot for group chats: access control, cooldown, warnings,
      mutes, mention resolution and duration parsing

    The development embeds the parts of [utils.py], [database.py], [bot.py]
    and [commands.py] that decide the properties stated at the end of the
    file.

    Conventions of the embedding.
    - Python [int] is [Z]; identifiers of users and conversations are [Z].
    - Python [str] is [string].  The character model is ASCII: the predicates
      [str.isdigit], [str.isspace], [str.lower] and the regular-expression
      classes [\d] and [\w] are given on code points below 128 and treat
      every other character as an ordinary symbol.
    - [time.time()] returns a float; a finite float is a rational number, so
      a clock reading is a [Q] and [int(x)] is truncation towards zero.
    - The relational store is a record of finite maps and lists (one field
      per table); a statement of the source is a function on that record.
    - Code that talks to the chat platform runs in a small state-and-exception
      monad over a [world] (store, cooldown map, trace of outgoing calls, and
      the number of external calls made so far, which indexes the answers of
      the platform and the clock).
    - The engine binds an integer parameter only if it is a signed integer
      of 64 bits ([Database.binds]), and [execute] raises [OverflowError]
      for any other before the statement has an effect.  The functions of
      [Database] are the statements on parameters that are bound.  The ids
      and the clock readings that the platform supplies are bound; a number
      typed in a command need not be, and the handlers raise at the first
      call that binds it ([Bot.binding]).
    - Where the source renders a time stamp as a date, the text carries the
      time stamp; that the conversion to a date can raise is modelled where
      the time stamp comes from the arguments of a command ([cmd_mute]).
    - [int] of a text has no bound on the number of digits: the bound of
      the interpreter (4300 digits) is above the length of a message of the
      platform (4096 characters). *)

From Stdlib Require Import ZArith QArith Qround String Ascii List Bool Lia.
From stdpp Require Import base gmap strings list fin_maps.

Local Open Scope string_scope.
Local Open Scope Z_scope.

(** ** Python string primitives *)

Module Py.

Definition code (c : ascii) : nat := nat_of_ascii c.

(** [c.isdigit()] on one character *)
Definition is_digit (c : ascii) : bool :=
  (48 <=? code c)%nat && (code c <=? 57)%nat.

(** [c.isspace()] on one character: TAB, LF, VT, FF, CR, FS, GS, RS, US
    and the space *)
Definition is_space (c : ascii) : bool :=
  ((9 <=? code c)%nat && (code c <=? 13)%nat)
  || ((28 <=? code c)%nat && (code c <=? 32)%nat).

(** the class [\w] of the [re] module *)
Definition is_word (c : ascii) : bool :=
  is_digit c
  || ((65 <=? code c)%nat && (code c <=? 90)%nat)
  || ((97 <=? code c)%nat && (code c <=? 122)%nat)
  || (code c =? 95)%nat.

Definition lower_char (c : ascii) : ascii :=
  if ((65 <=? code c)%nat && (code c <=? 90)%nat)
  then ascii_of_nat (code c + 32) else c.

(** [s.lower()] *)
Fixpoint lower (s : string) : string :=
  match s with
  | EmptyString => EmptyString
  | String c r => String (lower_char c) (lower r)
  end.

Fixpoint all_chars (p : ascii -> bool) (s : string) : bool :=
  match s with
  | EmptyString => true
  | String c r => p c && all_chars p r
  end.

(** truth value of a string: [if s] *)
Definition truthy (s : string) : bool :=
  match s with EmptyString => false | _ => true end.

(** [s.isdigit()]: at least one character and all of them digits *)
Definition isdigit (s : string) : bool := truthy s && all_chars is_digit s.

Definition digit_value (c : ascii) : Z := Z.of_nat (code c) - 48.

Fixpoint int_acc (acc : Z) (s : string) : Z :=
  match s with
  | EmptyString => acc
  | String c r => int_acc (10 * acc + digit_value c) r
  end.

(** [int(s)] for a string of decimal digits *)
Definition int (s : string) : Z := int_acc 0 s.

(** [c in s] for a one-character [c] *)
Fixpoint contains (c : ascii) (s : string) : bool :=
  match s with
  | EmptyString => false
  | String d r => if Ascii.eqb c d then true else contains c r
  end.

(** [s.startswith(p)] *)
Definition startswith (p s : string) : bool := String.prefix p s.

Fixpoint drop (n : nat) (s : string) : string :=
  match n, s with
  | O, _ => s
  | S k, String _ r => drop k r
  | S _, EmptyString => EmptyString
  end.

(** [s.find(c)] for a one-character [c]: the first index, or -1 *)
Fixpoint find_char_from (i : Z) (c : ascii) (s : string) : Z :=
  match s with
  | EmptyString => -1
  | String d r => if Ascii.eqb c d then i else find_char_from (i + 1) c r
  end.

Definition find_char (c : ascii) (s : string) : Z := find_char_from 0 c s.

(** [s.find(p)]: the first index at which [p] occurs, or -1 *)
Fixpoint find_from (i : Z) (p s : string) : Z :=
  if String.prefix p s then i
  else match s with
       | EmptyString => -1
       | String _ r => find_from (i + 1) p r
       end.

Definition find (p s : string) : Z := find_from 0 p s.

(** [s[a:b]] for [0 <= a <= b] *)
Definition slice (a b : Z) (s : string) : string :=
  String.substring (Z.to_nat a) (Z.to_nat (b - a)) s.

Fixpoint lstrip (s : string) : string :=
  match s with
  | String c r => if is_space c then lstrip r else s
  | EmptyString => EmptyString
  end.

(** the longest prefix of characters satisfying [p], and the rest *)
Fixpoint span (p : ascii -> bool) (s : string) : string * string :=
  match s with
  | String c r =>
      if p c then let '(a, b) := span p r in (String c a, b)
      else (EmptyString, s)
  | EmptyString => (EmptyString, EmptyString)
  end.

(** drops the trailing white space *)
Fixpoint rstrip (s : string) : string :=
  match s with
  | EmptyString => EmptyString
  | String c r =>
      match rstrip r with
      | EmptyString => if is_space c then EmptyString else String c EmptyString
      | t => String c t
      end
  end.

(** [s.strip()] *)
Definition strip (s : string) : string := rstrip (lstrip s).

(** [s.split()[0]]: the first run of characters that are not white space;
    [None] where the list is empty and the index raises [IndexError] *)
Definition first_word (s : string) : option string :=
  match lstrip s with
  | EmptyString => None
  | t => Some (fst (span (fun c => negb (is_space c)) t))
  end.

(** [s.split(' ', 1)]: the text before the first space and, when there is
    a space, the text after it *)
Fixpoint split_space1 (s : string) : string * option string :=
  match s with
  | EmptyString => (EmptyString, None)
  | String c r =>
      if Ascii.eqb c " " then (EmptyString, Some r)
      else let '(a, b) := split_space1 r in (String c a, b)
  end.

(** [s.split("/")[-1]]: the text after the last slash *)
Fixpoint after_last_slash (s : string) : string :=
  match s with
  | EmptyString => EmptyString
  | String c r =>
      if contains "/" r then after_last_slash r
      else if Ascii.eqb c "/" then r else s
  end.

(** [s[:n]] *)
Definition take (n : nat) (s : string) : string := String.substring 0 n s.


(** [str(n)] for an integer: the decimal digits, after a minus sign for a
    negative number.  The fuel is the number of binary digits, which is at
    least the number of decimal digits. *)
Definition digit_char (d : Z) : ascii := ascii_of_nat (Z.to_nat (48 + d)).

Fixpoint str_digits (fuel : nat) (n : Z) (acc : string) : string :=
  match fuel with
  | O => acc
  | S k =>
      if n <? 10 then String (digit_char n) acc
      else str_digits k (n / 10) (String (digit_char (n mod 10)) acc)
  end.

Definition str (n : Z) : string :=
  if n <? 0 then String "-" (str_digits (S (Z.to_nat (Z.log2 (- n)))) (- n) "")
  else str_digits (S (Z.to_nat (Z.log2 n))) n "".

(** the white space that [int] skips at both ends of its argument: TAB, LF,
    VT, FF, CR and the space *)
Definition is_int_space (c : ascii) : bool :=
  ((9 <=? code c)%nat && (code c <=? 13)%nat) || (code c =? 32)%nat.

Fixpoint lstrip_by (p : ascii -> bool) (s : string) : string :=
  match s with
  | String c r => if p c then lstrip_by p r else s
  | EmptyString => EmptyString
  end.

Fixpoint rstrip_by (p : ascii -> bool) (s : string) : string :=
  match s with
  | EmptyString => EmptyString
  | String c r =>
      match rstrip_by p r with
      | EmptyString => if p c then EmptyString else String c EmptyString
      | t => String c t
      end
  end.

(** the digits of an integer literal after its first digit: digits, with
    single underscores between digits *)
Fixpoint int_tail (acc : Z) (s : string) : option Z :=
  match s with
  | EmptyString => Some acc
  | String c r =>
      if is_digit c then int_tail (10 * acc + digit_value c) r
      else if Ascii.eqb c "_" then
        match r with
        | String d _ => if is_digit d then int_tail acc r else None
        | EmptyString => None
        end
      else None
  end.

Definition int_body (s : string) : option Z :=
  match s with
  | String c _ => if is_digit c then int_tail 0 s else None
  | EmptyString => None
  end.

(** [int(s)] for an arbitrary text: white space at both ends is skipped,
    then an optional sign and the digits; [None] where [int] raises
    [ValueError] *)
Definition int_of (s : string) : option Z :=
  match rstrip_by is_int_space (lstrip_by is_int_space s) with
  | String c r =>
      if Ascii.eqb c "+" then int_body r
      else if Ascii.eqb c "-" then option_map Z.opp (int_body r)
      else int_body (String c r)
  | EmptyString => None
  end.

(** [s.split()]: the runs of characters that are not white space *)
Fixpoint split (s : string) : list string :=
  match s with
  | EmptyString => []
  | String c r =>
      if is_space c then split r
      else match r with
           | EmptyString => [String c EmptyString]
           | String d _ =>
               if is_space d then String c EmptyString :: split r
               else match split r with
                    | w :: ws => String c w :: ws
                    | [] => [String c EmptyString]
                    end
           end
  end.

(** [s.split(' ', 2)] when it has three parts *)
Definition split_space2 (s : string) : option (string * string * string) :=
  match split_space1 s with
  | (a, Some r) =>
      match split_space1 r with
      | (b, Some c) => Some (a, b, c)
      | (_, None) => None
      end
  | (_, None) => None
  end.

End Py.

(** ** Exceptions *)

Inductive pyexc : Type :=
| IndexError
| ValueError
| TypeError
| VkError        (* any exception raised by a call to the platform *)
| KeyError
| OverflowError
| OSError.

Inductive outcome (A : Type) : Type :=
| Ok (a : A)
| Raise (e : pyexc).
Arguments Ok {A} a.
Arguments Raise {A} e.

(** ** utils.py *)

Module Utils.

(** The pattern [^(\d+)([smhd])$] of [parse_time], matched against the
    lowered text: one or more digits, one unit letter, and then the end of
    the text or a single final line feed (which [$] accepts). *)
Definition match_time (s : string) : option (string * ascii) :=
  let '(digits, rest) := Py.span Py.is_digit s in
  match digits, rest with
  | String _ _, String u tail =>
      if (Ascii.eqb u "s" || Ascii.eqb u "m" || Ascii.eqb u "h" || Ascii.eqb u "d")
         && (String.eqb tail "" || String.eqb tail (String "010" ""))
      then Some (digits, u) else None
  | _, _ => None
  end.

Definition parse_time (time_str : string) : outcome Z :=
  if negb (Py.truthy time_str) then Raise ValueError
  else match match_time (Py.lower time_str) with
       | None => Raise ValueError
       | Some (value, unit) =>
           let value := Py.int value in
           if Ascii.eqb unit "s" then Ok value
           else if Ascii.eqb unit "m" then Ok (value * 60)
           else if Ascii.eqb unit "h" then Ok (value * 3600)
           else if Ascii.eqb unit "d" then Ok (value * 86400)
           else Raise ValueError
       end.


(** the dictionary [ROLE_HIERARCHY] of [utils.py], which [commands.py]
    imports *)
Definition ROLE_HIERARCHY : gmap string Z :=
  list_to_map [("user", 0); ("moderator", 1); ("senior_moderator", 2);
               ("admin", 3); ("creator", 4)].

(** [ROLE_HIERARCHY.get(role, 0)] *)
Definition rank (role : string) : Z := default 0 (ROLE_HIERARCHY !! role).

(** [parse_command]: the command name in lower case and the argument text *)
Definition parse_command (text : string) : string * string :=
  let text := if Py.startswith "/" text then Py.drop 1 text else text in
  let parts := Py.split_space1 text in
  let command := Py.lower (fst parts) in
  let args := match snd parts with Some rest => rest | None => "" end in
  (command, args).

(** [format_time_delta]; [//] and [%] are the floor division and its
    remainder *)
Definition format_time_delta (seconds : Z) : string :=
  if seconds <? 60 then (Py.str seconds ++ " сек.")%string
  else
    let minutes := seconds / 60 in
    if minutes <? 60 then (Py.str minutes ++ " мин.")%string
    else
      let hours := minutes / 60 in
      let minutes := minutes mod 60 in
      if hours <? 24 then
        if minutes =? 0 then (Py.str hours ++ " ч.")%string
        else (Py.str hours ++ " ч. " ++ Py.str minutes ++ " мин.")%string
      else
        let days := hours / 24 in
        let hours := hours mod 24 in
        if hours =? 0 then (Py.str days ++ " д.")%string
        else (Py.str days ++ " д. " ++ Py.str hours ++ " ч.")%string.

End Utils.


(** ** database.py *)

(** Texts that the handlers compose for the store.  A reason typed by a
    moderator is kept as it is; the two texts that the handlers build
    themselves are constructors that carry the interpolated value. *)
Inductive text : Type :=
| UserText (s : string)
| NotSpecified                   (* the default reason of warn and ban *)
| AutoBanReason (warn_count : Z) (* the reason of the automatic ban *).

(** a row of table [users] (the key [user_id] is the key of the map) *)
Record user_row : Type := mk_user {
  u_nickname : option string;
  u_role : string;
  u_messages_count : Z;
  u_warns : Z;
  u_mute_until : Z;
  u_ban_reason : option string;
  u_reg_date : Z }.

(** a row of table [warns] *)
Record warn_row : Type := mk_warn {
  w_id : Z;
  w_user_id : Z;
  w_reason : text;
  w_timestamp : Z }.

(** a row of table [bans] (keyed by [user_id]) *)
Record ban_row : Type := mk_ban {
  b_reason : text;
  b_ban_timestamp : Z }.

(** The four tables.  [t_warns] is in row order; [t_warns_seq] is the last
    key handed out by AUTOINCREMENT.  Foreign keys are declared by the schema
    but not enforced by the connection (no [PRAGMA foreign_keys]), so a row
    of [warns], [bans] or [conversation_roles] may name a user without a row
    in [users]. *)
Record DB : Type := mk_db {
  t_users : gmap Z user_row;
  t_warns : list warn_row;
  t_warns_seq : Z;
  t_bans : gmap Z ban_row;
  t_conversation_roles : gmap (Z * Z) string }.

Module Database.

(** sqlite3 passes a Python [int] to the engine as a signed integer of 64
    bits.  For any other [int] among the parameters, [execute] raises
    [OverflowError] and the statement is not run.  The functions below are
    the statements of [database.py] on parameters that are bound; [binds] is
    the test, which [Bot.binding] applies where a handler passes a number
    typed in a command. *)
Definition binds (n : Z) : bool := (- 2 ^ 63 <=? n) && (n <? 2 ^ 63).

(** the store after [init_db] on a fresh file *)
Definition init_db : DB := mk_db ∅ [] 0 ∅ ∅.

Definition with_users (d : DB) (us : gmap Z user_row) : DB :=
  mk_db us (t_warns d) (t_warns_seq d) (t_bans d) (t_conversation_roles d).

Definition with_bans (d : DB) (bs : gmap Z ban_row) : DB :=
  mk_db (t_users d) (t_warns d) (t_warns_seq d) bs (t_conversation_roles d).

Definition with_conversation_roles (d : DB) (rs : gmap (Z * Z) string) : DB :=
  mk_db (t_users d) (t_warns d) (t_warns_seq d) (t_bans d) rs.

Definition with_warns (d : DB) (ws : list warn_row) (seq : Z) : DB :=
  mk_db (t_users d) ws seq (t_bans d) (t_conversation_roles d).

(** the row that [INSERT INTO users (user_id, reg_date)] creates *)
Definition new_user (reg_date : Z) : user_row :=
  mk_user None "user" 0 0 0 None reg_date.

Definition set_warns (r : user_row) (n : Z) : user_row :=
  mk_user (u_nickname r) (u_role r) (u_messages_count r) n
          (u_mute_until r) (u_ban_reason r) (u_reg_date r).

Definition set_mute_until (r : user_row) (n : Z) : user_row :=
  mk_user (u_nickname r) (u_role r) (u_messages_count r) (u_warns r)
          n (u_ban_reason r) (u_reg_date r).

Definition set_user_role (r : user_row) (role : string) : user_row :=
  mk_user (u_nickname r) role (u_messages_count r) (u_warns r)
          (u_mute_until r) (u_ban_reason r) (u_reg_date r).

Definition set_messages_count (r : user_row) (n : Z) : user_row :=
  mk_user (u_nickname r) (u_role r) n (u_warns r)
          (u_mute_until r) (u_ban_reason r) (u_reg_date r).

(** truth value of an optional conversation id: [if peer_id] *)
Definition peer_truthy (peer_id : option Z) : option Z :=
  match peer_id with
  | Some p => if p =? 0 then None else Some p
  | None => None
  end.

(** [get_user]: the SELECT for a [user_id] that is bound *)
Definition get_user (d : DB) (user_id : Z) : option user_row :=
  t_users d !! user_id.

(** [INSERT OR IGNORE INTO users (user_id, reg_date)]; [now] is
    [int(time.time())].  Both parameters are bound. *)
Definition add_user (now : Z) (user_id : Z) (d : DB) : DB :=
  match t_users d !! user_id with
  | Some _ => d
  | None => with_users d (<[user_id := new_user now]> (t_users d))
  end.

(** insert with a count of 1, or add 1 to the count of the existing row *)
Definition update_message_count (now : Z) (user_id : Z) (d : DB) : DB :=
  match t_users d !! user_id with
  | Some r =>
      with_users d
        (<[user_id := set_messages_count r (u_messages_count r + 1)]> (t_users d))
  | None =>
      with_users d
        (<[user_id := set_messages_count (new_user now) 1]> (t_users d))
  end.

Definition get_warns (d : DB) (user_id : Z) : Z :=
  match t_users d !! user_id with
  | Some r => u_warns r
  | None => 0
  end.

(** [add_warn]: the three statements in order.  The last one indexes the
    fetched row; without a row of the user [fetchone()] is [None] and the
    index raises [TypeError], after the first statement has run. *)
Definition add_warn (now : Z) (user_id : Z) (reason : text) (d : DB)
  : outcome Z * DB :=
  let id := t_warns_seq d + 1 in
  let d1 := with_warns d (t_warns d ++ [mk_warn id user_id reason now]) id in
  let d2 :=
    match t_users d1 !! user_id with
    | Some r => with_users d1 (<[user_id := set_warns r (u_warns r + 1)]> (t_users d1))
    | None => d1
    end in
  match t_users d2 !! user_id with
  | Some r => (Ok (u_warns r), d2)
  | None => (Raise TypeError, d2)
  end.

(** the rows of one user, in row order *)
Definition warns_of (d : DB) (user_id : Z) : list warn_row :=
  List.filter (fun r => w_user_id r =? user_id) (t_warns d).

(** [ORDER BY timestamp DESC LIMIT 1]: a row with the greatest time stamp.
    SQL leaves the choice among equal time stamps open; the model takes the
    first such row in row order. *)
Fixpoint latest (best : option warn_row) (l : list warn_row) : option warn_row :=
  match l with
  | [] => best
  | r :: l' =>
      latest (match best with
              | None => Some r
              | Some b => if w_timestamp b <? w_timestamp r then Some r else Some b
              end) l'
  end.

Definition most_recent_warn (d : DB) (user_id : Z) : option warn_row :=
  latest None (warns_of d user_id).

(** [DELETE FROM warns WHERE id = ?] *)
Definition delete_warn (id : Z) (l : list warn_row) : list warn_row :=
  List.filter (fun r => negb (w_id r =? id)) l.

Definition remove_warn (user_id : Z) (d : DB) : Z * DB :=
  match most_recent_warn d user_id with
  | None => (0, d)
  | Some row =>
      let d1 := with_warns d (delete_warn (w_id row) (t_warns d)) (t_warns_seq d) in
      let d2 :=
        match t_users d1 !! user_id with
        | Some r =>
            with_users d1
              (<[user_id := set_warns r (Z.max 0 (u_warns r - 1))]> (t_users d1))
        | None => d1
        end in
      (get_warns d2 user_id, d2)
  end.

(** [set_mute]: an UPDATE, which changes nothing without a row of the
    user; the computed end of the mute is returned in both cases.  The
    parameters of the statement, [now + duration] and [user_id], are bound;
    the call with the test on the end of the mute is [Bot.db_set_mute]. *)
Definition set_mute (now : Z) (user_id : Z) (duration : Z) (reason : text) (d : DB)
  : Z * DB :=
  let mute_until := now + duration in
  (mute_until,
   match t_users d !! user_id with
   | Some r => with_users d (<[user_id := set_mute_until r mute_until]> (t_users d))
   | None => d
   end).

(** [remove_mute]: the UPDATE for a [user_id] that is bound; the result is
    [rowcount > 0] *)
Definition remove_mute (user_id : Z) (d : DB) : bool * DB :=
  match t_users d !! user_id with
  | Some r => (true, with_users d (<[user_id := set_mute_until r 0]> (t_users d)))
  | None => (false, d)
  end.

Definition get_mute (d : DB) (user_id : Z) : Z :=
  match t_users d !! user_id with
  | Some r => u_mute_until r
  | None => 0
  end.

(** [INSERT OR REPLACE INTO bans] *)
Definition ban_user (now : Z) (user_id : Z) (reason : text) (d : DB) : bool * DB :=
  (true, with_bans d (<[user_id := mk_ban reason now]> (t_bans d))).

Definition get_ban (d : DB) (user_id : Z) : option ban_row :=
  t_bans d !! user_id.

(** [set_role]: with a conversation id that counts as true, an upsert of
    the conversation row; otherwise an UPDATE of the global role.  The
    result is [rowcount > 0]. *)
Definition set_role (user_id : Z) (role : string) (peer_id : option Z) (d : DB)
  : bool * DB :=
  match peer_truthy peer_id with
  | Some p =>
      (true,
       with_conversation_roles d (<[(user_id, p) := role]> (t_conversation_roles d)))
  | None =>
      match t_users d !! user_id with
      | Some r => (true, with_users d (<[user_id := set_user_role r role]> (t_users d)))
      | None => (false, d)
      end
  end.

(** the global role as [get_role] reads it: the column, or "user" without
    a row *)
Definition global_role (d : DB) (user_id : Z) : string :=
  match t_users d !! user_id with
  | Some r => u_role r
  | None => "user"
  end.

(** [get_role]: the two SELECTs for a [user_id] and a [peer_id] that are
    bound *)
Definition get_role (d : DB) (user_id : Z) (peer_id : option Z) : string :=
  match peer_truthy peer_id with
  | Some p =>
      match t_conversation_roles d !! (user_id, p) with
      | Some role => role
      | None => global_role d user_id
      end
  | None => global_role d user_id
  end.


Definition set_nickname_of (r : user_row) (n : option string) : user_row :=
  mk_user n (u_role r) (u_messages_count r) (u_warns r)
          (u_mute_until r) (u_ban_reason r) (u_reg_date r).

(** [set_nickname]: an UPDATE; the result is [rowcount > 0] *)
Definition set_nickname (user_id : Z) (nickname : string) (d : DB) : bool * DB :=
  match t_users d !! user_id with
  | Some r =>
      (true,
       with_users d (<[user_id := set_nickname_of r (Some nickname)]> (t_users d)))
  | None => (false, d)
  end.

(** [remove_nickname]: the UPDATE that writes NULL *)
Definition remove_nickname (user_id : Z) (d : DB) : bool * DB :=
  match t_users d !! user_id with
  | Some r =>
      (true, with_users d (<[user_id := set_nickname_of r None]> (t_users d)))
  | None => (false, d)
  end.

(** the rows of table [users] in the order in which a query without
    ORDER BY scans them; SQL leaves that order open *)
Definition users_rows (d : DB) : list (Z * user_row) := map_to_list (t_users d).

(** The operator LIKE of the engine: [%] matches any run of characters, [_]
    matches exactly one character, and every other character matches itself
    without regard to the case of the ASCII letters. *)
Fixpoint like (pattern : string) : string -> bool :=
  match pattern with
  | EmptyString => fun s => match s with EmptyString => true | _ => false end
  | String c p =>
      if Ascii.eqb c "%" then
        fix star (s : string) : bool :=
          like p s || match s with
                      | EmptyString => false
                      | String _ r => star r
                      end
      else
        fun s =>
          match s with
          | EmptyString => false
          | String x r =>
              (Ascii.eqb c "_" || Ascii.eqb (Py.lower_char c) (Py.lower_char x))
              && like p r
          end
  end.

(** a dictionary with the keys "user_id", "nickname" and "role" *)
Record user_entry : Type := mk_entry {
  e_user_id : Z;
  e_nickname : option string;
  e_role : string }.

Definition entry_of (kv : Z * user_row) : user_entry :=
  mk_entry (fst kv) (u_nickname (snd kv)) (u_role (snd kv)).

(** [WHERE nickname LIKE '%<nickname>%']; a NULL nickname matches nothing *)
Definition find_user_by_nickname (nickname : string) (d : DB) : list user_entry :=
  map entry_of
      (List.filter
         (fun kv => match u_nickname (snd kv) with
                    | Some n => like ("%" ++ nickname ++ "%") n
                    | None => false
                    end)
         (users_rows d)).

(** [WHERE nickname IS NOT NULL] *)
Definition get_users_with_nicknames (d : DB) : list user_entry :=
  map entry_of
      (List.filter
         (fun kv => match u_nickname (snd kv) with Some _ => true | None => false end)
         (users_rows d)).

(** [WHERE nickname IS NULL]; the dictionaries have the keys "user_id" and
    "role" *)
Definition get_users_without_nicknames (d : DB) : list (Z * string) :=
  map (fun kv => (fst kv, u_role (snd kv)))
      (List.filter
         (fun kv => match u_nickname (snd kv) with Some _ => false | None => true end)
         (users_rows d)).

(** [ORDER BY key DESC]: a stable insertion sort.  Rows with equal keys keep
    their scan order; SQL leaves their order open. *)
Fixpoint insert_desc {A} (key : A -> Z) (x : A) (l : list A) : list A :=
  match l with
  | [] => [x]
  | y :: l' => if key y <=? key x then x :: l else y :: insert_desc key x l'
  end.

Definition order_by_desc {A} (key : A -> Z) (l : list A) : list A :=
  foldr (insert_desc key) [] l.

(** [ORDER BY key ASC] *)
Definition order_by_asc {A} (key : A -> Z) (l : list A) : list A :=
  order_by_desc (fun x => - key x) l.

(** [get_warn_history]: the rows of the user, the most recent first; the
    dictionaries have the keys "id", "reason" and "timestamp" of the row *)
Definition get_warn_history (d : DB) (user_id : Z) : list warn_row :=
  order_by_desc w_timestamp (warns_of d user_id).

(** a dictionary with the keys "user_id", "nickname" and "mute_until" *)
Record mute_entry : Type := mk_mute_entry {
  me_user_id : Z;
  me_nickname : option string;
  me_mute_until : Z }.

(** [get_muted_users]; [current_time] is [int(time.time())] *)
Definition get_muted_users (current_time : Z) (d : DB) : list mute_entry :=
  map (fun kv => mk_mute_entry (fst kv) (u_nickname (snd kv)) (u_mute_until (snd kv)))
      (order_by_desc (fun kv => u_mute_until (snd kv))
         (List.filter (fun kv => u_mute_until (snd kv) >? current_time)
                      (users_rows d))).

(** [unban_user]: a DELETE; the result is [rowcount > 0] *)
Definition unban_user (user_id : Z) (d : DB) : bool * DB :=
  match t_bans d !! user_id with
  | Some _ => (true, with_bans d (delete user_id (t_bans d)))
  | None => (false, d)
  end.

(** the nickname that a LEFT JOIN with [users] gives: NULL without a row *)
Definition joined_nickname (d : DB) (user_id : Z) : option string :=
  match t_users d !! user_id with
  | Some r => u_nickname r
  | None => None
  end.

(** a dictionary with the keys "user_id", "nickname", "reason" and
    "ban_timestamp" *)
Record ban_entry : Type := mk_ban_entry {
  be_user_id : Z;
  be_nickname : option string;
  be_reason : text;
  be_ban_timestamp : Z }.

Definition get_banned_users (d : DB) : list ban_entry :=
  map (fun kv => mk_ban_entry (fst kv) (joined_nickname d (fst kv))
                              (b_reason (snd kv)) (b_ban_timestamp (snd kv)))
      (order_by_desc (fun kv => b_ban_timestamp (snd kv)) (map_to_list (t_bans d))).

(** the CASE expression by which [get_staff] orders its rows *)
Definition staff_order (role : string) : Z :=
  if String.eqb role "creator" then 5
  else if String.eqb role "admin" then 4
  else if String.eqb role "senior_moderator" then 3
  else if String.eqb role "moderator" then 2
  else 1.

(** [get_staff]: with a conversation id that counts as true, the overrides
    of that conversation other than "user"; otherwise the global roles other
    than "user" *)
Definition get_staff (peer_id : option Z) (d : DB) : list user_entry :=
  match peer_truthy peer_id with
  | Some p =>
      map (fun kv => mk_entry (fst (fst kv)) (joined_nickname d (fst (fst kv)))
                              (snd kv))
          (order_by_desc (fun kv => staff_order (snd kv))
             (List.filter
                (fun kv => (snd (fst kv) =? p) && negb (String.eqb (snd kv) "user"))
                (map_to_list (t_conversation_roles d))))
  | None =>
      map entry_of
          (order_by_desc (fun kv => staff_order (u_role (snd kv)))
             (List.filter (fun kv => negb (String.eqb (u_role (snd kv)) "user"))
                          (users_rows d)))
  end.

(** a dictionary with the keys "user_id", "nickname", "messages_count" and
    "role" *)
Record inactive_entry : Type := mk_inactive_entry {
  ie_user_id : Z;
  ie_nickname : option string;
  ie_messages_count : Z;
  ie_role : string }.

(** [get_inactive_users]; [now] is [int(time.time())].  The parameter of
    the query, [threshold_timestamp], is bound; the call with the test on it
    is [Bot.db_get_inactive_users]. *)
Definition get_inactive_users (now : Z) (threshold_days : Z) (d : DB)
  : list inactive_entry :=
  let threshold_timestamp := now - threshold_days * 86400 in
  map (fun kv => mk_inactive_entry (fst kv) (u_nickname (snd kv))
                                   (u_messages_count (snd kv)) (u_role (snd kv)))
      (order_by_asc (fun kv => u_reg_date (snd kv))
         (List.filter
            (fun kv => (u_reg_date (snd kv) <? threshold_timestamp)
                       && (u_messages_count (snd kv) <? 5))
            (users_rows d))).

End Database.

(** ** The chat platform, the configuration and the state of the process *)

(** argument [user_ids] of [users.get]: a numeric id or a screen name *)
Inductive user_ref : Type :=
| ById (id : Z)
| ByName (screen_name : string).

(** an entry of the answer of [users.get] *)
Record profile : Type := mk_profile {
  p_id : Z;
  p_first_name : string;
  p_last_name : string }.

(** an entry of ["items"] in the answer of [messages.getConversationMembers] *)
Record member_item : Type := mk_item {
  member_id : Z;
  is_owner : bool }.

(** the call shapes that [delete_message] tries *)
Inductive delete_shape : Type :=
| ByCmids | ByIdList | ByIdString | ByMessageIds.

(** The platform as the process sees it.  Every external call (a request to
    the platform or a reading of the clock) consumes one call number; the
    answer may depend on the call number and on the arguments.  [None] and
    [false] stand for a call that raises. *)
Record env : Type := mk_env {
  clock : nat -> Q;
  users_get : nat -> user_ref -> option (list profile);
  get_conversation_members : nat -> Z -> option (list member_item);
  messages_send : nat -> Z -> option Z;
  messages_remove_chat_user : nat -> Z -> Z -> bool;
  messages_delete : nat -> Z -> Z -> delete_shape -> bool }.

(** [log_peer_id] as the code uses it: it tests its truth value and applies
    [int] to it. *)
Inductive log_target : Type :=
| LogOff                (* unset or empty *)
| LogPeer (peer : Z)    (* [int(log_peer_id)] is [peer] *)
| LogInvalid            (* set, but [int(log_peer_id)] raises *).

Record config : Type := mk_config {
  command_cooldown : Z;
  log_peer_id : log_target }.

(** a displayed name: first and last name from the profile, or a fallback *)
Inductive name : Type :=
| FullName (first_name last_name : string)
| IdName (id : Z)      (* "ID: <id>" *)
| PlainUser            (* the word for "user" *)
| NotAvailable         (* "N/A" *)
| NickName (nickname : string)   (* a stored nickname *).

(** the [details] of an audit entry *)
Inductive details : Type :=
| DetWarn (reason : text) (warn_count : Z)
| DetAutoBan (warn_count : Z)
| DetBan (reason : text)
| DetAdminRemoved
| DetMessage (log_text : string)
| DetKicked
| DetUnwarn (warn_count : Z)
| DetMute (reason : text) (duration : string) (mute_until : Z)
| DetUnmuted
| DetUnbanned
| DetPromoted (role : string)
| DetRoleRemoved (role : string)
| DetMasskick (kicked_count total : Z)
| DetStartOwner
| DetStartAdmin.

(** the arguments of one call of [send_log_message] *)
Record audit_entry : Type := mk_audit {
  a_action : string;
  a_admin : Z;
  a_target : option Z;
  a_peer : option Z;
  a_details : option details }.

(** what the notice of [handle_command] asks for when a command is given
    as a reply without its further arguments *)
Inductive missing : Type :=
| MissingReason              (* warn, ban *)
| MissingDurationAndReason   (* mute *)
| MissingNickname            (* setnick *)
| MissingRoleReason          (* addmoder, addsenmoder, addadmin, removerole,
                                removeadmin *).

(** The texts sent to a conversation, one constructor per template of the
    source, with the interpolated values. *)
Inductive message : Type :=
| MsgNoRights (user : Z)
| MsgCommandError
| MsgWarnUsage
| MsgBanUsage
| MsgNeedUser
| MsgUnresolved
| MsgWarnStaff
| MsgWarned (target : Z) (user_name : name) (actor : Z) (admin_name : name)
            (reason : text) (warn_count : Z)
| MsgAutoBanned (target : Z) (user_name : name) (warn_count : Z)
| MsgBanStaff (target : Z) (user_name : name)
| MsgBanned (target : Z) (user_name : name) (actor : Z) (admin_name : name)
            (reason : text) (ban_time : Z)
| MsgBanFailed (target : Z) (user_name : name)
| MsgNotAdmin (target : Z)
| MsgAdminRemoved (target : Z) (user_name : name)
| MsgRemoveAdminFailed (target : Z)
| MsgMuted (user : Z) (time_left : Z)
| MsgLog (e : audit_entry) (admin_name target_name : name) (timestamp : Q)
| MsgSpam (user : Z)
| MsgSpecify (what : option missing)
| MsgYourId (user : Z)
| MsgKickUsage
| MsgKickStaff (target : Z) (user_name : name)
| MsgKicked (target : Z) (user_name : name) (actor : Z) (admin_name : name)
| MsgKickFailed (target : Z) (user_name : name)
| MsgUnwarned (target : Z) (user_name : name) (actor : Z) (admin_name : name)
              (warn_count : Z)
| MsgMuteUsage
| MsgMuteStaff
| MsgMuteBadTime
| MsgMuteSet (target : Z) (user_name : name) (actor : Z) (admin_name : name)
             (reason : text) (duration : string) (mute_until : Z)
| MsgUnmuted (target : Z)
| MsgNotMuted (target : Z)
| MsgUnbanned (target : Z) (user_name : name) (actor : Z) (admin_name : name)
| MsgNotBanned (target : Z) (user_name : name)
| MsgPromoted (role : string) (target : Z) (user_name : name)
| MsgPromoteFailed (role : string) (target : Z) (user_name : name)
| MsgNoSpecialRole (target : Z)
| MsgRankTooLow
| MsgRoleRemoved (target : Z) (user_name : name)
| MsgRemoveRoleFailed (target : Z)
| MsgMasskickUsage
| MsgMasskickNoIds
| MsgMasskickStart (total : Z)
| MsgMasskickDone (kicked_count total : Z)
| MsgAlreadyActive
| MsgActivatedOwner (user : Z) (user_name : name)
| MsgActivated
| MsgActivationFailed (user : Z) (user_name : name)
| MsgNoInactive (days : Z)
| MsgSetnickUsage
| MsgNeedUserId
| MsgBadUserId
| MsgNickSet (target : Z) (nickname : string)
| MsgNickSetFailed (target : Z)
| MsgNickRemoved (target : Z)
| MsgNickRemoveFailed (target : Z)
| MsgNeedMessageId
| MsgBadMessageId
| MsgDeleted (message_id : Z)
| MsgDeleteFailed (message_id : Z).

(** calls of the functions of [database.py] that write *)
Inductive store_call : Type :=
| CallAddUser (user_id : Z)
| CallUpdateMessageCount (user_id : Z)
| CallAddWarn (user_id : Z) (reason : text)
| CallBanUser (user_id : Z) (reason : text)
| CallSetRole (user_id : Z) (role : string) (peer_id : option Z)
| CallSetNickname (user_id : Z) (nickname : string)
| CallRemoveNickname (user_id : Z)
| CallRemoveWarn (user_id : Z)
| CallSetMute (user_id duration : Z) (reason : text)
| CallRemoveMute (user_id : Z)
| CallUnbanUser (user_id : Z).

(** What the process does to the outside, in order: requests that change
    something on the platform, writes to the store, and the entry of
    [send_log_message] (an audit attempt; whether a text reaches the logging
    conversation is decided inside it). *)
Inductive event : Type :=
| EvSend (peer : Z) (m : message)
| EvRemoveChatUser (chat_id user_id : Z)
| EvDelete (peer message_id : Z) (shape : delete_shape)
| EvStore (c : store_call)
| EvAudit (e : audit_entry).

Record world : Type := mk_world {
  st_db : DB;
  st_last_command_time : gmap Z Q;
  st_calls : nat;
  st_trace : list event }.

(** ** The monad of the handlers *)

Definition M (A : Type) : Type := world -> outcome A * world.

Definition ret {A} (a : A) : M A := fun w => (Ok a, w).

Definition bind {A B} (m : M A) (k : A -> M B) : M B :=
  fun w => match m w with
           | (Ok a, w1) => k a w1
           | (Raise e, w1) => (Raise e, w1)
           end.

Definition raise {A} (e : pyexc) : M A := fun w => (Raise e, w).

(** [try: m except Exception: h] *)
Definition try_except {A} (m : M A) (h : M A) : M A :=
  fun w => match m w with
           | (Ok a, w1) => (Ok a, w1)
           | (Raise _, w1) => h w1
           end.

Notation "x <- m ;; k" := (bind m (fun x => k))
  (at level 63, m at next level, right associativity).
Notation "m >> k" := (bind m (fun _ => k))
  (at level 63, right associativity).

Definition tick (w : world) : world :=
  mk_world (st_db w) (st_last_command_time w) (S (st_calls w)) (st_trace w).

(** an external call that cannot raise *)
Definition external {A} (f : nat -> A) : M A :=
  fun w => (Ok (f (st_calls w)), tick w).

(** an external call that raises where the answer is [None] *)
Definition request {A} (f : nat -> option A) : M A :=
  fun w => match f (st_calls w) with
           | Some a => (Ok a, tick w)
           | None => (Raise VkError, tick w)
           end.

Definition emit (ev : event) : M unit :=
  fun w => (Ok tt, mk_world (st_db w) (st_last_command_time w) (st_calls w)
                            (st_trace w ++ [ev])).

Definition get_db : M DB := fun w => (Ok (st_db w), w).

Definition put_db (d : DB) : M unit :=
  fun w => (Ok tt, mk_world d (st_last_command_time w) (st_calls w) (st_trace w)).

Definition skip : M unit := ret tt.

(** [int(x)] on a float: truncation towards zero *)
Definition int_of_float (x : Q) : Z := Z.quot (Qnum x) (Zpos (Qden x)).

Definition Qlt_bool (a b : Q) : bool := negb (Qle_bool b a).

(** ** bot.py *)

Module Bot.

(** the dictionary [ROLE_HIERARCHY] of [bot.py] *)
Definition ROLE_HIERARCHY : gmap string Z :=
  list_to_map [("user", 1); ("moderator", 2); ("senior_moderator", 3);
               ("admin", 4); ("creator", 5)].

(** [ROLE_HIERARCHY.get(role, 0)] *)
Definition rank (role : string) : Z := default 0 (ROLE_HIERARCHY !! role).

(** [check_access] reads nothing but the store *)
Definition check_access (d : DB) (user_id : Z) (required_role : string)
           (peer_id : option Z) : bool :=
  match peer_id with
  | Some p => rank (Database.get_role d user_id (Some p)) >=? rank required_role
  | None =>
      match Database.get_user d user_id with
      | None => false
      | Some user => rank (u_role user) >=? rank required_role
      end
  end.

(** the loop of [get_conversation_owner] over the items *)
Fixpoint first_owner (items : list member_item) : option Z :=
  match items with
  | [] => None
  | item :: rest => if is_owner item then Some (member_id item) else first_owner rest
  end.

(** the owner that an answer of the platform designates; a failed request
    designates none *)
Definition owner_in (answer : option (list member_item)) : option Z :=
  match answer with
  | Some items => first_owner items
  | None => None
  end.

(** [owner_id == user_id] *)
Definition same_user (owner_id : option Z) (user_id : Z) : bool :=
  match owner_id with
  | Some o => o =? user_id
  | None => false
  end.

(** truth value of an optional number: [if target_id] *)
Definition truthy_id (x : option Z) : option Z :=
  match x with
  | Some n => if n =? 0 then None else Some n
  | None => None
  end.

(** *** Regular expressions of the mention resolver *)

(** [(?:https?://)?]: the scheme, when the text starts with one *)
Definition skip_scheme (s : string) : string :=
  if Py.startswith "https://" s then Py.drop 8 s
  else if Py.startswith "http://" s then Py.drop 7 s
  else s.

(** [(?:www\.)?] *)
Definition skip_www (s : string) : string :=
  if Py.startswith "www." s then Py.drop 4 s else s.

(** [re.match] of [(?:https?://)?(?:www\.)?<host>/id(\d+)]: group 1 *)
Definition match_id_url (host : string) (s : string) : option string :=
  let rest := skip_www (skip_scheme s) in
  let lit := (host ++ "/id")%string in
  if Py.startswith lit rest then
    match fst (Py.span Py.is_digit (Py.drop (String.length lit) rest)) with
    | EmptyString => None
    | digits => Some digits
    end
  else None.

(** [re.match] of [(?:https?://)?(?:www\.)?vk\.com/.*] *)
Definition match_any_url (s : string) : bool :=
  Py.startswith "vk.com/" (skip_www (skip_scheme s)).

(** the three patterns of [vk_url_patterns]; the result of [re.match] is
    the list of the groups of the match *)
Inductive url_pattern : Type := VkComId | VkMeId | VkComAny.

Definition vk_url_patterns : list url_pattern := [VkComId; VkMeId; VkComAny].

Definition re_match (p : url_pattern) (s : string) : option (list string) :=
  match p with
  | VkComId => match match_id_url "vk.com" s with Some g => Some [g] | None => None end
  | VkMeId => match match_id_url "vk.me" s with Some g => Some [g] | None => None end
  | VkComAny => if match_any_url s then Some [] else None
  end.

(** [\[id(\d+)\|[^\]]+\]] at the start of the text: group 1 *)
Definition markup_here (s : string) : option string :=
  if Py.startswith "[id" s then
    match Py.span Py.is_digit (Py.drop 3 s) with
    | (String d ds, String bar rest) =>
        if Ascii.eqb bar "|" then
          match Py.span (fun c => negb (Ascii.eqb c "]")) rest with
          | (String _ _, String _ _) => Some (String d ds)
          | _ => None
          end
        else None
    | _ => None
    end
  else None.

(** [re.search] of the markup pattern: the leftmost match *)
Fixpoint search_markup (s : string) : option string :=
  match markup_here s with
  | Some g => Some g
  | None => match s with
            | EmptyString => None
            | String _ r => search_markup r
            end
  end.

(** [re.search] of [@(\w+)]: group 1 of the leftmost match *)
Fixpoint search_handle (s : string) : option string :=
  match s with
  | EmptyString => None
  | String c r =>
      if Ascii.eqb c "@" then
        match fst (Py.span Py.is_word r) with
        | EmptyString => search_handle r
        | w => Some w
        end
      else search_handle r
  end.

(** the part of the bracketed branch between "id" and the bar *)
Definition bracket_id (first_word : string) : option Z :=
  if Py.startswith "[" first_word && Py.contains "|" first_word
     && Py.contains "]" first_word then
    let start_idx := Py.find "id" first_word + 2 in
    let end_idx := Py.find_char "|" first_word in
    if (start_idx >? 1) && (end_idx >? start_idx) then
      let user_id_str := Py.slice start_idx end_idx first_word in
      if Py.isdigit user_id_str then Some (Py.int user_id_str) else None
    else None
  else None.

Section WithPlatform.

Variable E : env.
Variable C : config.

Definition time_time : M Q := external (clock E).

(** [int(time.time())] *)
Definition int_time : M Z := t <- time_time ;; ret (int_of_float t).

Definition send_message (peer_id : Z) (m : message) : M (option Z) :=
  emit (EvSend peer_id m) >>
  external (fun n => messages_send E n peer_id).

Definition try_delete (peer_id message_id : Z) (shape : delete_shape) : M bool :=
  emit (EvDelete peer_id message_id shape) >>
  external (fun n => messages_delete E n peer_id message_id shape).

Definition delete_message (peer_id message_id : Z) : M bool :=
  if peer_id >? 2000000000 then
    ok1 <- try_delete peer_id message_id ByCmids ;;
    if ok1 then ret true else
    ok2 <- try_delete peer_id message_id ByIdList ;;
    if ok2 then ret true else
    try_delete peer_id message_id ByIdString
  else try_delete peer_id message_id ByMessageIds.

(** [self.vk.users.get(...)] *)
Definition vk_users_get (r : user_ref) : M (list profile) :=
  request (fun n => users_get E n r).

(** [self.vk.users.get(user_ids=..., fields=...)[0]] *)
Definition first_profile (id : Z) : M profile :=
  l <- vk_users_get (ById id) ;;
  match l with
  | p :: _ => ret p
  | [] => raise IndexError
  end.

Definition full_name (p : profile) : name :=
  FullName (p_first_name p) (p_last_name p).

(** the [try] blocks of the handlers that compute a displayed name *)
Definition name_or (fallback : name) (id : Z) : M name :=
  try_except (p <- first_profile id ;; ret (full_name p)) (ret fallback).

Definition send_log_message (action : string) (admin_id : Z)
           (target_id : option Z) (peer_id : option Z)
           (det : option details) : M bool :=
  let entry := mk_audit action admin_id target_id peer_id det in
  emit (EvAudit entry) >>
  match log_peer_id C with
  | LogOff => ret false
  | target =>
      try_except
        (admin_info <- first_profile admin_id ;;
         target_name <-
           match truthy_id target_id with
           | Some t => name_or (IdName t) t
           | None => ret NotAvailable
           end ;;
         timestamp <- time_time ;;
         match target with
         | LogPeer lp =>
             result <- send_message lp
               (MsgLog entry (full_name admin_info) target_name timestamp) ;;
             ret (match result with Some _ => true | None => false end)
         | _ => raise ValueError
         end)
        (ret false)
  end.

Definition get_conversation_owner (peer_id : Z) : M (option Z) :=
  answer <- external (fun n => get_conversation_members E n peer_id) ;;
  ret (owner_in answer).

Definition is_conversation_owner (peer_id user_id : Z) : M bool :=
  owner_id <- get_conversation_owner peer_id ;;
  ret (same_user owner_id user_id).

Definition kick_user (peer_id user_id : Z) : M bool :=
  emit (EvRemoveChatUser (peer_id - 2000000000) user_id) >>
  external (fun n => messages_remove_chat_user E n (peer_id - 2000000000) user_id).

(** [check_access] as a step of a handler *)
Definition check_access_m (user_id : Z) (required_role : string)
           (peer_id : option Z) : M bool :=
  d <- get_db ;; ret (check_access d user_id required_role peer_id).

Definition has_rights (peer_id user_id : Z) (required_role : string) : M bool :=
  is_owner <- is_conversation_owner peer_id user_id ;;
  has_role_access <- check_access_m user_id required_role (Some peer_id) ;;
  ret (is_owner || has_role_access).

(** [check_cooldown].  The difference of the two floats is taken as the
    exact difference. *)
Definition check_cooldown (user_id : Z) : M bool :=
  now <- time_time ;;
  fun w =>
    let on_cooldown :=
      match st_last_command_time w !! user_id with
      | Some last => Qlt_bool (now - last) (inject_Z (command_cooldown C))
      | None => false
      end in
    if on_cooldown then (Ok false, w)
    else (Ok true,
          mk_world (st_db w) (<[user_id := now]> (st_last_command_time w))
                   (st_calls w) (st_trace w)).

Definition is_muted (user_id : Z) : M bool :=
  d <- get_db ;;
  let mute_until := Database.get_mute d user_id in
  now <- int_time ;;
  ret (mute_until >? now).

(** the lookups of a screen name in the resolver:
    [user_info = self.vk.users.get(user_ids=screen_name)] and the test
    [if user_info and len(user_info) > 0], inside [try ... except] *)
Definition lookup_screen_name (screen_name : string) : M (option Z) :=
  try_except
    (user_info <- vk_users_get (ByName screen_name) ;;
     match user_info with
     | p :: _ => ret (Some (p_id p))
     | [] => ret None
     end)
    (ret None).

(** one round of the loop over [vk_url_patterns]; [Some id] is a
    [return id], [None] goes on *)
Definition url_round (pattern : url_pattern) (first_word : string) : M (option Z) :=
  match re_match pattern first_word with
  | None => ret None
  | Some groups =>
      match groups with
      | g :: _ =>
          if Py.isdigit g then ret (Some (Py.int g))
          else
            let screen_name := Py.after_last_slash first_word in
            if Py.truthy screen_name then lookup_screen_name screen_name
            else ret None
      | [] =>
          let screen_name := Py.after_last_slash first_word in
          if Py.truthy screen_name then lookup_screen_name screen_name
          else ret None
      end
  end.

Fixpoint url_loop (patterns : list url_pattern) (first_word : string)
  : M (option Z) :=
  match patterns with
  | [] => ret None
  | pattern :: rest =>
      r <- url_round pattern first_word ;;
      match r with
      | Some id => ret (Some id)
      | None => url_loop rest first_word
      end
  end.

(** the body of the outer [try] of [extract_user_id_from_mention] *)
Definition extract_body (mention : string) : M (option Z) :=
  first_word <-
    (if Py.contains " " mention then
       match Py.first_word mention with
       | Some w => ret w
       | None => raise IndexError
       end
     else ret mention) ;;
  if Py.isdigit first_word then ret (Some (Py.int first_word)) else
  match bracket_id first_word with
  | Some id => ret (Some id)
  | None =>
  by_url <- url_loop vk_url_patterns first_word ;;
  match by_url with
  | Some id => ret (Some id)
  | None =>
  by_handle <-
    (if Py.startswith "@" first_word
     then lookup_screen_name (Py.drop 1 first_word)
     else ret None) ;;
  match by_handle with
  | Some id => ret (Some id)
  | None =>
  if Py.contains " " mention then
    match search_markup mention with
    | Some g => ret (Some (Py.int g))
    | None =>
        match search_handle mention with
        | Some screen_name => lookup_screen_name screen_name
        | None => ret None
        end
    end
  else ret None
  end end end.

Definition extract_user_id_from_mention (mention : string) : M (option Z) :=
  try_except (extract_body mention) (ret None).

(** the fields of an incoming message that [handle_message] reads *)
Record incoming : Type := mk_incoming {
  in_peer_id : Z;
  in_from_id : Z;
  in_text : string;
  in_id : option Z }.

(** *** The store as the handlers call it *)

Definition db_add_user (user_id : Z) : M unit :=
  now <- int_time ;;
  emit (EvStore (CallAddUser user_id)) >>
  d <- get_db ;; put_db (Database.add_user now user_id d).

Definition db_update_message_count (user_id : Z) : M unit :=
  now <- int_time ;;
  emit (EvStore (CallUpdateMessageCount user_id)) >>
  d <- get_db ;; put_db (Database.update_message_count now user_id d).

Definition db_add_warn (user_id : Z) (reason : text) : M Z :=
  now <- int_time ;;
  emit (EvStore (CallAddWarn user_id reason)) >>
  d <- get_db ;;
  let '(r, d') := Database.add_warn now user_id reason d in
  put_db d' >>
  match r with
  | Ok n => ret n
  | Raise e => raise e
  end.

Definition db_ban_user (user_id : Z) (reason : text) : M bool :=
  now <- int_time ;;
  emit (EvStore (CallBanUser user_id reason)) >>
  d <- get_db ;;
  let '(r, d') := Database.ban_user now user_id reason d in
  put_db d' >> ret r.

Definition db_set_role (user_id : Z) (role : string) (peer_id : option Z) : M bool :=
  emit (EvStore (CallSetRole user_id role peer_id)) >>
  d <- get_db ;;
  let '(r, d') := Database.set_role user_id role peer_id d in
  put_db d' >> ret r.

(** [is_banned] reads nothing but the store *)
Definition is_banned (d : DB) (user_id : Z) : bool :=
  match Database.get_ban d user_id with
  | Some _ => true
  | None => false
  end.

(** *** Calls of the store with a number typed in a command *)

(** a call of [database.py] that passes [n] to the engine: [OverflowError]
    when [n] is not bound, and the call otherwise *)
Definition binding {A} (n : Z) (call : M A) : M A :=
  if Database.binds n then call else raise OverflowError.

(** *** The store as the further handlers call it *)

Definition db_get_role (user_id : Z) (peer_id : option Z) : M string :=
  d <- get_db ;; ret (Database.get_role d user_id peer_id).

Definition db_set_nickname (user_id : Z) (nickname : string) : M bool :=
  emit (EvStore (CallSetNickname user_id nickname)) >>
  d <- get_db ;;
  let '(r, d') := Database.set_nickname user_id nickname d in
  put_db d' >> ret r.

Definition db_remove_nickname (user_id : Z) : M bool :=
  emit (EvStore (CallRemoveNickname user_id)) >>
  d <- get_db ;;
  let '(r, d') := Database.remove_nickname user_id d in
  put_db d' >> ret r.

Definition db_remove_warn (user_id : Z) : M Z :=
  emit (EvStore (CallRemoveWarn user_id)) >>
  d <- get_db ;;
  let '(n, d') := Database.remove_warn user_id d in
  put_db d' >> ret n.

(** [set_mute] passes [int(time.time()) + duration] and [user_id] to the
    engine *)
Definition db_set_mute (user_id duration : Z) (reason : text) : M Z :=
  now <- int_time ;;
  binding (now + duration)
    (binding user_id
       (emit (EvStore (CallSetMute user_id duration reason)) >>
        d <- get_db ;;
        let '(mute_until, d') := Database.set_mute now user_id duration reason d in
        put_db d' >> ret mute_until)).

Definition db_remove_mute (user_id : Z) : M bool :=
  emit (EvStore (CallRemoveMute user_id)) >>
  d <- get_db ;;
  let '(r, d') := Database.remove_mute user_id d in
  put_db d' >> ret r.

Definition db_unban_user (user_id : Z) : M bool :=
  emit (EvStore (CallUnbanUser user_id)) >>
  d <- get_db ;;
  let '(r, d') := Database.unban_user user_id d in
  put_db d' >> ret r.

Definition db_get_staff (peer_id : option Z) : M (list Database.user_entry) :=
  d <- get_db ;; ret (Database.get_staff peer_id d).

(** [get_inactive_users] passes
    [int(time.time()) - threshold_days * 86400] to the engine *)
Definition db_get_inactive_users (threshold_days : Z)
  : M (list Database.inactive_entry) :=
  now <- int_time ;;
  binding (now - threshold_days * 86400)
    (d <- get_db ;; ret (Database.get_inactive_users now threshold_days d)).

(** *** Incoming messages *)

(** [handle_command] is a parameter: the statements below concern the
    branch of [handle_message] for a text that is not a command. *)
Variable handle_command : Z -> Z -> string -> incoming -> M unit.

Definition handle_message (message : incoming) : M unit :=
  let peer_id := in_peer_id message in
  let user_id := in_from_id message in
  let text := Py.strip (in_text message) in
  db_add_user user_id >>
  db_update_message_count user_id >>
  if Py.startswith "/" text then handle_command peer_id user_id text message
  else
    (match log_peer_id C with
     | LogOff => skip
     | _ =>
         if peer_id >? 2000000000 then
           let log_text :=
             if (100 <? String.length text)%nat
             then (Py.take 97 text ++ "...")%string else text in
           send_log_message "message" user_id None (Some peer_id)
                            (Some (DetMessage log_text)) >> skip
         else skip
     end) >>
    muted <- is_muted user_id ;;
    staff <- (if muted then check_access_m user_id "moderator" None else ret false) ;;
    if muted && negb staff then
      d <- get_db ;;
      let mute_until := Database.get_mute d user_id in
      now <- int_time ;;
      let time_left := mute_until - now in
      if time_left >? 0 then
        (match truthy_id (in_id message) with
         | Some message_id => delete_message peer_id message_id >> skip
         | None => skip
         end) >>
        send_message peer_id (MsgMuted user_id time_left) >> skip
      else skip
    else skip.

End WithPlatform.

End Bot.

(** ** commands.py *)

Module Commands.

Section WithPlatform.

Variable E : env.
Variable C : config.

(** [' ' not in args] together with [not args] *)
Definition lacks_second_part (args : string) : bool :=
  negb (Py.truthy args) || negb (Py.contains " " args).

(** [parts = args.strip().split(' ', 1)] *)
Definition parts_of (args : string) : string * option string :=
  Py.split_space1 (Py.strip args).

(** [reason = parts[1] if len(parts) > 1 else <default>] *)
Definition reason_of (parts : string * option string) : text :=
  match snd parts with
  | Some r => UserText r
  | None => NotSpecified
  end.

(** the staff protection of kick, warn, mute and ban:
    [check_access(target_id, "moderator") and not check_access(user_id, "admin")],
    both without a conversation id *)
Definition staff_protected (target_id user_id : Z) : M bool :=
  target_is_staff <- Bot.check_access_m target_id "moderator" None ;;
  if target_is_staff then
    actor_is_admin <- Bot.check_access_m user_id "admin" None ;;
    ret (negb actor_is_admin)
  else ret false.

Definition cmd_warn (peer_id user_id : Z) (args : string) : M unit :=
  if lacks_second_part args then
    Bot.send_message E peer_id MsgWarnUsage >> skip
  else
    let parts := parts_of args in
    let user_identifier := fst parts in
    let reason := reason_of parts in
    found <- Bot.extract_user_id_from_mention E user_identifier ;;
    match Bot.truthy_id found with
    | None => Bot.send_message E peer_id MsgUnresolved >> skip
    | Some target_id =>
        protected <- Bot.binding target_id (staff_protected target_id user_id) ;;
        if protected then
          Bot.send_message E peer_id MsgWarnStaff >> skip
        else
          Bot.db_add_user E target_id >>
          user_name <- Bot.name_or E (IdName target_id) target_id ;;
          admin_name <- Bot.name_or E (IdName user_id) user_id ;;
          warn_count <- Bot.db_add_warn E target_id reason ;;
          Bot.send_message E peer_id
            (MsgWarned target_id user_name user_id admin_name reason warn_count) >>
          Bot.send_log_message E C "warn" user_id (Some target_id) (Some peer_id)
            (Some (DetWarn reason warn_count)) >>
          if warn_count >=? 3 then
            Bot.db_ban_user E target_id (AutoBanReason warn_count) >>
            Bot.send_message E peer_id
              (MsgAutoBanned target_id user_name warn_count) >>
            Bot.kick_user E peer_id target_id >>
            Bot.send_log_message E C "ban" user_id (Some target_id) (Some peer_id)
              (Some (DetAutoBan warn_count)) >>
            skip
          else skip
    end.

Definition cmd_ban (peer_id user_id : Z) (args : string) : M unit :=
  if lacks_second_part args then
    Bot.send_message E peer_id MsgBanUsage >> skip
  else
    let parts := parts_of args in
    let user_identifier := fst parts in
    let reason := reason_of parts in
    found <- Bot.extract_user_id_from_mention E user_identifier ;;
    match Bot.truthy_id found with
    | None => Bot.send_message E peer_id MsgUnresolved >> skip
    | Some target_id =>
        user_name <- Bot.name_or E (IdName target_id) target_id ;;
        admin_name <- Bot.name_or E (IdName user_id) user_id ;;
        protected <- Bot.binding target_id (staff_protected target_id user_id) ;;
        if protected then
          Bot.send_message E peer_id (MsgBanStaff target_id user_name) >> skip
        else
          Bot.db_add_user E target_id >>
          banned <- Bot.db_ban_user E target_id reason ;;
          if banned then
            ban_time <- Bot.int_time E ;;
            Bot.send_message E peer_id
              (MsgBanned target_id user_name user_id admin_name reason ban_time) >>
            Bot.send_log_message E C "ban" user_id (Some target_id) (Some peer_id)
              (Some (DetBan reason)) >>
            Bot.kick_user E peer_id target_id >>
            skip
          else
            Bot.send_message E peer_id (MsgBanFailed target_id user_name) >> skip
    end.

Definition cmd_removeadmin (peer_id user_id : Z) (args : string) : M unit :=
  if negb (Py.truthy args) then
    Bot.send_message E peer_id MsgNeedUser >> skip
  else
    let parts := parts_of args in
    let user_identifier := fst parts in
    found <- Bot.extract_user_id_from_mention E user_identifier ;;
    found <-
      match Bot.truthy_id found with
      | Some id => ret (Some id)
      | None => Bot.extract_user_id_from_mention E args
      end ;;
    match Bot.truthy_id found with
    | None => Bot.send_message E peer_id MsgUnresolved >> skip
    | Some target_id =>
        user_role <-
          Bot.binding target_id (Bot.db_get_role target_id (Some peer_id)) ;;
        if negb (String.eqb user_role "admin") then
          Bot.send_message E peer_id (MsgNotAdmin target_id) >> skip
        else
          user_name <- Bot.name_or E PlainUser target_id ;;
          done <- Bot.db_set_role target_id "user" (Some peer_id) ;;
          if done then
            Bot.send_message E peer_id (MsgAdminRemoved target_id user_name) >>
            Bot.send_log_message E C "remove_role" user_id (Some target_id)
              (Some peer_id) (Some DetAdminRemoved) >>
            skip
          else
            Bot.send_message E peer_id (MsgRemoveAdminFailed target_id) >> skip
    end.

(** *** Further handlers *)

(** [time.localtime] converts the time stamps of a range that the C library
    fixes, the years that its calendar type can hold.  For a bound integer
    outside that range it raises [OSError] where the platform counts time in
    64 bits, which is the case considered here.  [localtime_ok] is true on
    the range that is converted. *)
Variable localtime_ok : Z -> bool.

(** The block that most handlers repeat: the first word of the arguments is
    resolved and, when that gives nothing, the whole argument text; the
    result is the target if it counts as true. *)
Definition resolve_target (args : string) : M (option Z) :=
  let parts := parts_of args in
  let user_identifier := fst parts in
  found <- Bot.extract_user_id_from_mention E user_identifier ;;
  found <-
    match Bot.truthy_id found with
    | Some id => ret (Some id)
    | None => Bot.extract_user_id_from_mention E args
    end ;;
  ret (Bot.truthy_id found).

Definition cmd_getid (peer_id user_id : Z) (args : string) : M unit :=
  Bot.send_message E peer_id (MsgYourId user_id) >> skip.

Definition cmd_kick (peer_id user_id : Z) (args : string) : M unit :=
  if negb (Py.truthy args) then
    Bot.send_message E peer_id MsgKickUsage >> skip
  else
    target <- resolve_target args ;;
    match target with
    | None => Bot.send_message E peer_id MsgUnresolved >> skip
    | Some target_id =>
        user_name <- Bot.name_or E (IdName target_id) target_id ;;
        admin_name <- Bot.name_or E (IdName user_id) user_id ;;
        protected <- Bot.binding target_id (staff_protected target_id user_id) ;;
        if protected then
          Bot.send_message E peer_id (MsgKickStaff target_id user_name) >> skip
        else
          success <- Bot.kick_user E peer_id target_id ;;
          if success then
            Bot.send_message E peer_id
              (MsgKicked target_id user_name user_id admin_name) >>
            Bot.send_log_message E C "kick" user_id (Some target_id) (Some peer_id)
              (Some DetKicked) >>
            skip
          else
            Bot.send_message E peer_id (MsgKickFailed target_id user_name) >> skip
    end.

Definition cmd_unwarn (peer_id user_id : Z) (args : string) : M unit :=
  if negb (Py.truthy args) then
    Bot.send_message E peer_id MsgNeedUser >> skip
  else
    found <- Bot.extract_user_id_from_mention E args ;;
    match Bot.truthy_id found with
    | None => Bot.send_message E peer_id MsgUnresolved >> skip
    | Some target_id =>
        user_name <- Bot.name_or E (IdName target_id) target_id ;;
        admin_name <- Bot.name_or E (IdName user_id) user_id ;;
        warn_count <- Bot.binding target_id (Bot.db_remove_warn target_id) ;;
        Bot.send_message E peer_id
          (MsgUnwarned target_id user_name user_id admin_name warn_count) >>
        Bot.send_log_message E C "unwarn" user_id (Some target_id) (Some peer_id)
          (Some (DetUnwarn warn_count)) >>
        skip
    end.

Definition cmd_mute (peer_id user_id : Z) (args : string) : M unit :=
  match Py.split_space2 (Py.strip args) with
  | None => Bot.send_message E peer_id MsgMuteUsage >> skip
  | Some (who, duration_str, reason) =>
      found <- Bot.extract_user_id_from_mention E who ;;
      match Bot.truthy_id found with
      | None => Bot.send_message E peer_id MsgUnresolved >> skip
      | Some target_id =>
          protected <- Bot.binding target_id (staff_protected target_id user_id) ;;
          if protected then
            Bot.send_message E peer_id MsgMuteStaff >> skip
          else
            match Utils.parse_time duration_str with
            | Raise ValueError => Bot.send_message E peer_id MsgMuteBadTime >> skip
            | Raise e => raise e
            | Ok duration =>
                Bot.db_add_user E target_id >>
                user_name <- Bot.name_or E (IdName target_id) target_id ;;
                admin_name <- Bot.name_or E (IdName user_id) user_id ;;
                mute_until <- Bot.db_set_mute E target_id duration (UserText reason) ;;
                if negb (localtime_ok mute_until) then raise OSError else
                Bot.send_message E peer_id
                  (MsgMuteSet target_id user_name user_id admin_name
                              (UserText reason) (Utils.format_time_delta duration)
                              mute_until) >>
                Bot.send_log_message E C "mute" user_id (Some target_id)
                  (Some peer_id)
                  (Some (DetMute (UserText reason)
                                 (Utils.format_time_delta duration) mute_until)) >>
                skip
            end
      end
  end.

Definition cmd_unmute (peer_id user_id : Z) (args : string) : M unit :=
  if negb (Py.truthy args) then
    Bot.send_message E peer_id MsgNeedUser >> skip
  else
    target <- resolve_target args ;;
    match target with
    | None => Bot.send_message E peer_id MsgUnresolved >> skip
    | Some target_id =>
        success <- Bot.binding target_id (Bot.db_remove_mute target_id) ;;
        if success then
          Bot.send_message E peer_id (MsgUnmuted target_id) >>
          Bot.send_log_message E C "unmute" user_id (Some target_id) (Some peer_id)
            (Some DetUnmuted) >>
          skip
        else
          Bot.send_message E peer_id (MsgNotMuted target_id) >> skip
    end.

Definition cmd_unban (peer_id user_id : Z) (args : string) : M unit :=
  if negb (Py.truthy args) then
    Bot.send_message E peer_id MsgNeedUser >> skip
  else
    target <- resolve_target args ;;
    match target with
    | None => Bot.send_message E peer_id MsgUnresolved >> skip
    | Some target_id =>
        user_name <- Bot.name_or E (IdName target_id) target_id ;;
        admin_name <- Bot.name_or E (IdName user_id) user_id ;;
        success <- Bot.binding target_id (Bot.db_unban_user target_id) ;;
        if success then
          Bot.send_message E peer_id
            (MsgUnbanned target_id user_name user_id admin_name) >>
          Bot.send_log_message E C "unban" user_id (Some target_id) (Some peer_id)
            (Some DetUnbanned) >>
          skip
        else
          Bot.send_message E peer_id (MsgNotBanned target_id user_name) >> skip
    end.

(** [cmd_addmoder], [cmd_addsenmoder] and [cmd_addadmin] are the same code
    with the role and the texts exchanged. *)
Definition add_role (role : string) (peer_id user_id : Z) (args : string) : M unit :=
  if negb (Py.truthy args) then
    Bot.send_message E peer_id MsgNeedUser >> skip
  else
    target <- resolve_target args ;;
    match target with
    | None => Bot.send_message E peer_id MsgUnresolved >> skip
    | Some target_id =>
        Bot.binding target_id (Bot.db_add_user E target_id) >>
        user_name <- Bot.name_or E PlainUser target_id ;;
        success <- Bot.db_set_role target_id role (Some peer_id) ;;
        if success then
          Bot.send_message E peer_id (MsgPromoted role target_id user_name) >>
          Bot.send_log_message E C "set_role" user_id (Some target_id)
            (Some peer_id) (Some (DetPromoted role)) >>
          skip
        else
          Bot.send_message E peer_id (MsgPromoteFailed role target_id user_name) >>
          skip
    end.

Definition cmd_addmoder : Z -> Z -> string -> M unit := add_role "moderator".

Definition cmd_addsenmoder : Z -> Z -> string -> M unit := add_role "senior_moderator".

Definition cmd_addadmin : Z -> Z -> string -> M unit := add_role "admin".

Definition cmd_removerole (peer_id user_id : Z) (args : string) : M unit :=
  if negb (Py.truthy args) then
    Bot.send_message E peer_id MsgNeedUser >> skip
  else
    target <- resolve_target args ;;
    match target with
    | None => Bot.send_message E peer_id MsgUnresolved >> skip
    | Some target_id =>
        target_role <-
          Bot.binding target_id (Bot.db_get_role target_id (Some peer_id)) ;;
        if String.eqb target_role "user" then
          Bot.send_message E peer_id (MsgNoSpecialRole target_id) >> skip
        else
          initiator_role <- Bot.db_get_role user_id (Some peer_id) ;;
          if Utils.rank target_role >=? Utils.rank initiator_role then
            Bot.send_message E peer_id MsgRankTooLow >> skip
          else
            user_name <- Bot.name_or E PlainUser target_id ;;
            success <- Bot.db_set_role target_id "user" (Some peer_id) ;;
            if success then
              Bot.send_message E peer_id (MsgRoleRemoved target_id user_name) >>
              Bot.send_log_message E C "remove_role" user_id (Some target_id)
                (Some peer_id) (Some (DetRoleRemoved target_role)) >>
              skip
            else
              Bot.send_message E peer_id (MsgRemoveRoleFailed target_id) >> skip
    end.

(** the loop of [cmd_masskick]; the result is [kicked_count] *)
Fixpoint masskick_loop (peer_id user_id : Z) (target_ids : list Z)
         (kicked_count : Z) : M Z :=
  match target_ids with
  | [] => ret kicked_count
  | target_id :: rest =>
      protected <- Bot.binding target_id (staff_protected target_id user_id) ;;
      if protected then masskick_loop peer_id user_id rest kicked_count
      else
        kicked <- Bot.kick_user E peer_id target_id ;;
        masskick_loop peer_id user_id rest
                      (if kicked then kicked_count + 1 else kicked_count)
  end.

Definition cmd_masskick (peer_id user_id : Z) (args : string) : M unit :=
  if negb (Py.truthy args) then
    Bot.send_message E peer_id MsgMasskickUsage >> skip
  else
    let target_ids := omap Py.int_of (Py.split (Py.strip args)) in
    match target_ids with
    | [] => Bot.send_message E peer_id MsgMasskickNoIds >> skip
    | _ =>
        let target_ids := firstn 20 target_ids in
        let total := Z.of_nat (length target_ids) in
        Bot.send_message E peer_id (MsgMasskickStart total) >>
        kicked_count <- masskick_loop peer_id user_id target_ids 0 ;;
        Bot.send_message E peer_id (MsgMasskickDone kicked_count total) >>
        Bot.send_log_message E C "masskick" user_id None (Some peer_id)
          (Some (DetMasskick kicked_count total)) >>
        skip
    end.

Definition cmd_start (peer_id user_id : Z) (args : string) : M unit :=
  is_owner <- Bot.is_conversation_owner E peer_id user_id ;;
  conversation_staff <- Bot.db_get_staff (Some peer_id) ;;
  match conversation_staff with
  | _ :: _ => Bot.send_message E peer_id MsgAlreadyActive >> skip
  | [] =>
      is_creator <- Bot.check_access_m user_id "creator" None ;;
      if is_owner || is_creator then
        user_name <- Bot.name_or E PlainUser user_id ;;
        if is_owner then
          Bot.db_set_role user_id "creator" (Some peer_id) >>
          Bot.send_message E peer_id (MsgActivatedOwner user_id user_name) >>
          Bot.send_log_message E C "start" user_id None (Some peer_id)
            (Some DetStartOwner) >>
          skip
        else
          Bot.send_message E peer_id MsgActivated >>
          Bot.send_log_message E C "start" user_id None (Some peer_id)
            (Some DetStartAdmin) >>
          skip
      else
        user_name <- Bot.name_or E PlainUser user_id ;;
        Bot.send_message E peer_id (MsgActivationFailed user_id user_name) >> skip
  end.

(** [days] of [cmd_inactivelist]: the argument, at least 1; 30 without an
    argument or when [int] rejects it *)
Definition inactive_days (args : string) : Z :=
  if Py.truthy args then
    match Py.int_of (Py.strip args) with
    | Some days => Z.max 1 days
    | None => 30
    end
  else Z.max 1 30.

(** [cmd_inactivelist].  The first round of the loop over the users reads
    [user["last_activity"]], a key that the dictionaries of
    [get_inactive_users] do not have. *)
Definition cmd_inactivelist (peer_id user_id : Z) (args : string) : M unit :=
  let days := inactive_days args in
  inactive_users <- Bot.db_get_inactive_users E days ;;
  match inactive_users with
  | [] => Bot.send_message E peer_id (MsgNoInactive days) >> skip
  | user :: _ =>
      let fallback :=
        match Database.ie_nickname user with
        | Some nickname =>
            if Py.truthy nickname then NickName nickname
            else IdName (Database.ie_user_id user)
        | None => IdName (Database.ie_user_id user)
        end in
      Bot.name_or E fallback (Database.ie_user_id user) >>
      raise KeyError
  end.

Definition cmd_setnick (peer_id user_id : Z) (args : string) : M unit :=
  if lacks_second_part args then
    Bot.send_message E peer_id MsgSetnickUsage >> skip
  else
    match Py.split_space1 (Py.strip args) with
    | (_, None) => Bot.send_message E peer_id MsgBadUserId >> skip
    | (target_id, Some nickname) =>
        match Py.int_of target_id with
        | None => Bot.send_message E peer_id MsgBadUserId >> skip
        | Some target_id =>
            Bot.binding target_id (Bot.db_add_user E target_id) >>
            done <- Bot.db_set_nickname target_id nickname ;;
            if done then
              Bot.send_message E peer_id (MsgNickSet target_id nickname) >> skip
            else
              Bot.send_message E peer_id (MsgNickSetFailed target_id) >> skip
        end
    end.

Definition cmd_removenick (peer_id user_id : Z) (args : string) : M unit :=
  if negb (Py.truthy args) then
    Bot.send_message E peer_id MsgNeedUserId >> skip
  else
    match Py.int_of (Py.strip args) with
    | None => Bot.send_message E peer_id MsgBadUserId >> skip
    | Some target_id =>
        done <- Bot.binding target_id (Bot.db_remove_nickname target_id) ;;
        if done then
          Bot.send_message E peer_id (MsgNickRemoved target_id) >> skip
        else
          Bot.send_message E peer_id (MsgNickRemoveFailed target_id) >> skip
    end.

Definition cmd_delete (peer_id user_id : Z) (args : string) : M unit :=
  if negb (Py.truthy args) then
    Bot.send_message E peer_id MsgNeedMessageId >> skip
  else
    match Py.int_of (Py.strip args) with
    | None => Bot.send_message E peer_id MsgBadMessageId >> skip
    | Some message_id =>
        deleted <- Bot.delete_message E peer_id message_id ;;
        if deleted then
          Bot.send_message E peer_id (MsgDeleted message_id) >> skip
        else
          Bot.send_message E peer_id (MsgDeleteFailed message_id) >> skip
    end.

(** [register_commands]: the names with their required roles, in the
    order of registration *)
Definition registered : list (string * string) :=
  [("help", "user"); ("start", "user"); ("stats", "user"); ("getid", "user");
   ("chek", "moderator"); ("setnick", "moderator"); ("removenick", "moderator");
   ("getnick", "moderator"); ("getacc", "moderator"); ("nlist", "moderator");
   ("nonick", "moderator"); ("kick", "moderator"); ("warn", "moderator");
   ("unwarn", "moderator"); ("getwarn", "moderator");
   ("warnhistory", "moderator"); ("warnlist", "moderator");
   ("staff", "moderator"); ("reg", "moderator"); ("mute", "moderator");
   ("unmute", "moderator"); ("getmute", "moderator"); ("mutelist", "moderator");
   ("clear", "moderator"); ("getban", "moderator"); ("delete", "moderator");
   ("ban", "senior_moderator"); ("unban", "senior_moderator");
   ("addmoder", "senior_moderator"); ("removerole", "senior_moderator");
   ("zov", "senior_moderator"); ("online", "senior_moderator");
   ("onlinelist", "senior_moderator"); ("banlist", "senior_moderator");
   ("inactivelist", "senior_moderator"); ("masskick", "senior_moderator");
   ("quiet", "admin"); ("addsenmoder", "admin");
   ("addadmin", "creator"); ("removeadmin", "creator")].

(** [self.commands[name]["required_role"]] *)
Definition required_role_of (name : string) : option string :=
  (list_to_map registered : gmap string string) !! name.

(** The handlers that are not embedded are a parameter. *)
Variable other_handler : string -> Z -> Z -> string -> M unit.

(** [self.commands[name]["handler"]] *)
Definition handler_of (name : string) : Z -> Z -> string -> M unit :=
  if String.eqb name "warn" then cmd_warn
  else if String.eqb name "ban" then cmd_ban
  else if String.eqb name "removeadmin" then cmd_removeadmin
  else other_handler name.

Definition execute_command (name : string) (peer_id user_id : Z) (args : string)
  : M unit :=
  match required_role_of name with
  | None => skip
  | Some required_role =>
      allowed <- Bot.has_rights E peer_id user_id required_role ;;
      if negb allowed then
        Bot.send_message E peer_id (MsgNoRights user_id) >> skip
      else
        try_except
          (handler_of name peer_id user_id args)
          (Bot.send_message E peer_id MsgCommandError >> skip)
  end.

End WithPlatform.

(** [has_command] *)
Definition has_command (name : string) : bool :=
  match required_role_of name with
  | Some _ => true
  | None => false
  end.

(** The handlers of the registry that are embedded beside [cmd_warn],
    [cmd_ban] and [cmd_removeadmin]; [rest] stands for the handlers that are
    not embedded.  [handler_of E C (handlers E C localtime_ok rest)] is the
    registry. *)
Definition handlers (E : env) (C : config) (localtime_ok : Z -> bool)
           (rest : string -> Z -> Z -> string -> M unit)
  : string -> Z -> Z -> string -> M unit :=
  fun name =>
    if String.eqb name "getid" then cmd_getid E
    else if String.eqb name "kick" then cmd_kick E C
    else if String.eqb name "unwarn" then cmd_unwarn E C
    else if String.eqb name "mute" then cmd_mute E C localtime_ok
    else if String.eqb name "unmute" then cmd_unmute E C
    else if String.eqb name "unban" then cmd_unban E C
    else if String.eqb name "addmoder" then cmd_addmoder E C
    else if String.eqb name "addsenmoder" then cmd_addsenmoder E C
    else if String.eqb name "addadmin" then cmd_addadmin E C
    else if String.eqb name "removerole" then cmd_removerole E C
    else if String.eqb name "masskick" then cmd_masskick E C
    else if String.eqb name "start" then cmd_start E C
    else if String.eqb name "inactivelist" then cmd_inactivelist E
    else if String.eqb name "setnick" then cmd_setnick E
    else if String.eqb name "removenick" then cmd_removenick E
    else if String.eqb name "delete" then cmd_delete E
    else rest name.

End Commands.

(** ** bot.py: the dispatch of commands *)

Module VkBot.

(** the part of the message object that [handle_command] reads: whether it
    has the key "reply_message" and, if so, the "from_id" of the reply when
    that key is present *)
Inductive reply : Type :=
| NoReply
| Reply (from_id : option Z).

Definition get_user_id_from_reply (message : reply) : option Z :=
  match message with
  | Reply (Some from_id) => Some from_id
  | _ => None
  end.

(** [x in l] for a list of texts *)
Definition among (x : string) (l : list string) : bool := existsb (String.eqb x) l.

(** the three lists of command names in [handle_command] *)
Definition cmd_requires_target : list string :=
  ["warn"; "unwarn"; "getwarn"; "warnhistory"; "kick"; "ban"; "unban";
   "mute"; "unmute"; "getmute"; "setnick"; "removenick"; "getnick";
   "getacc"; "chek"; "getban"; "reg"; "addmoder"; "addsenmoder";
   "addadmin"; "removerole"; "removeadmin"; "stats"].

Definition takes_target_only : list string :=
  ["unwarn"; "getwarn"; "warnhistory"; "kick"; "unban"; "unmute"; "getmute";
   "removenick"; "getnick"; "chek"; "getban"; "reg"; "stats"].

Definition takes_more : list string :=
  ["warn"; "ban"; "mute"; "setnick"; "addmoder"; "addsenmoder"; "addadmin";
   "removerole"; "removeadmin"].

(** the end of the notice "specify ..." *)
Definition missing_of (command : string) : option missing :=
  if String.eqb command "warn" || String.eqb command "ban" then Some MissingReason
  else if String.eqb command "mute" then Some MissingDurationAndReason
  else if String.eqb command "setnick" then Some MissingNickname
  else if among command ["addmoder"; "addsenmoder"; "addadmin"; "removerole";
                         "removeadmin"]
       then Some MissingRoleReason
  else None.

(** [not args or (not args[0].isdigit() and not args.startswith("[") and
    not args.startswith("@"))] *)
Definition names_no_target (args : string) : bool :=
  match args with
  | EmptyString => true
  | String c _ =>
      negb (Py.is_digit c) && negb (Py.startswith "[" args)
      && negb (Py.startswith "@" args)
  end.

(** what the block for replies decides: the arguments to go on with, or the
    notice after which [handle_command] returns *)
Inductive reply_step : Type :=
| GoOn (args : string)
| Notice (m : message).

(** the block of [handle_command] that takes the target from the message
    that was replied to *)
Definition with_reply_target (command args : string) (message : option reply)
  : reply_step :=
  match message with
  | Some (Reply from_id) =>
      if among command cmd_requires_target && names_no_target args then
        match Bot.truthy_id (get_user_id_from_reply (Reply from_id)) with
        | Some target_id =>
            if among command takes_target_only then
              GoOn (Py.str target_id
                    ++ (if Py.truthy args then " " ++ args else ""))%string
            else if Py.truthy args && among command takes_more then
              GoOn (Py.str target_id ++ " " ++ args)%string
            else if among command takes_more then
              Notice (MsgSpecify (missing_of command))
            else GoOn (Py.str target_id)
        | None => GoOn args
        end
      else GoOn args
  | _ => GoOn args
  end.

Section WithPlatform.

Variable E : env.
Variable C : config.

(** the range of [time.localtime] *)
Variable localtime_ok : Z -> bool.

(** the handlers of the registry that are not embedded *)
Variable other_handler : string -> Z -> Z -> string -> M unit.

(** the block of [handle_command] that replaces a mention in the first
    argument by the id that it resolves to *)
Definition with_mention_resolved (command args : string) : M string :=
  if Py.truthy args && among command cmd_requires_target then
    let parts := Py.split_space1 args in
    let first_arg := fst parts in
    if (Py.startswith "[" first_arg && Py.contains "|" first_arg)
       || Py.startswith "@" first_arg then
      found <- Bot.extract_user_id_from_mention E first_arg ;;
      match Bot.truthy_id found with
      | Some target_id =>
          ret match snd parts with
              | Some rest => (Py.str target_id ++ " " ++ rest)%string
              | None => Py.str target_id
              end
      | None => ret args
      end
    else ret args
  else ret args.

(** [handle_command].  [quiet_mode] is the flag of the bot at the time of
    the call; [message] is [None] for a call without a message object.  The
    task that the source submits to its executor is run at once, and
    [execute_command] never raises. *)
Definition handle_command (quiet_mode : bool) (peer_id user_id : Z)
           (text : string) (message : option reply) : M unit :=
  let '(command, args) := Utils.parse_command text in
  is_owner <- Bot.is_conversation_owner E peer_id user_id ;;
  is_staff <- Bot.check_access_m user_id "moderator" None ;;
  if quiet_mode && negb is_staff && negb is_owner then skip
  else
    accepted <- Bot.check_cooldown E C user_id ;;
    if negb accepted then
      Bot.send_message E peer_id (MsgSpam user_id) >> skip
    else if negb (Commands.has_command command) then skip
    else
      match with_reply_target command args message with
      | Notice m => Bot.send_message E peer_id m >> skip
      | GoOn args =>
          args <- with_mention_resolved command args ;;
          Commands.execute_command
            E C (Commands.handlers E C localtime_ok other_handler)
            command peer_id user_id args
      end.

End WithPlatform.

End VkBot.

(** * Vocabulary of the statements *)

(** ** The role model in the words of the specification *)

(** the conversation-scoped override when one is stored for the user and
    the conversation, otherwise the global role *)
Definition effective_role (d : DB) (user conversation : Z) : string :=
  match t_conversation_roles d !! (user, conversation) with
  | Some role => role
  | None => Database.global_role d user
  end.

(** rank(effective_role) >= rank(required), or the user is the owner *)
Definition has_minimum (d : DB) (owner : option Z) (user conversation : Z)
           (required : string) : Prop :=
  Bot.rank (effective_role d user conversation) >= Bot.rank required \/
  owner = Some user.

(** The staff protection as the handlers compute it: the global role of the
    target ranks at least "moderator" (the target has a row in [users]), and
    the global role of the actor does not rank at least "admin". *)
Definition protected_from (d : DB) (target actor : Z) : bool :=
  Bot.check_access d target "moderator" None
  && negb (Bot.check_access d actor "admin" None).

(** ** Invariants of the store *)

(** No override is stored under the conversation id 0: [set_role] treats 0
    as "no conversation" and then writes the global role. *)
Definition no_override_at_zero (d : DB) : Prop :=
  forall user, t_conversation_roles d !! (user, 0) = None.

(** The primary key of table [warns]: the keys are pairwise distinct and
    none is greater than the last key handed out. *)
Definition warns_keyed (d : DB) : Prop :=
  NoDup (map w_id (t_warns d)) /\
  Forall (fun r => w_id r <= t_warns_seq d) (t_warns d).

(** the operations of the store as steps *)
Inductive db_op : Type :=
| OpAddUser (now user_id : Z)
| OpUpdateMessageCount (now user_id : Z)
| OpAddWarn (now user_id : Z) (reason : text)
| OpRemoveWarn (user_id : Z)
| OpSetMute (now user_id duration : Z) (reason : text)
| OpRemoveMute (user_id : Z)
| OpBanUser (now user_id : Z) (reason : text)
| OpSetRole (user_id : Z) (role : string) (peer_id : option Z).

Definition run_op (o : db_op) (d : DB) : DB :=
  match o with
  | OpAddUser now u => Database.add_user now u d
  | OpUpdateMessageCount now u => Database.update_message_count now u d
  | OpAddWarn now u reason => snd (Database.add_warn now u reason d)
  | OpRemoveWarn u => snd (Database.remove_warn u d)
  | OpSetMute now u duration reason => snd (Database.set_mute now u duration reason d)
  | OpRemoveMute u => snd (Database.remove_mute u d)
  | OpBanUser now u reason => snd (Database.ban_user now u reason d)
  | OpSetRole u role peer => snd (Database.set_role u role peer d)
  end.

(** the stores that the operations produce from the initial one *)
Inductive reachable : DB -> Prop :=
| reach_init : reachable Database.init_db
| reach_step (o : db_op) (d : DB) : reachable d -> reachable (run_op o d).

(** ** Sequences of warnings *)

(** [add_warn] once for each time stamp and reason of the list, in order *)
Fixpoint warn_all (stamps : list (Z * text)) (user_id : Z) (d : DB) : DB :=
  match stamps with
  | [] => d
  | (now, reason) :: rest =>
      warn_all rest user_id (snd (Database.add_warn now user_id reason d))
  end.

(** the two writes of [cmd_warn], for each entry of the list in order:
    [add_user] at the first time stamp, then [add_warn] at the second *)
Fixpoint warn_all_registering (stamps : list (Z * Z * text)) (user_id : Z) (d : DB)
  : DB :=
  match stamps with
  | [] => d
  | (reg_now, now, reason) :: rest =>
      warn_all_registering rest user_id
        (snd (Database.add_warn now user_id reason
                (Database.add_user reg_now user_id d)))
  end.

(** [remove_warn] [m] times *)
Fixpoint unwarn_times (m : nat) (user_id : Z) (d : DB) : DB :=
  match m with
  | O => d
  | S k => unwarn_times k user_id (snd (Database.remove_warn user_id d))
  end.

(** the number of warning entries of a user *)
Definition entries (d : DB) (u : Z) : nat := length (Database.warns_of d u).

(** ** Lookups *)

(** a lookup of a screen name fails at call number [n]: the request raises,
    or the answer has no entry *)
Definition lookup_fails (E : env) (n : nat) (screen_name : string) : Prop :=
  users_get E n (ByName screen_name) = None \/
  users_get E n (ByName screen_name) = Some [].

(** ** Runs of a handler *)

(** [m] started in [w] returns a value (it does not raise), and the value
    and the final state satisfy [Q] *)
Definition returns {A} (m : M A) (w : world) (Q : A -> world -> Prop) : Prop :=
  exists a w', m w = (Ok a, w') /\ Q a w'.

(** nothing but the number of external calls differs between [w] and [w'] *)
Definition quiet (w w' : world) : Prop :=
  st_db w' = st_db w /\
  st_last_command_time w' = st_last_command_time w /\
  st_trace w' = st_trace w.

(** [m] changes nothing but the number of external calls, whether it returns
    or raises *)
Definition silent {A} (m : M A) : Prop := forall w, quiet w (snd (m w)).

(** the trace of [w'] is the trace of [w] followed by [evs] *)
Definition adds (w w' : world) (evs : list event) : Prop :=
  st_trace w' = (st_trace w ++ evs)%list.

(** a text delivered to a logging conversation *)
Definition is_log_send (ev : event) : bool :=
  match ev with
  | EvSend _ (MsgLog _ _ _ _) => true
  | _ => false
  end.

Definition is_delete (ev : event) : bool :=
  match ev with
  | EvDelete _ _ _ => true
  | _ => false
  end.

(** the notice that answers the message of a muted user *)
Definition is_mute_notice (ev : event) : bool :=
  match ev with
  | EvSend _ (MsgMuted _ _) => true
  | _ => false
  end.

(** a write to the store or an audit attempt *)
Definition is_store_or_audit (ev : event) : bool :=
  match ev with
  | EvStore _ | EvAudit _ => true
  | _ => false
  end.

(** * Sample data *)

(** a group conversation *)
Definition chat : Z := 2000000001.

(** a platform on which every request raises; the clock shows [100] *)
Definition platform_down : env :=
  mk_env (fun _ => 100%Q) (fun _ _ => None) (fun _ _ => None)
         (fun _ _ => None) (fun _ _ _ => false) (fun _ _ _ _ => false).

(** a platform that answers every request: every numeric id has a profile,
    no screen name is known, user 10 owns every conversation, and the clock
    shows [t] *)
Definition platform_at (t : Q) : env :=
  mk_env (fun _ => t)
         (fun _ r => match r with
                     | ById id => Some [mk_profile id "Ann" "Lee"]
                     | ByName _ => Some []
                     end)
         (fun _ _ => Some [mk_item 10 true])
         (fun _ _ => Some 1) (fun _ _ _ => true) (fun _ _ _ _ => true).

Definition platform_up : env := platform_at 100.

(** a cooldown of 3 seconds, without and with a logging conversation *)
Definition logging_off : config := mk_config 3 LogOff.

Definition logging_to (peer : Z) : config := mk_config 3 (LogPeer peer).

(** a handler for commands that does nothing *)
Definition no_commands : Z -> Z -> string -> Bot.incoming -> M unit :=
  fun _ _ _ _ => skip.

(** the process right after start on a fresh store *)
Definition fresh_world : world := mk_world Database.init_db ∅ 0 [].

(** user 1 issued the last accepted command at time 100 *)
Definition cooling_world : world :=
  mk_world Database.init_db (<[1 := 100%Q]> ∅) 0 [].

(** the row of a user registered at time 50 *)
Definition plain_row : user_row := Database.new_user 50.

(** two registered users with the global role "user"; both hold the role
    "moderator" in [chat] *)
Definition two_chat_moderators : DB :=
  mk_db (<[10 := plain_row]> (<[20 := plain_row]> ∅)) [] 0 ∅
        (<[(10, chat) := "moderator"]> (<[(20, chat) := "moderator"]> ∅)).

(** users 30 and 40 are registered with the global role "user"; in [chat],
    30 holds "senior_moderator" and 40 holds "admin" *)
Definition chat_staff : DB :=
  mk_db (<[30 := plain_row]> (<[40 := plain_row]> ∅)) [] 0 ∅
        (<[(30, chat) := "senior_moderator"]> (<[(40, chat) := "admin"]> ∅)).

(** users 10 and 20 are registered with the global role "moderator" *)
Definition two_global_moderators : DB :=
  mk_db (<[10 := Database.set_user_role plain_row "moderator"]>
           (<[20 := Database.set_user_role plain_row "moderator"]> ∅)) [] 0 ∅ ∅.

(** users 10 and 20 are registered; in [chat], 20 holds "creator" *)
Definition chat_with_creator : DB :=
  mk_db (<[10 := plain_row]> (<[20 := plain_row]> ∅)) [] 0 ∅
        (<[(20, chat) := "creator"]> ∅).

(** a registered user with one earlier warning entry and a counter of 0 *)
Definition one_old_warning : DB :=
  mk_db (<[7 := plain_row]> ∅) [mk_warn 1 7 NotSpecified 60] 1 ∅ ∅.

(** user 20 is registered and has two warnings *)
Definition twice_warned : DB :=
  mk_db (<[20 := Database.set_warns plain_row 2]> ∅)
        [mk_warn 1 20 NotSpecified 60; mk_warn 2 20 NotSpecified 70] 2 ∅ ∅.

(** user 7 is registered and was muted until 500 *)
Definition muted_seven : DB :=
  mk_db (<[7 := Database.set_mute_until plain_row 500]> ∅) [] 0 ∅ ∅.

(** * Vocabulary of the further properties *)

(** ** Displayed durations *)

(** the six templates of [format_time_delta] with their numbers *)
Inductive time_delta : Type :=
| Seconds (seconds : Z)
| Minutes (minutes : Z)
| Hours (hours : Z)
| HoursMinutes (hours minutes : Z)
| Days (days : Z)
| DaysHours (days hours : Z).

(** the text of a template *)
Definition render (t : time_delta) : string :=
  match t with
  | Seconds n => Py.str n ++ " сек."
  | Minutes n => Py.str n ++ " мин."
  | Hours h => Py.str h ++ " ч."
  | HoursMinutes h m => Py.str h ++ " ч. " ++ Py.str m ++ " мин."
  | Days d => Py.str d ++ " д."
  | DaysHours d h => Py.str d ++ " д. " ++ Py.str h ++ " ч."
  end%string.

(** the number of seconds that a displayed duration stands for *)
Definition seconds_shown (t : time_delta) : Z :=
  match t with
  | Seconds n => n
  | Minutes n => n * 60
  | Hours h => h * 3600
  | HoursMinutes h m => h * 3600 + m * 60
  | Days d => d * 86400
  | DaysHours d h => d * 86400 + h * 3600
  end.

(** every number of a displayed duration is below the size of the next
    unit, and no unit is displayed with the number 0 unless it is the only
    one *)
Definition canonical (t : time_delta) : Prop :=
  match t with
  | Seconds n => n < 60
  | Minutes n => 1 <= n < 60
  | Hours h => 1 <= h < 24
  | HoursMinutes h m => 1 <= h < 24 /\ 1 <= m < 60
  | Days d => 1 <= d
  | DaysHours d h => 1 <= d /\ 1 <= h < 24
  end.

(** ** Orders *)

(** the keys do not increase along the list *)
Fixpoint descending {A} (key : A -> Z) (l : list A) : Prop :=
  match l with
  | [] => True
  | x :: rest => Forall (fun y => key y <= key x) rest /\ descending key rest
  end.

(** ** The writes of the handlers *)

(** Every function of [database.py] that writes, as a step.  [add_warn] has
    one caller, [cmd_warn], which calls [add_user] for the same user first;
    the step [WWarn] is that pair of calls. *)
Inductive write : Type :=
| WAddUser (now user_id : Z)
| WUpdateMessageCount (now user_id : Z)
| WSetNickname (user_id : Z) (nickname : string)
| WRemoveNickname (user_id : Z)
| WWarn (reg_now now user_id : Z) (reason : text)
| WRemoveWarn (user_id : Z)
| WSetMute (now user_id duration : Z) (reason : text)
| WRemoveMute (user_id : Z)
| WBanUser (now user_id : Z) (reason : text)
| WUnbanUser (user_id : Z)
| WSetRole (user_id : Z) (role : string) (peer_id : option Z).

Definition run_write (o : write) (d : DB) : DB :=
  match o with
  | WAddUser now u => Database.add_user now u d
  | WUpdateMessageCount now u => Database.update_message_count now u d
  | WSetNickname u nickname => snd (Database.set_nickname u nickname d)
  | WRemoveNickname u => snd (Database.remove_nickname u d)
  | WWarn reg_now now u reason =>
      snd (Database.add_warn now u reason (Database.add_user reg_now u d))
  | WRemoveWarn u => snd (Database.remove_warn u d)
  | WSetMute now u duration reason => snd (Database.set_mute now u duration reason d)
  | WRemoveMute u => snd (Database.remove_mute u d)
  | WBanUser now u reason => snd (Database.ban_user now u reason d)
  | WUnbanUser u => snd (Database.unban_user u d)
  | WSetRole u role peer => snd (Database.set_role u role peer d)
  end.

(** the stores that the handlers produce from the initial one *)
Inductive written : DB -> Prop :=
| written_init : written Database.init_db
| written_step (o : write) (d : DB) : written d -> written (run_write o d).

(** the counter of every registered user is the number of the warning
    entries of the user, and a user without a row has no entry *)
Definition counters_agree (d : DB) : Prop :=
  forall u,
    match t_users d !! u with
    | Some row => u_warns row = Z.of_nat (entries d u)
    | None => entries d u = 0%nat
    end.

(** ** Audit entries *)

(** the name of the target in a log text: "N/A" without a target, the
    names of the profile when the lookup at call number [n] succeeds, and
    "ID: <id>" otherwise *)
Definition log_target_name (E : env) (n : nat) (target_id : option Z) : name :=
  match Bot.truthy_id target_id with
  | None => NotAvailable
  | Some t =>
      match users_get E n (ById t) with
      | Some (p :: _) => Bot.full_name p
      | _ => IdName t
      end
  end.

(** the number of lookups that a log text needs: one for the acting user and
    one for the target, if there is a target *)
Definition log_lookups (target_id : option Z) : nat :=
  match Bot.truthy_id target_id with
  | Some _ => 2
  | None => 1
  end.

(** ** Handlers that cannot raise *)

(** [m] returns from every state *)
Definition total {A} (m : M A) : Prop := forall w, returns m w (fun _ _ => True).

(** ** The cooldown *)

(** the test of [check_cooldown]: a stamp of the user is stored and less
    than [command_cooldown] seconds lie between it and [now] *)
Definition on_cooldown (C : config) (stamps : gmap Z Q) (user : Z) (now : Q) : bool :=
  match stamps !! user with
  | Some last => Qlt_bool (now - last) (inject_Z (command_cooldown C))
  | None => false
  end.

(** ** Runs that may raise *)

(** the outcome and the final state of [m] started in [w] satisfy [Q] *)
Definition ends {A} (m : M A) (w : world) (Q : outcome A -> world -> Prop) : Prop :=
  exists r w', m w = (r, w') /\ Q r w'.

(** ** Numbers typed in a command *)

(** the numbers of a list up to the first that the engine does not bind *)
Fixpoint bound_prefix (ids : list Z) : list Z :=
  match ids with
  | [] => []
  | t :: rest => if Database.binds t then t :: bound_prefix rest else []
  end.


(** * Properties *)

(** ** Duration parsing *)

Lemma span_all (p : ascii -> bool) (s : string) :
  Py.all_chars p s = true -> Py.span p s = (s, EmptyString).
Proof.
  induction s as [ | c r IH ]; cbn [Py.all_chars Py.span]; [ reflexivity | ].
  intros H. apply andb_true_iff in H. destruct H as [Hc Hr].
  rewrite Hc, (IH Hr). reflexivity.
Qed.

Lemma span_until (p : ascii -> bool) (s : string) (u : ascii) (t : string) :
  Py.all_chars p s = true -> p u = false ->
  Py.span p (s ++ String u t) = (s, String u t).
Proof.
  induction s as [ | c r IH ]; simpl.
  - intros _ Hu. rewrite Hu. reflexivity.
  - intros H Hu. apply andb_true_iff in H. destruct H as [Hc Hr].
    rewrite Hc, (IH Hr Hu). reflexivity.
Qed.

Lemma lower_char_digit (c : ascii) : Py.is_digit c = true -> Py.lower_char c = c.
Proof.
  unfold Py.is_digit, Py.lower_char. intros H.
  apply andb_true_iff in H. destruct H as [_ H]. apply Nat.leb_le in H.
  destruct (65 <=? Py.code c)%nat eqn:Hup; [ | reflexivity ].
  apply Nat.leb_le in Hup. lia.
Qed.

Lemma lower_digits_then (s t : string) :
  Py.all_chars Py.is_digit s = true -> Py.lower (s ++ t) = (s ++ Py.lower t)%string.
Proof.
  induction s as [ | c r IH ]; simpl; [ reflexivity | ].
  intros H. apply andb_true_iff in H. destruct H as [Hc Hr].
  rewrite (lower_char_digit c Hc), (IH Hr). reflexivity.
Qed.

Lemma lower_digits (s : string) :
  Py.all_chars Py.is_digit s = true -> Py.lower s = s.
Proof.
  induction s as [ | c r IH ]; simpl; [ reflexivity | ].
  intros H. apply andb_true_iff in H. destruct H as [Hc Hr].
  rewrite (lower_char_digit c Hc), (IH Hr). reflexivity.
Qed.

(** a number followed by a unit letter is the number times the seconds of
    the unit *)
Lemma parse_time_unit (digits : string) (u : ascii) (factor : Z) :
  Py.isdigit digits = true ->
  In (u, factor) [("s"%char, 1); ("m"%char, 60); ("h"%char, 3600); ("d"%char, 86400)] ->
  Utils.parse_time (digits ++ String u "") = Ok (Py.int digits * factor).
Proof.
  unfold Py.isdigit. intros Hd Hu. apply andb_true_iff in Hd. destruct Hd as [Hne Hall].
  unfold Utils.parse_time.
  assert (Htruthy : Py.truthy (digits ++ String u "") = true)
    by (destruct digits; reflexivity).
  rewrite Htruthy. cbn [negb].
  rewrite (lower_digits_then digits (String u "") Hall).
  assert (Hcases : u = "s"%char \/ u = "m"%char \/ u = "h"%char \/ u = "d"%char).
  { cbn in Hu. intuition congruence. }
  unfold Utils.match_time.
  assert (Hlow : Py.lower (String u "") = String u "")
    by (destruct Hcases as [-> | [-> | [-> | ->]]]; reflexivity).
  rewrite Hlow.
  rewrite (span_until Py.is_digit digits u "" Hall)
    by (destruct Hcases as [-> | [-> | [-> | ->]]]; reflexivity).
  destruct digits as [ | c r ]; [ discriminate | ].
  cbn in Hu.
  destruct Hu as [Hu | [Hu | [Hu | [Hu | []]]]]; inversion Hu; subst; cbn; f_equal; lia.
Qed.

(** a number without a unit is rejected *)
Lemma parse_time_without_unit (digits : string) :
  Py.isdigit digits = true -> Utils.parse_time digits = Raise ValueError.
Proof.
  unfold Py.isdigit. intros Hd. apply andb_true_iff in Hd. destruct Hd as [Hne Hall].
  unfold Utils.parse_time. rewrite Hne. cbn [negb].
  unfold Utils.match_time. rewrite (lower_digits digits Hall), (span_all _ _ Hall).
  destruct digits; reflexivity.
Qed.

(** C8. Duration parsing maps "30m" to 1800, "2h" to 7200 and "1d" to 86400;
    "abc", "5" (a number without a unit) and the empty string are rejected:
    [parse_time] raises [ValueError] instead of returning a value. *)
Theorem parse_time_examples :
  Utils.parse_time "30m" = Ok 1800 /\
  Utils.parse_time "2h" = Ok 7200 /\
  Utils.parse_time "1d" = Ok 86400 /\
  Utils.parse_time "abc" = Raise ValueError /\
  Utils.parse_time "5" = Raise ValueError /\
  Utils.parse_time "" = Raise ValueError.
Proof. repeat split; reflexivity. Qed.

(** ** Mention resolution *)

Lemma lookup_screen_name_total (E : env) (screen_name : string) (w : world) :
  Bot.lookup_screen_name E screen_name w =
    (Ok match users_get E (st_calls w) (ByName screen_name) with
        | Some (p :: _) => Some (p_id p)
        | _ => None
        end, tick w).
Proof.
  unfold Bot.lookup_screen_name, try_except, bind, Bot.vk_users_get, request, ret.
  destruct (users_get E (st_calls w) (ByName screen_name)) as [[|p l]|]; reflexivity.
Qed.

Lemma lookup_screen_name_fails (E : env) (screen_name : string) (w : world) :
  lookup_fails E (st_calls w) screen_name ->
  Bot.lookup_screen_name E screen_name w = (Ok None, tick w).
Proof.
  intros [H | H]; rewrite lookup_screen_name_total, H; reflexivity.
Qed.

Lemma extract_never_raises (E : env) (mention : string) (w : world) :
  exists r w', Bot.extract_user_id_from_mention E mention w = (Ok r, w').
Proof.
  unfold Bot.extract_user_id_from_mention, try_except.
  destruct (Bot.extract_body E mention w) as [[r | e] w']; eauto.
Qed.

(** a handle without a space whose lookup fails is not resolved *)
Lemma handle_with_failing_lookup (E : env) (screen_name : string) (w : world) :
  Py.contains " " screen_name = false ->
  lookup_fails E (st_calls w) screen_name ->
  Bot.extract_user_id_from_mention E (String "@" screen_name) w = (Ok None, tick w).
Proof.
  intros Hsp Hfail.
  unfold Bot.extract_user_id_from_mention, try_except, Bot.extract_body.
  assert (Hc : Py.contains " " (String "@" screen_name) = false) by exact Hsp.
  rewrite Hc.
  unfold bind at 1. unfold ret at 1.
  assert (Hd : Py.isdigit (String "@" screen_name) = false) by reflexivity.
  rewrite Hd.
  assert (Hb : Bot.bracket_id (String "@" screen_name) = None) by reflexivity.
  rewrite Hb.
  assert (Hu : Bot.url_loop E Bot.vk_url_patterns (String "@" screen_name) w
               = (Ok None, w)) by reflexivity.
  unfold bind at 1. rewrite Hu.
  assert (Hs : Py.startswith "@" (String "@" screen_name) = true).
  { unfold Py.startswith. cbn. destruct screen_name; reflexivity. }
  rewrite Hs. cbn [Py.drop].
  unfold bind. rewrite (lookup_screen_name_fails E screen_name w Hfail).
  reflexivity.
Qed.

Lemma digits_have_no_space (s : string) :
  Py.all_chars Py.is_digit s = true -> Py.contains " " s = false.
Proof.
  induction s as [ | c r IH ]; cbn [Py.all_chars Py.contains]; [ reflexivity | ].
  intros H. apply andb_true_iff in H. destruct H as [Hc Hr].
  destruct (Ascii.eqb " " c) eqn:Heq; [ | exact (IH Hr) ].
  apply Ascii.eqb_eq in Heq. subst c. discriminate.
Qed.

(** a text of digits is read as the number, without a request *)
Lemma digits_resolve (E : env) (s : string) (w : world) :
  Py.isdigit s = true ->
  Bot.extract_user_id_from_mention E s w = (Ok (Some (Py.int s)), w).
Proof.
  intros Hd.
  unfold Bot.extract_user_id_from_mention, try_except, Bot.extract_body.
  assert (Hsp : Py.contains " " s = false).
  { apply digits_have_no_space. unfold Py.isdigit in Hd.
    apply andb_true_iff in Hd. apply Hd. }
  rewrite Hsp. unfold bind, ret. rewrite Hd. reflexivity.
Qed.

(** C7. The resolver maps "123456", "[id123456|Ivan Petrov]" and
    "https://vk.com/id123456" to 123456 without consulting the platform (as
    it maps every text of digits to its number); for "@nonexistent_handle"
    with a failing profile lookup, as for every handle whose lookup fails,
    it returns [None]; a failing lookup (the request raises, or nothing
    matches) yields [None]; and no exception leaves
    [extract_user_id_from_mention], whatever the text and whatever the
    platform answers. *)
Theorem mention_resolution :
  (forall E w, Bot.extract_user_id_from_mention E "123456" w = (Ok (Some 123456), w)) /\
  (forall E w, Bot.extract_user_id_from_mention E "[id123456|Ivan Petrov]" w
               = (Ok (Some 123456), w)) /\
  (forall E w, Bot.extract_user_id_from_mention E "https://vk.com/id123456" w
               = (Ok (Some 123456), w)) /\
  (forall E w, lookup_fails E (st_calls w) "nonexistent_handle" ->
               Bot.extract_user_id_from_mention E "@nonexistent_handle" w
               = (Ok None, tick w)) /\
  (forall E s w, Py.isdigit s = true ->
               Bot.extract_user_id_from_mention E s w = (Ok (Some (Py.int s)), w)) /\
  (forall E screen_name w,
               Py.contains " " screen_name = false ->
               lookup_fails E (st_calls w) screen_name ->
               Bot.extract_user_id_from_mention E (String "@" screen_name) w
               = (Ok None, tick w)) /\
  (forall E screen_name w, lookup_fails E (st_calls w) screen_name ->
               Bot.lookup_screen_name E screen_name w = (Ok None, tick w)) /\
  (forall E mention w, exists r w',
               Bot.extract_user_id_from_mention E mention w = (Ok r, w')).
Proof.
  split; [ intros; reflexivity | ].
  split; [ intros; reflexivity | ].
  split; [ intros; reflexivity | ].
  split.
  { intros E w H. apply (handle_with_failing_lookup E "nonexistent_handle" w).
    - reflexivity.
    - exact H. }
  split; [ exact digits_resolve | ].
  split; [ exact handle_with_failing_lookup | ].
  split; [ exact lookup_screen_name_fails | exact extract_never_raises ].
Qed.

Lemma mention_resolution_witness :
  Bot.extract_user_id_from_mention platform_down "@nonexistent_handle" fresh_world
  = (Ok None, tick fresh_world).
Proof.
  apply (proj1 (proj2 (proj2 (proj2 mention_resolution)))).
  left. reflexivity.
Defined.

(** ** The role model *)

Lemma peer_truthy_nonzero (p : Z) : p <> 0 -> Database.peer_truthy (Some p) = Some p.
Proof.
  intros Hp. unfold Database.peer_truthy.
  destruct (p =? 0) eqn:Heq; [ apply Z.eqb_eq in Heq; contradiction | reflexivity ].
Qed.

Lemma peer_truthy_zero : Database.peer_truthy (Some 0) = None.
Proof. reflexivity. Qed.

(** [get_role] computes the effective role of the specification on every
    store that keeps no override under the conversation id 0 *)
Lemma get_role_effective (d : DB) (user peer : Z) :
  no_override_at_zero d ->
  Database.get_role d user (Some peer) = effective_role d user peer.
Proof.
  intros Hwf. unfold Database.get_role, effective_role.
  destruct (Z.eq_dec peer 0) as [-> | Hp].
  - rewrite peer_truthy_zero, Hwf. reflexivity.
  - rewrite peer_truthy_nonzero by assumption. reflexivity.
Qed.

Lemma run_op_conversation_roles (o : db_op) (d : DB) :
  t_conversation_roles (run_op o d) = t_conversation_roles d \/
  exists user role p, p <> 0 /\
    t_conversation_roles (run_op o d) = <[(user, p) := role]> (t_conversation_roles d).
Proof.
  destruct o as [now u | now u | now u r | u | now u dur r | u | now u r | u role peer];
    cbn.
  - left. unfold Database.add_user. destruct (t_users d !! u); reflexivity.
  - left. unfold Database.update_message_count. destruct (t_users d !! u); reflexivity.
  - left. unfold Database.add_warn. cbn.
    destruct (t_users d !! u) as [row|]; cbn.
    + rewrite lookup_insert_eq. reflexivity.
    + destruct (t_users d !! u); reflexivity.
  - left. unfold Database.remove_warn.
    destruct (Database.most_recent_warn d u); [ | reflexivity ].
    cbn. destruct (t_users d !! u); reflexivity.
  - left. destruct (t_users d !! u); reflexivity.
  - left. unfold Database.remove_mute. destruct (t_users d !! u); reflexivity.
  - left. reflexivity.
  - unfold Database.set_role.
    destruct peer as [p|]; cbn.
    + destruct (p =? 0) eqn:Hp.
      * left. destruct (t_users d !! u); reflexivity.
      * right. exists u, role, p. split; [ | reflexivity ].
        intros ->. discriminate.
    + left. destruct (t_users d !! u); reflexivity.
Qed.

(** the invariant holds on every store that the operations produce *)
Lemma reachable_no_override_at_zero (d : DB) :
  reachable d -> no_override_at_zero d.
Proof.
  induction 1 as [ | o d Hd IH ].
  - intros user. apply lookup_empty.
  - intros user.
    destruct (run_op_conversation_roles o d) as [-> | (u & role & p & Hp & ->)].
    + apply IH.
    + rewrite lookup_insert_ne by congruence. apply IH.
Qed.

Lemma has_rights_run (E : env) (peer user : Z) (required : string) (w : world) :
  Bot.has_rights E peer user required w =
    (Ok (Bot.same_user (Bot.owner_in (get_conversation_members E (st_calls w) peer)) user
         || Bot.check_access (st_db w) user required (Some peer)),
     tick w).
Proof. reflexivity. Qed.

Lemma same_user_true (owner : option Z) (user : Z) :
  Bot.same_user owner user = true <-> owner = Some user.
Proof.
  destruct owner as [o|]; cbn.
  - rewrite Z.eqb_eq. split; congruence.
  - split; discriminate.
Qed.

(** C1. On every store without an override under the conversation id 0
    (every store that the operations produce), for every user, conversation
    and required role, [has_rights] returns [True] exactly when the rank of
    the effective role is at least the rank of the required role or the user
    is the owner that the platform designates; the effective role is the
    stored override of that conversation if there is one and the global role
    otherwise.  Storing an override for a conversation makes it the role
    that the checks of that conversation see, and changes neither the global
    role nor what the checks of any other conversation see. *)
Theorem access_check_is_has_minimum :
  (forall (E : env) (w : world) (peer user : Z) (required : string),
      no_override_at_zero (st_db w) ->
      exists b,
        Bot.has_rights E peer user required w = (Ok b, tick w) /\
        (b = true <->
         has_minimum (st_db w)
                     (Bot.owner_in (get_conversation_members E (st_calls w) peer))
                     user peer required)) /\
  (forall (d : DB) (user peer : Z) (role : string),
      peer <> 0 ->
      no_override_at_zero d ->
      let d' := snd (Database.set_role user role (Some peer) d) in
      no_override_at_zero d' /\
      effective_role d' user peer = role /\
      (forall required,
          Bot.check_access d' user required (Some peer)
          = (Bot.rank role >=? Bot.rank required)) /\
      (forall user' peer', (user', peer') <> (user, peer) ->
          effective_role d' user' peer' = effective_role d user' peer') /\
      (forall user' required,
          Bot.check_access d' user' required None
          = Bot.check_access d user' required None) /\
      (forall user', Database.global_role d' user' = Database.global_role d user')).
Proof.
  split.
  - intros E w peer user required Hwf.
    eexists. split; [ apply has_rights_run | ].
    unfold has_minimum, Bot.check_access.
    rewrite get_role_effective by assumption.
    rewrite orb_true_iff, same_user_true, Z.geb_le.
    split; (intros [H | H]; [ right | left ]); first [ exact H | lia ].
  - intros d user peer role Hp Hwf d'.
    assert (Hd' : d' = Database.with_conversation_roles d
                         (<[(user, peer) := role]> (t_conversation_roles d))).
    { subst d'. unfold Database.set_role.
      rewrite peer_truthy_nonzero by assumption. reflexivity. }
    assert (Heff : effective_role d' user peer = role).
    { rewrite Hd'. unfold effective_role. cbn. rewrite lookup_insert_eq. reflexivity. }
    assert (Hwf' : no_override_at_zero d').
    { intros u. rewrite Hd'. cbn. rewrite lookup_insert_ne by congruence. apply Hwf. }
    split; [ exact Hwf' | ].
    split; [ exact Heff | ].
    split.
    { intros required. unfold Bot.check_access.
      rewrite get_role_effective by assumption. rewrite Heff. reflexivity. }
    split.
    { intros user' peer' Hne. rewrite Hd'. unfold effective_role. cbn.
      rewrite lookup_insert_ne by congruence. reflexivity. }
    split; intros; rewrite Hd'; reflexivity.
Qed.

Lemma two_chat_moderators_no_override_at_zero : no_override_at_zero two_chat_moderators.
Proof.
  intros user. unfold two_chat_moderators. cbn.
  rewrite !lookup_insert_ne by (unfold chat; congruence). apply lookup_empty.
Qed.

Lemma access_check_is_has_minimum_witness :
  (exists b,
      Bot.has_rights platform_up chat 10 "creator"
                     (mk_world two_chat_moderators ∅ 0 [])
      = (Ok b, tick (mk_world two_chat_moderators ∅ 0 [])) /\
      (b = true <->
       has_minimum two_chat_moderators (Some 10) 10 chat "creator")) /\
  effective_role (snd (Database.set_role 20 "admin" (Some chat) two_chat_moderators))
                 20 chat = "admin".
Proof.
  split.
  - apply (proj1 access_check_is_has_minimum platform_up
                 (mk_world two_chat_moderators ∅ 0 []) chat 10 "creator").
    exact two_chat_moderators_no_override_at_zero.
  - apply (proj2 access_check_is_has_minimum two_chat_moderators 20 chat "admin").
    + unfold chat. lia.
    + exact two_chat_moderators_no_override_at_zero.
Defined.

(** C10. A user without a row in [users] is refused by [check_access] for
    every required role, "user" included, when no conversation id is given;
    with a conversation id (and no override stored for that conversation)
    the same user is read as holding the role "user", and the check against
    the required role "user" succeeds. *)
Theorem access_of_unknown_user (d : DB) (user : Z) :
  Database.get_user d user = None ->
  (forall required, Bot.check_access d user required None = false) /\
  (forall peer,
      t_conversation_roles d !! (user, peer) = None ->
      Database.get_role d user (Some peer) = "user" /\
      Bot.check_access d user "user" (Some peer) = true).
Proof.
  unfold Database.get_user. intros Hrow. split.
  - intros required. unfold Bot.check_access, Database.get_user.
    rewrite Hrow. reflexivity.
  - intros peer Hnone.
    assert (Hrole : Database.get_role d user (Some peer) = "user").
    { unfold Database.get_role, Database.global_role. rewrite Hrow.
      destruct (Database.peer_truthy (Some peer)) as [p|] eqn:Hp; [ | reflexivity ].
      assert (p = peer) as ->.
      { unfold Database.peer_truthy in Hp.
        destruct (peer =? 0); congruence. }
      rewrite Hnone. reflexivity. }
    split; [ exact Hrole | ].
    unfold Bot.check_access. rewrite Hrole. reflexivity.
Qed.

Lemma access_of_unknown_user_witness :
  (forall required, Bot.check_access two_chat_moderators 30 required None = false) /\
  (forall peer,
      t_conversation_roles two_chat_moderators !! (30, peer) = None ->
      Database.get_role two_chat_moderators 30 (Some peer) = "user" /\
      Bot.check_access two_chat_moderators 30 "user" (Some peer) = true).
Proof.
  apply (access_of_unknown_user two_chat_moderators 30).
  reflexivity.
Defined.

(** ** The cooldown gate *)

Lemma Qlt_bool_iff (a b : Q) : Qlt_bool a b = true <-> (a < b)%Q.
Proof.
  unfold Qlt_bool. rewrite negb_true_iff, <- not_true_iff_false, Qle_bool_iff.
  split; [ apply Qnot_le_lt | apply Qlt_not_le ].
Qed.

(** C2, as the code has it.  [check_cooldown] rejects exactly when a stamp of
    the invoker is stored and less than [command_cooldown] seconds lie
    between it and the reading of the clock.  An accepted check stores the
    reading as the new stamp of the invoker; a rejected check leaves the map
    of stamps as it was.  Neither touches the store or sends anything. *)
Theorem cooldown_stamps_accepted_only (E : env) (C : config) (user : Z) (w : world) :
  let now := clock E (st_calls w) in
  exists b w',
    Bot.check_cooldown E C user w = (Ok b, w') /\
    (b = false <->
     exists last, st_last_command_time w !! user = Some last /\
                  (now - last < inject_Z (command_cooldown C))%Q) /\
    st_last_command_time w' =
      (if b then <[user := now]> (st_last_command_time w)
       else st_last_command_time w) /\
    st_db w' = st_db w /\ st_trace w' = st_trace w.
Proof.
  intros now.
  unfold Bot.check_cooldown, bind, Bot.time_time, external. cbn. fold now.
  destruct (st_last_command_time w !! user) as [last|] eqn:Hlast.
  - destruct (Qlt_bool (now - last) (inject_Z (command_cooldown C))) eqn:Hlt.
    + exists false. eexists. split; [ reflexivity | ].
      split; [ | auto ].
      split; [ | reflexivity ].
      intros _. exists last. split; [ reflexivity | ]. apply Qlt_bool_iff, Hlt.
    + exists true. eexists. split; [ reflexivity | ].
      split; [ | auto ].
      split; [ discriminate | ].
      intros (l & Hl & Hq). inversion Hl; subst l.
      apply Qlt_bool_iff in Hq. congruence.
  - exists true. eexists. split; [ reflexivity | ].
    split; [ | auto ].
    split; [ discriminate | ].
    intros (l & Hl & _). discriminate.
Qed.

Lemma cooldown_stamps_accepted_only_witness :
  exists b w',
    Bot.check_cooldown (platform_at 101) logging_off 1 cooling_world = (Ok b, w') /\
    (b = false <->
     exists last, st_last_command_time cooling_world !! 1 = Some last /\
                  (101 - last < inject_Z 3)%Q) /\
    st_last_command_time w' =
      (if b then <[1 := 101%Q]> (st_last_command_time cooling_world)
       else st_last_command_time cooling_world) /\
    st_db w' = st_db cooling_world /\ st_trace w' = st_trace cooling_world.
Proof.
  apply (cooldown_stamps_accepted_only (platform_at 101) logging_off 1 cooling_world).
Defined.

(** C2 as stated fails.  The cooldown is 3 seconds and user 1 has the stamp
    100.  A check at time 101 is rejected, and the stamp of user 1 is still
    100 afterwards: the time of the rejected attempt, 101, is not stored. *)
Lemma cooldown_rejection_leaves_stamp :
  clock (platform_at 101) (st_calls cooling_world) = 101%Q /\
  command_cooldown logging_off = 3 /\
  st_last_command_time cooling_world !! 1 = Some 100%Q /\
  fst (Bot.check_cooldown (platform_at 101) logging_off 1 cooling_world) = Ok false /\
  st_last_command_time
    (snd (Bot.check_cooldown (platform_at 101) logging_off 1 cooling_world)) !! 1
  = Some 100%Q /\
  st_last_command_time
    (snd (Bot.check_cooldown (platform_at 101) logging_off 1 cooling_world)) !! 1
  <> Some 101%Q.
Proof.
  repeat split; try reflexivity.
  vm_compute. discriminate.
Qed.

(** ** Warnings *)

Lemma latest_spec (l : list warn_row) (best : option warn_row) :
  match Database.latest best l with
  | Some r =>
      (best = Some r \/ In r l) /\
      (forall x, best = Some x \/ In x l -> w_timestamp x <= w_timestamp r)
  | None => best = None /\ l = []
  end.
Proof.
  revert best. induction l as [ | a l IH ]; intros best; cbn.
  - destruct best as [b|]; [ | auto ].
    split; [ auto | ]. intros x [Hx | []]. inversion Hx. lia.
  - specialize (IH (match best with
                    | Some b => if w_timestamp b <? w_timestamp a then Some a else Some b
                    | None => Some a
                    end)).
    destruct (Database.latest _ l) as [r|].
    + destruct IH as [Hin Hmax]. split.
      * destruct Hin as [Hb | Hl]; [ | auto ].
        destruct best as [b|].
        -- destruct (w_timestamp b <? w_timestamp a); inversion Hb; subst; auto.
        -- inversion Hb; subst; auto.
      * intros x [Hx | [Hx | Hx]].
        -- subst best.
           destruct (w_timestamp x <? w_timestamp a) eqn:Hlt.
           ++ apply Z.ltb_lt in Hlt.
              specialize (Hmax a (or_introl eq_refl)). lia.
           ++ apply Hmax. auto.
        -- subst x. destruct best as [b|].
           ++ destruct (w_timestamp b <? w_timestamp a) eqn:Hlt.
              ** apply Hmax. auto.
              ** apply Z.ltb_ge in Hlt.
                 specialize (Hmax b (or_introl eq_refl)). lia.
           ++ apply Hmax. auto.
        -- apply Hmax. auto.
    + destruct IH as [Hnone _]. destruct best as [b|]; [ | discriminate ].
      destruct (w_timestamp b <? w_timestamp a); discriminate.
Qed.

Lemma in_warns_of (d : DB) (u : Z) (r : warn_row) :
  In r (Database.warns_of d u) <-> In r (t_warns d) /\ w_user_id r = u.
Proof.
  unfold Database.warns_of. rewrite filter_In, Z.eqb_eq. reflexivity.
Qed.

(** the row that [remove_warn] selects is a row of the user with the
    greatest time stamp among the rows of the user *)
Lemma most_recent_warn_spec (d : DB) (u : Z) :
  match Database.most_recent_warn d u with
  | Some row =>
      In row (Database.warns_of d u) /\
      (forall r, In r (Database.warns_of d u) -> w_timestamp r <= w_timestamp row)
  | None => Database.warns_of d u = []
  end.
Proof.
  unfold Database.most_recent_warn.
  pose proof (latest_spec (Database.warns_of d u) None) as H.
  destruct (Database.latest None (Database.warns_of d u)) as [row|].
  - destruct H as [[H | H] Hmax]; [ discriminate | ].
    split; [ exact H | ]. intros r Hr. apply Hmax. auto.
  - apply H.
Qed.

Lemma same_key_same_row (l : list warn_row) (r row : warn_row) :
  NoDup (map w_id l) -> In r l -> In row l -> w_id r = w_id row -> r = row.
Proof.
  induction l as [ | a l IH ]; cbn; [ tauto | ].
  intros Hnd Hr Hrow Hid. inversion Hnd as [ | ? ? Hnotin Hnd' ]; subst.
  rewrite list_elem_of_In in Hnotin.
  destruct Hr as [-> | Hr], Hrow as [-> | Hrow]; auto.
  - exfalso. apply Hnotin. rewrite Hid. apply in_map. exact Hrow.
  - exfalso. apply Hnotin. rewrite <- Hid. apply in_map. exact Hr.
Qed.

Lemma in_delete_warn (l : list warn_row) (row r : warn_row) :
  NoDup (map w_id l) -> In row l ->
  (In r (Database.delete_warn (w_id row) l) <-> In r l /\ r <> row).
Proof.
  intros Hnd Hrow. unfold Database.delete_warn.
  rewrite filter_In, negb_true_iff, Z.eqb_neq.
  split; intros [Hin Hne]; (split; [ exact Hin | ]).
  - intros ->. apply Hne. reflexivity.
  - intros Hid. apply Hne. eapply same_key_same_row; eauto.
Qed.

(** deleting by key removes exactly one row from the rows that satisfy [p]
    when the deleted row satisfies [p], and none otherwise *)
Lemma count_delete_warn (p : warn_row -> bool) (l : list warn_row) (row : warn_row) :
  NoDup (map w_id l) -> In row l ->
  (length (List.filter p (Database.delete_warn (w_id row) l))
   + (if p row then 1 else 0))%nat
  = length (List.filter p l).
Proof.
  induction l as [ | a l IH ]; cbn; [ tauto | ].
  intros Hnd Hrow. inversion Hnd as [ | ? ? Hnotin Hnd' ]; subst.
  rewrite list_elem_of_In in Hnotin.
  destruct Hrow as [-> | Hrow].
  - rewrite Z.eqb_refl. cbn.
    assert (Hsame : Database.delete_warn (w_id row) l = l).
    { unfold Database.delete_warn. apply forallb_filter_id.
      apply forallb_forall. intros x Hx. apply negb_true_iff, Z.eqb_neq.
      intros Hid. apply Hnotin. rewrite <- Hid. apply in_map. exact Hx. }
    fold (Database.delete_warn (w_id row) l). rewrite Hsame.
    destruct (p row); cbn; lia.
  - assert (Hne : w_id a <> w_id row).
    { intros Hid. apply Hnotin. rewrite Hid. apply in_map. exact Hrow. }
    apply Z.eqb_neq in Hne. rewrite Hne. cbn.
    fold (Database.delete_warn (w_id row) l).
    specialize (IH Hnd' Hrow).
    destruct (p a); cbn; lia.
Qed.

Lemma add_warn_registered (now u : Z) (reason : text) (d : DB) (row : user_row) :
  t_users d !! u = Some row ->
  Database.add_warn now u reason d =
    (Ok (u_warns row + 1),
     mk_db (<[u := Database.set_warns row (u_warns row + 1)]> (t_users d))
           (t_warns d ++ [mk_warn (t_warns_seq d + 1) u reason now])
           (t_warns_seq d + 1) (t_bans d) (t_conversation_roles d)).
Proof.
  intros Hrow. unfold Database.add_warn. cbn. rewrite Hrow. cbn.
  rewrite lookup_insert_eq. reflexivity.
Qed.

Lemma add_warn_keyed (now u : Z) (reason : text) (d : DB) :
  warns_keyed d -> warns_keyed (snd (Database.add_warn now u reason d)).
Proof.
  intros [Hnd Hle].
  assert (Hw : t_warns (snd (Database.add_warn now u reason d))
               = (t_warns d ++ [mk_warn (t_warns_seq d + 1) u reason now])%list /\
               t_warns_seq (snd (Database.add_warn now u reason d)) = t_warns_seq d + 1).
  { unfold Database.add_warn. cbn.
    destruct (t_users d !! u) as [row|] eqn:Hrow; cbn.
    - rewrite lookup_insert_eq. cbn. auto.
    - rewrite Hrow. cbn. auto. }
  destruct Hw as [Hw Hs]. unfold warns_keyed. rewrite Hw, Hs. split.
  - rewrite map_app. cbn. apply NoDup_app. split; [ exact Hnd | ]. split.
    + intros x Hx Hnew. apply list_elem_of_singleton in Hnew. subst x.
      apply list_elem_of_In, in_map_iff in Hx. destruct Hx as (r & Hid & Hr).
      rewrite Forall_forall in Hle.
      assert (w_id r <= t_warns_seq d) by (apply Hle, list_elem_of_In, Hr).
      lia.
    + apply NoDup_singleton.
  - apply Forall_app. split.
    + eapply Forall_impl; [ exact Hle | ]. cbn. intros; lia.
    + constructor; [ cbn; lia | constructor ].
Qed.

Lemma NoDup_map_filter {A B} (f : A -> B) (p : A -> bool) (l : list A) :
  NoDup (map f l) -> NoDup (map f (List.filter p l)).
Proof.
  induction l as [ | a l IH ]; cbn; [ auto | ].
  intros Hnd. apply NoDup_cons in Hnd. destruct Hnd as [Hnotin Hnd].
  destruct (p a); cbn; [ | auto ].
  apply NoDup_cons. split; [ | auto ].
  intros Hin. apply Hnotin.
  apply list_elem_of_In, in_map_iff in Hin. destruct Hin as (x & Hfx & Hx).
  apply filter_In in Hx. rewrite <- Hfx.
  apply list_elem_of_In, in_map, Hx.
Qed.

(** what [remove_warn] does when the user has a warning entry *)
Lemma remove_warn_selected (u : Z) (d : DB) (row : warn_row) :
  Database.most_recent_warn d u = Some row ->
  let d' := snd (Database.remove_warn u d) in
  fst (Database.remove_warn u d) = Database.get_warns d' u /\
  t_warns d' = Database.delete_warn (w_id row) (t_warns d) /\
  t_warns_seq d' = t_warns_seq d /\
  t_users d' =
    match t_users d !! u with
    | Some r => <[u := Database.set_warns r (Z.max 0 (u_warns r - 1))]> (t_users d)
    | None => t_users d
    end /\
  Database.get_warns d' u = Z.max 0 (Database.get_warns d u - 1).
Proof.
  intros Hsel. unfold Database.remove_warn. rewrite Hsel. cbn.
  unfold Database.get_warns.
  destruct (t_users d !! u) as [r|] eqn:Hrow; cbn.
  - rewrite lookup_insert_eq. cbn. auto.
  - rewrite Hrow. cbn. auto.
Qed.

Lemma remove_warn_keyed (u : Z) (d : DB) :
  warns_keyed d -> warns_keyed (snd (Database.remove_warn u d)).
Proof.
  intros [Hnd Hle].
  destruct (Database.most_recent_warn d u) as [row|] eqn:Hsel.
  - destruct (remove_warn_selected u d row Hsel) as (_ & Hw & Hs & _).
    unfold warns_keyed. rewrite Hw, Hs. split.
    + apply NoDup_map_filter, Hnd.
    + unfold Database.delete_warn. rewrite Forall_forall in Hle |- *.
      intros x Hx. apply Hle.
      apply list_elem_of_In, filter_In in Hx. apply list_elem_of_In, Hx.
  - unfold Database.remove_warn. rewrite Hsel. split; assumption.
Qed.

Lemma remove_warn_entries (u : Z) (d : DB) (row : warn_row) :
  warns_keyed d ->
  Database.most_recent_warn d u = Some row ->
  (entries (snd (Database.remove_warn u d)) u + 1)%nat = entries d u /\
  length (t_warns (snd (Database.remove_warn u d))) = pred (length (t_warns d)).
Proof.
  intros [Hnd _] Hsel.
  destruct (remove_warn_selected u d row Hsel) as (_ & Hw & _).
  pose proof (most_recent_warn_spec d u) as Hspec. rewrite Hsel in Hspec.
  destruct Hspec as [Hin _]. apply in_warns_of in Hin. destruct Hin as [Hin Hu].
  unfold entries, Database.warns_of. rewrite Hw. split.
  - pose proof (count_delete_warn (fun r => w_user_id r =? u) (t_warns d) row Hnd Hin)
      as Hc.
    cbn in Hc. rewrite Hu, Z.eqb_refl in Hc. exact Hc.
  - pose proof (count_delete_warn (fun _ => true) (t_warns d) row Hnd Hin) as Hc.
    cbn in Hc.
    assert (Hall : forall l : list warn_row, List.filter (fun _ => true) l = l).
    { intros l. apply forallb_filter_id, forallb_forall. reflexivity. }
    rewrite !Hall in Hc. lia.
Qed.

Lemma warn_all_registered (u : Z) (stamps : list (Z * text)) (d : DB) (row : user_row) :
  warns_keyed d ->
  t_users d !! u = Some row ->
  exists row',
    t_users (warn_all stamps u d) !! u = Some row' /\
    u_warns row' = u_warns row + Z.of_nat (length stamps) /\
    entries (warn_all stamps u d) u = (entries d u + length stamps)%nat /\
    warns_keyed (warn_all stamps u d).
Proof.
  revert d row. induction stamps as [ | [now reason] rest IH ]; intros d row Hk Hrow.
  - exists row. cbn. repeat split; try apply Hk; auto; lia.
  - cbn [warn_all].
    pose proof (add_warn_keyed now u reason d Hk) as Hk'.
    rewrite (add_warn_registered now u reason d row Hrow) in *. cbn [snd] in *.
    set (d1 := mk_db _ _ _ _ _) in *.
    assert (Hrow1 : t_users d1 !! u
                    = Some (Database.set_warns row (u_warns row + 1))).
    { subst d1. cbn. apply lookup_insert_eq. }
    destruct (IH d1 _ Hk' Hrow1) as (row' & Hr' & Hw' & He' & Hk'').
    exists row'. split; [ exact Hr' | ]. split; [ rewrite Hw'; cbn; lia | ].
    split; [ | exact Hk'' ].
    rewrite He'. unfold entries, Database.warns_of. subst d1. cbn.
    rewrite List.filter_app, length_app. cbn. rewrite Z.eqb_refl. cbn. lia.
Qed.

Lemma unwarn_times_registered (u : Z) (m : nat) (d : DB) (row : user_row) :
  warns_keyed d ->
  t_users d !! u = Some row ->
  (m <= entries d u)%nat ->
  Z.of_nat m <= u_warns row ->
  Database.get_warns (unwarn_times m u d) u = u_warns row - Z.of_nat m.
Proof.
  revert d row. induction m as [ | k IH ]; intros d row Hk Hrow Hm Hw.
  - cbn. unfold Database.get_warns. rewrite Hrow. lia.
  - cbn [unwarn_times].
    pose proof (most_recent_warn_spec d u) as Hspec.
    destruct (Database.most_recent_warn d u) as [sel|] eqn:Hsel.
    + destruct (remove_warn_selected u d sel Hsel) as (_ & _ & _ & Hus & _).
      destruct (remove_warn_entries u d sel Hk Hsel) as [He _].
      rewrite Hrow in Hus.
      rewrite (IH _ (Database.set_warns row (Z.max 0 (u_warns row - 1)))).
      * cbn. lia.
      * apply remove_warn_keyed, Hk.
      * rewrite Hus. apply lookup_insert_eq.
      * lia.
      * cbn. lia.
    + unfold entries in Hm. rewrite Hspec in Hm. cbn in Hm. lia.
Qed.

Lemma add_user_registered (now u : Z) (d : DB) (row : user_row) :
  t_users d !! u = Some row -> Database.add_user now u d = d.
Proof. intros Hrow. unfold Database.add_user. rewrite Hrow. reflexivity. Qed.

Lemma add_user_keyed (now u : Z) (d : DB) :
  warns_keyed d -> warns_keyed (Database.add_user now u d).
Proof.
  unfold Database.add_user. destruct (t_users d !! u); intros H; exact H.
Qed.

Lemma add_user_registers (now u : Z) (d : DB) :
  exists row,
    t_users (Database.add_user now u d) !! u = Some row /\
    u_warns row = Database.get_warns d u.
Proof.
  unfold Database.add_user, Database.get_warns.
  destruct (t_users d !! u) as [row|] eqn:Hrow.
  - exists row. auto.
  - eexists. cbn. rewrite lookup_insert_eq. split; reflexivity.
Qed.

Lemma run_op_warns (o : db_op) (d : DB) :
  match o with
  | OpAddWarn _ _ _ | OpRemoveWarn _ => True
  | _ => t_warns (run_op o d) = t_warns d /\ t_warns_seq (run_op o d) = t_warns_seq d
  end.
Proof.
  destruct o as [now u | now u | now u r | u | now u dur r | u | now u r | u role peer];
    cbn; auto.
  - unfold Database.add_user. destruct (t_users d !! u); auto.
  - unfold Database.update_message_count. destruct (t_users d !! u); auto.
  - destruct (t_users d !! u); auto.
  - unfold Database.remove_mute. destruct (t_users d !! u); auto.
  - unfold Database.set_role.
    destruct (Database.peer_truthy peer); [ auto | ].
    destruct (t_users d !! u); auto.
Qed.

(** the primary key holds on every store that the operations produce *)
Lemma reachable_warns_keyed (d : DB) : reachable d -> warns_keyed d.
Proof.
  induction 1 as [ | o d Hd IH ].
  - split; [ apply NoDup_nil_2 | constructor ].
  - pose proof (run_op_warns o d) as Hop.
    destruct o;
      first [ apply add_warn_keyed, IH
            | apply remove_warn_keyed, IH
            | destruct Hop as [Hw Hs]; unfold warns_keyed; rewrite Hw, Hs; exact IH ].
Qed.

(** for a registered user the writes of the handler are those of [add_warn] *)
Lemma warn_all_registering_registered (u : Z) (stamps : list (Z * Z * text))
      (d : DB) (row : user_row) :
  t_users d !! u = Some row ->
  warn_all_registering stamps u d
  = warn_all (map (fun x => (snd (fst x), snd x)) stamps) u d.
Proof.
  revert d row. induction stamps as [ | [[reg_now now] reason] rest IH ];
    intros d row Hrow; [ reflexivity | ].
  cbn [warn_all_registering warn_all map fst snd].
  rewrite (add_user_registered reg_now u d row Hrow).
  rewrite (add_warn_registered now u reason d row Hrow). cbn [snd].
  eapply IH. cbn. apply lookup_insert_eq.
Qed.

(** C5. For a registered user whose counter is 0, N calls of [add_warn]
    followed by M <= N calls of [remove_warn] leave the counter at N - M,
    which is not negative; the same holds for every user whose counter reads
    0, registered or not, when each warning is written as [cmd_warn] writes
    it ([add_user], then [add_warn]).  A call of [remove_warn] for a user
    with a warning entry selects an entry of that user with the greatest time
    stamp, deletes that entry and no other, sets the counter to the maximum
    of 0 and the counter minus 1, and returns the new counter.  Without a
    warning entry it returns 0 and changes nothing.  (The keys of table
    [warns] are a primary key: [warns_keyed].) *)
Theorem warn_unwarn_counter :
  (forall (d : DB) (u : Z) (row : user_row) (stamps : list (Z * text)) (m : nat),
      warns_keyed d ->
      t_users d !! u = Some row ->
      u_warns row = 0 ->
      (m <= length stamps)%nat ->
      Database.get_warns (unwarn_times m u (warn_all stamps u d)) u
      = Z.of_nat (length stamps) - Z.of_nat m /\
      Database.get_warns (unwarn_times m u (warn_all stamps u d)) u
      = Z.max 0 (Z.of_nat (length stamps) - Z.of_nat m)) /\
  (forall (d : DB) (u : Z) (stamps : list (Z * Z * text)) (m : nat),
      warns_keyed d ->
      Database.get_warns d u = 0 ->
      (m <= length stamps)%nat ->
      Database.get_warns (unwarn_times m u (warn_all_registering stamps u d)) u
      = Z.of_nat (length stamps) - Z.of_nat m) /\
  (forall (d : DB) (u : Z),
      warns_keyed d ->
      Database.warns_of d u <> [] ->
      exists row,
        Database.most_recent_warn d u = Some row /\
        In row (Database.warns_of d u) /\
        (forall r, In r (Database.warns_of d u) -> w_timestamp r <= w_timestamp row) /\
        (forall r, In r (t_warns (snd (Database.remove_warn u d)))
                   <-> In r (t_warns d) /\ r <> row) /\
        length (t_warns (snd (Database.remove_warn u d))) = pred (length (t_warns d)) /\
        Database.get_warns (snd (Database.remove_warn u d)) u
        = Z.max 0 (Database.get_warns d u - 1) /\
        fst (Database.remove_warn u d)
        = Database.get_warns (snd (Database.remove_warn u d)) u) /\
  (forall (d : DB) (u : Z),
      Database.warns_of d u = [] ->
      Database.remove_warn u d = (0, d)).
Proof.
  assert (Hcount : forall (d : DB) (u : Z) (row : user_row)
                          (stamps : list (Z * text)) (m : nat),
             warns_keyed d -> t_users d !! u = Some row -> u_warns row = 0 ->
             (m <= length stamps)%nat ->
             Database.get_warns (unwarn_times m u (warn_all stamps u d)) u
             = Z.of_nat (length stamps) - Z.of_nat m).
  { intros d u row stamps m Hk Hrow Hzero Hm.
    destruct (warn_all_registered u stamps d row Hk Hrow) as (row' & Hr' & Hw' & He' & Hk').
    rewrite (unwarn_times_registered u m _ row' Hk' Hr') by lia.
    rewrite Hw', Hzero. lia. }
  split; [ | split; [ | split ] ].
  - intros d u row stamps m Hk Hrow Hzero Hm.
    rewrite (Hcount d u row stamps m Hk Hrow Hzero Hm). split; lia.
  - intros d u stamps m Hk Hzero Hm.
    destruct stamps as [ | [[reg_now now] reason] rest ].
    + cbn in Hm. assert (m = 0%nat) as -> by lia. cbn. lia.
    + cbn [warn_all_registering].
      destruct (add_user_registers reg_now u d) as (row0 & Hrow0 & Hw0).
      pose proof (add_user_keyed reg_now u d Hk) as Hk0.
      set (d0 := Database.add_user reg_now u d) in *.
      assert (Hpure : warn_all_registering rest u (snd (Database.add_warn now u reason d0))
                      = warn_all ((now, reason)
                                  :: map (fun x => (snd (fst x), snd x)) rest) u d0).
      { cbn [warn_all].
        rewrite (add_warn_registered now u reason d0 row0 Hrow0). cbn [snd].
        eapply warn_all_registering_registered. cbn. apply lookup_insert_eq. }
      rewrite Hpure, (Hcount d0 u row0).
      * cbn [length]. rewrite length_map. reflexivity.
      * exact Hk0.
      * exact Hrow0.
      * congruence.
      * cbn [length] in *. rewrite length_map. exact Hm.
  - intros d u Hk Hne.
    pose proof (most_recent_warn_spec d u) as Hspec.
    destruct (Database.most_recent_warn d u) as [row|] eqn:Hsel; [ | contradiction ].
    destruct Hspec as [Hin Hmax].
    destruct (remove_warn_selected u d row Hsel) as (Hret & Hw & _ & _ & Hcnt).
    destruct (remove_warn_entries u d row Hk Hsel) as [_ Hlen].
    assert (Hrow : In row (t_warns d)) by (apply in_warns_of in Hin; apply Hin).
    exists row.
    split; [ reflexivity | ]. split; [ exact Hin | ]. split; [ exact Hmax | ].
    split; [ | auto ].
    intros r. rewrite Hw. apply in_delete_warn; [ apply Hk | exact Hrow ].
  - intros d u Hnone.
    pose proof (most_recent_warn_spec d u) as Hspec.
    unfold Database.remove_warn.
    destruct (Database.most_recent_warn d u) as [row|]; [ | reflexivity ].
    destruct Hspec as [Hin _]. rewrite Hnone in Hin. destruct Hin.
Qed.

Lemma one_old_warning_keyed : warns_keyed one_old_warning.
Proof.
  split; cbn.
  - apply NoDup_singleton.
  - constructor; [ cbn; lia | constructor ].
Qed.

Lemma warn_unwarn_counter_witness :
  Database.get_warns
    (unwarn_times 2 7
       (warn_all [(100, UserText "spam"); (100, NotSpecified); (130, UserText "flood")]
                 7 one_old_warning)) 7
  = 1 /\
  Database.get_warns
    (unwarn_times 1 9
       (warn_all_registering [(90, 100, UserText "spam"); (101, 102, NotSpecified)]
                             9 one_old_warning)) 9
  = 1 /\
  Database.remove_warn 9 one_old_warning = (0, one_old_warning) /\
  exists row, Database.most_recent_warn one_old_warning 7 = Some row.
Proof.
  split; [ | split; [ | split ] ].
  - apply (proj1 (proj1 warn_unwarn_counter one_old_warning 7 plain_row
             [(100, UserText "spam"); (100, NotSpecified); (130, UserText "flood")]
             2%nat one_old_warning_keyed eq_refl eq_refl
             (le_S _ _ (le_n 2)))).
  - apply (proj1 (proj2 warn_unwarn_counter) one_old_warning 9
             [(90, 100, UserText "spam"); (101, 102, NotSpecified)] 1%nat
             one_old_warning_keyed eq_refl (le_S _ _ (le_n 1))).
  - apply (proj2 (proj2 (proj2 warn_unwarn_counter)) one_old_warning 9). reflexivity.
  - destruct (proj1 (proj2 (proj2 warn_unwarn_counter)) one_old_warning 7
                one_old_warning_keyed)
      as (row & Hrow & _).
    + discriminate.
    + exists row. exact Hrow.
Defined.

(** ** Runs of handlers: composition and the primitive steps *)

Lemma returns_ret {A} (a : A) (w : world) (Q : A -> world -> Prop) :
  Q a w -> returns (ret a) w Q.
Proof. intros H. exists a, w. split; [ reflexivity | exact H ]. Qed.

Lemma returns_bind {A B} (m : M A) (k : A -> M B) (w : world)
      (Q : B -> world -> Prop) :
  returns m w (fun a w1 => returns (k a) w1 Q) -> returns (bind m k) w Q.
Proof.
  intros (a & w1 & Hm & b & w2 & Hk & HQ).
  exists b, w2. unfold bind. rewrite Hm. split; assumption.
Qed.

Lemma returns_weaken {A} (m : M A) (w : world) (P Q : A -> world -> Prop) :
  returns m w P -> (forall a w', P a w' -> Q a w') -> returns m w Q.
Proof. intros (a & w' & Hm & HP) HPQ. exists a, w'. auto. Qed.

Lemma quiet_refl (w : world) : quiet w w.
Proof. repeat split. Qed.

Lemma quiet_trans (w1 w2 w3 : world) : quiet w1 w2 -> quiet w2 w3 -> quiet w1 w3.
Proof.
  intros (Hd & Hl & Ht) (Hd' & Hl' & Ht'). repeat split; congruence.
Qed.

Lemma quiet_tick (w : world) : quiet w (tick w).
Proof. repeat split. Qed.

Lemma silent_ret {A} (a : A) : silent (ret a).
Proof. intros w. apply quiet_refl. Qed.

Lemma silent_raise {A} (e : pyexc) : silent (@raise A e).
Proof. intros w. apply quiet_refl. Qed.

Lemma silent_bind {A B} (m : M A) (k : A -> M B) :
  silent m -> (forall a, silent (k a)) -> silent (bind m k).
Proof.
  intros Hm Hk w. unfold bind. specialize (Hm w).
  destruct (m w) as [[a | e] w1]; cbn in Hm.
  - eapply quiet_trans; [ exact Hm | apply Hk ].
  - exact Hm.
Qed.

Lemma silent_try_except {A} (m h : M A) :
  silent m -> silent h -> silent (try_except m h).
Proof.
  intros Hm Hh w. unfold try_except. specialize (Hm w).
  destruct (m w) as [[a | e] w1]; cbn in Hm.
  - exact Hm.
  - eapply quiet_trans; [ exact Hm | apply Hh ].
Qed.

Lemma silent_external {A} (f : nat -> A) : silent (external f).
Proof. intros w. apply quiet_tick. Qed.

Lemma silent_request {A} (f : nat -> option A) : silent (request f).
Proof. intros w. unfold request. destruct (f (st_calls w)); apply quiet_tick. Qed.

Lemma silent_get_db : silent get_db.
Proof. intros w. apply quiet_refl. Qed.

Create HintDb silent.

#[local] Hint Resolve silent_ret silent_raise silent_external silent_request
  silent_get_db : silent.

Ltac silent_steps :=
  repeat first
    [ solve [ auto with silent ]
    | apply silent_bind; [ | intros ? ]
    | apply silent_try_except
    | progress cbv zeta
    | match goal with
      | |- silent (match ?x with _ => _ end) => destruct x
      | |- silent (if ?b then _ else _) => destruct b
      end ].

Lemma silent_vk_users_get (E : env) (r : user_ref) : silent (Bot.vk_users_get E r).
Proof. apply silent_request. Qed.

#[local] Hint Resolve silent_vk_users_get : silent.

Lemma silent_time_time (E : env) : silent (Bot.time_time E).
Proof. apply silent_external. Qed.

Lemma silent_int_time (E : env) : silent (Bot.int_time E).
Proof. unfold Bot.int_time, Bot.time_time. silent_steps. Qed.

Lemma silent_first_profile (E : env) (id : Z) : silent (Bot.first_profile E id).
Proof. unfold Bot.first_profile. silent_steps. Qed.

Lemma silent_name_or (E : env) (fallback : name) (id : Z) :
  silent (Bot.name_or E fallback id).
Proof.
  unfold Bot.name_or. apply silent_try_except; [ | auto with silent ].
  apply silent_bind; [ apply silent_first_profile | auto with silent ].
Qed.

Lemma silent_lookup_screen_name (E : env) (screen_name : string) :
  silent (Bot.lookup_screen_name E screen_name).
Proof. unfold Bot.lookup_screen_name. silent_steps. Qed.

#[local] Hint Resolve silent_time_time silent_int_time silent_first_profile
  silent_name_or silent_lookup_screen_name : silent.

Lemma silent_url_round (E : env) (pattern : Bot.url_pattern) (first_word : string) :
  silent (Bot.url_round E pattern first_word).
Proof. unfold Bot.url_round. silent_steps. Qed.

Lemma silent_url_loop (E : env) (patterns : list Bot.url_pattern) (first_word : string) :
  silent (Bot.url_loop E patterns first_word).
Proof.
  induction patterns as [ | p rest IH ]; cbn [Bot.url_loop].
  - auto with silent.
  - apply silent_bind; [ apply silent_url_round | ].
    intros [id|]; [ auto with silent | exact IH ].
Qed.

#[local] Hint Resolve silent_url_round silent_url_loop : silent.

Lemma silent_extract_body (E : env) (mention : string) :
  silent (Bot.extract_body E mention).
Proof. unfold Bot.extract_body. silent_steps. Qed.

Lemma silent_extract (E : env) (mention : string) :
  silent (Bot.extract_user_id_from_mention E mention).
Proof.
  unfold Bot.extract_user_id_from_mention.
  apply silent_try_except; [ apply silent_extract_body | auto with silent ].
Qed.

Lemma silent_check_access_m (user : Z) (required : string) (peer : option Z) :
  silent (Bot.check_access_m user required peer).
Proof. unfold Bot.check_access_m. silent_steps. Qed.

#[local] Hint Resolve silent_extract silent_check_access_m : silent.

(** the resolver returns, and changes neither the store nor the trace *)
Lemma extract_returns (E : env) (mention : string) (w : world) :
  returns (Bot.extract_user_id_from_mention E mention) w (fun _ w' => quiet w w').
Proof.
  destruct (extract_never_raises E mention w) as (r & w' & Hrun).
  exists r, w'. split; [ exact Hrun | ].
  pose proof (silent_extract E mention w) as Hq. rewrite Hrun in Hq. exact Hq.
Qed.

Lemma name_or_returns (E : env) (fallback : name) (id : Z) (w : world) :
  returns (Bot.name_or E fallback id) w (fun _ w' => quiet w w').
Proof.
  pose proof (silent_name_or E fallback id w) as Hq.
  unfold returns, Bot.name_or, try_except in *.
  destruct ((p <- Bot.first_profile E id ;; ret (Bot.full_name p)) w)
    as [[n | e] w1]; cbn in Hq.
  - exists n, w1. auto.
  - exists fallback, w1. auto.
Qed.

Lemma int_time_returns (E : env) (w : world) :
  returns (Bot.int_time E) w
          (fun now w' => now = int_of_float (clock E (st_calls w)) /\ quiet w w').
Proof.
  exists (int_of_float (clock E (st_calls w))), (tick w).
  split; [ reflexivity | ]. split; [ reflexivity | apply quiet_tick ].
Qed.

Lemma send_message_returns (E : env) (peer : Z) (m : message) (w : world) :
  returns (Bot.send_message E peer m) w
          (fun _ w' => st_db w' = st_db w /\ adds w w' [EvSend peer m]).
Proof. eexists _, _. split; [ reflexivity | ]. split; reflexivity. Qed.

Lemma kick_user_returns (E : env) (peer user : Z) (w : world) :
  returns (Bot.kick_user E peer user) w
          (fun _ w' => st_db w' = st_db w /\
                       adds w w' [EvRemoveChatUser (peer - 2000000000) user]).
Proof. eexists _, _. split; [ reflexivity | ]. split; reflexivity. Qed.

Lemma db_add_user_returns (E : env) (user : Z) (w : world) :
  returns (Bot.db_add_user E user) w
          (fun _ w' =>
             st_db w' = Database.add_user (int_of_float (clock E (st_calls w)))
                                          user (st_db w) /\
             adds w w' [EvStore (CallAddUser user)]).
Proof. eexists _, _. split; [ reflexivity | ]. split; reflexivity. Qed.

Lemma db_update_message_count_returns (E : env) (user : Z) (w : world) :
  returns (Bot.db_update_message_count E user) w
          (fun _ w' =>
             st_db w' = Database.update_message_count
                          (int_of_float (clock E (st_calls w))) user (st_db w) /\
             adds w w' [EvStore (CallUpdateMessageCount user)]).
Proof. eexists _, _. split; [ reflexivity | ]. split; reflexivity. Qed.

Lemma db_ban_user_returns (E : env) (user : Z) (reason : text) (w : world) :
  returns (Bot.db_ban_user E user reason) w
          (fun ok w' =>
             ok = true /\
             st_db w' = snd (Database.ban_user (int_of_float (clock E (st_calls w)))
                                               user reason (st_db w)) /\
             adds w w' [EvStore (CallBanUser user reason)]).
Proof. eexists _, _. split; [ reflexivity | ]. repeat split. Qed.

Lemma db_set_role_returns (user : Z) (role : string) (peer : option Z) (w : world) :
  returns (Bot.db_set_role user role peer) w
          (fun ok w' =>
             ok = fst (Database.set_role user role peer (st_db w)) /\
             st_db w' = snd (Database.set_role user role peer (st_db w)) /\
             adds w w' [EvStore (CallSetRole user role peer)]).
Proof.
  unfold Bot.db_set_role, returns, bind, emit, get_db, put_db, ret. cbn.
  destruct (Database.set_role user role peer (st_db w)) as [ok d'] eqn:Hset.
  eexists _, _. split; [ reflexivity | ]. repeat split.
Qed.

(** [add_warn] for a registered user returns the counter plus one *)
Lemma db_add_warn_returns (E : env) (user : Z) (reason : text) (w : world)
      (row : user_row) :
  t_users (st_db w) !! user = Some row ->
  returns (Bot.db_add_warn E user reason) w
          (fun n w' =>
             n = u_warns row + 1 /\
             st_db w' = snd (Database.add_warn (int_of_float (clock E (st_calls w)))
                                               user reason (st_db w)) /\
             adds w w' [EvStore (CallAddWarn user reason)]).
Proof.
  intros Hrow.
  unfold Bot.db_add_warn, returns, bind, emit, get_db, put_db, ret, Bot.int_time,
    Bot.time_time, external. cbn.
  rewrite (add_warn_registered _ user reason (st_db w) row Hrow).
  eexists _, _. split; [ reflexivity | ]. repeat split.
Qed.

(** an audit attempt returns; it records the attempt, then sends at most one
    text, to the logging conversation, and leaves the store alone *)
Lemma send_log_message_returns (E : env) (C : config) (action : string)
      (admin : Z) (target peer : option Z) (det : option details) (w : world) :
  returns (Bot.send_log_message E C action admin target peer det) w
          (fun _ w' =>
             st_db w' = st_db w /\
             exists evs,
               adds w w' (EvAudit (mk_audit action admin target peer det) :: evs) /\
               forallb is_log_send evs = true /\ (length evs <= 1)%nat).
Proof.
  unfold Bot.send_log_message.
  set (entry := mk_audit action admin target peer det).
  apply returns_bind. exists tt. eexists. split; [ reflexivity | ].
  set (w0 := mk_world _ _ _ _).
  assert (Hoff : returns (ret false) w0
            (fun _ w' => st_db w' = st_db w /\
               exists evs, adds w w' (EvAudit entry :: evs) /\
                           forallb is_log_send evs = true /\ (length evs <= 1)%nat)).
  { apply returns_ret. split; [ reflexivity | ]. exists [].
    split; [ reflexivity | split; [ reflexivity | cbn; lia ] ]. }
  destruct (log_peer_id C) as [ | lp | ] eqn:Hlog; [ exact Hoff | | ].
  - unfold returns, try_except, bind.
    destruct (Bot.first_profile E admin w0) as [[admin_info | e] w1] eqn:H1.
    2:{ pose proof (silent_first_profile E admin w0) as Hq. rewrite H1 in Hq.
        destruct Hq as (Hd & _ & Ht). cbn in Hd, Ht.
        exists false, w1. split; [ reflexivity | ].
        split; [ exact Hd | ]. exists [].
        split; [ exact Ht | split; [ reflexivity | cbn; lia ] ]. }
    pose proof (silent_first_profile E admin w0) as Hq1. rewrite H1 in Hq1.
    cbn [snd] in Hq1.
    set (tn := match Bot.truthy_id target with
               | Some t => Bot.name_or E (IdName t) t
               | None => ret NotAvailable
               end).
    assert (Htn : returns tn w1 (fun _ w' => quiet w1 w')).
    { subst tn. destruct (Bot.truthy_id target);
        [ apply name_or_returns | apply returns_ret, quiet_refl ]. }
    destruct Htn as (target_name & w2 & H2 & Hq2). rewrite H2.
    cbn.
    destruct Hq1 as (Hd1 & _ & Ht1). destruct Hq2 as (Hd2 & _ & Ht2).
    subst w0. cbn in Hd1, Ht1.
    eexists _, _. split; [ reflexivity | ]. cbn.
    split; [ congruence | ].
    eexists [_]. split;
      [ unfold adds; cbn; rewrite Ht2, Ht1, <- app_assoc; reflexivity
      | split; [ reflexivity | cbn; lia ] ].
  - unfold returns, try_except, bind.
    destruct (Bot.first_profile E admin w0) as [[admin_info | e] w1] eqn:H1.
    2:{ pose proof (silent_first_profile E admin w0) as Hq. rewrite H1 in Hq.
        destruct Hq as (Hd & _ & Ht). cbn in Hd, Ht.
        exists false, w1. split; [ reflexivity | ].
        split; [ exact Hd | ]. exists [].
        split; [ exact Ht | split; [ reflexivity | cbn; lia ] ]. }
    pose proof (silent_first_profile E admin w0) as Hq1. rewrite H1 in Hq1.
    cbn [snd] in Hq1.
    set (tn := match Bot.truthy_id target with
               | Some t => Bot.name_or E (IdName t) t
               | None => ret NotAvailable
               end).
    assert (Htn : returns tn w1 (fun _ w' => quiet w1 w')).
    { subst tn. destruct (Bot.truthy_id target);
        [ apply name_or_returns | apply returns_ret, quiet_refl ]. }
    destruct Htn as (target_name & w2 & H2 & Hq2). rewrite H2.
    cbn.
    destruct Hq1 as (Hd1 & _ & Ht1). destruct Hq2 as (Hd2 & _ & Ht2).
    subst w0. cbn in Hd1, Ht1.
    eexists _, _. split; [ reflexivity | ]. cbn.
    split; [ congruence | ].
    exists []. split; [ | split; [ reflexivity | cbn; lia ] ].
    unfold adds. cbn. rewrite Ht2, Ht1. reflexivity.
Qed.

(** ** Mutes *)

Lemma int_of_float_above (t : Q) : (t - 1 < inject_Z (int_of_float t))%Q.
Proof.
  destruct t as [n d]. unfold Qlt, int_of_float, Qminus, Qplus, Qopp, inject_Z. cbn.
  pose proof (Z.quot_rem' n (Z.pos d)) as Hdiv.
  assert (Hrem : Z.rem n (Z.pos d) < Z.pos d).
  { destruct (Z_lt_le_dec n 0) as [Hneg | Hpos].
    - pose proof (Z.rem_nonpos n (Z.pos d) ltac:(lia) ltac:(lia)). lia.
    - apply Z.rem_bound_pos; lia. }
  nia.
Qed.

Lemma int_of_float_nonneg (t : Q) : (0 <= t)%Q -> 0 <= int_of_float t.
Proof.
  destruct t as [n d]. unfold Qle, int_of_float. cbn. intros Hn.
  apply Z.quot_pos; lia.
Qed.

Lemma get_mute_add_user (now u' u : Z) (d : DB) :
  Database.get_mute (Database.add_user now u' d) u = Database.get_mute d u.
Proof.
  unfold Database.add_user, Database.get_mute.
  destruct (t_users d !! u') as [r|] eqn:Hr; [ reflexivity | ]. cbn.
  destruct (Z.eq_dec u' u) as [-> | Hne].
  - rewrite lookup_insert_eq, Hr. reflexivity.
  - rewrite lookup_insert_ne by assumption. reflexivity.
Qed.

Lemma get_mute_update_message_count (now u' u : Z) (d : DB) :
  Database.get_mute (Database.update_message_count now u' d) u = Database.get_mute d u.
Proof.
  unfold Database.update_message_count, Database.get_mute.
  destruct (t_users d !! u') as [r|] eqn:Hr; cbn;
    (destruct (Z.eq_dec u' u) as [-> | Hne];
     [ rewrite lookup_insert_eq, Hr; reflexivity
     | rewrite lookup_insert_ne by assumption; reflexivity ]).
Qed.

Lemma get_mute_remove_mute (u : Z) (d : DB) :
  Database.get_mute (snd (Database.remove_mute u d)) u = 0.
Proof.
  unfold Database.remove_mute, Database.get_mute.
  destruct (t_users d !! u) as [r|] eqn:Hr; cbn.
  - rewrite lookup_insert_eq. reflexivity.
  - rewrite Hr. reflexivity.
Qed.

Lemma adds_trans (w w1 w2 : world) (evs evs' : list event) :
  adds w w1 evs -> adds w1 w2 evs' -> adds w w2 (evs ++ evs').
Proof. unfold adds. intros -> ->. rewrite app_assoc. reflexivity. Qed.

(** a message that is not a command, from a sender whose mute has ended or
    was lifted, is neither deleted nor answered with the mute notice *)
Lemma handle_message_not_muted (E : env) (C : config)
      (handle_command : Z -> Z -> string -> Bot.incoming -> M unit)
      (message : Bot.incoming) (w : world) :
  Py.startswith "/" (Py.strip (Bot.in_text message)) = false ->
  (forall n, 0 <= clock E n)%Q ->
  Database.get_mute (st_db w) (Bot.in_from_id message) = 0 ->
  returns (Bot.handle_message E C handle_command message) w
          (fun _ w' =>
             exists evs, adds w w' evs /\
                         forallb (fun ev => is_store_or_audit ev || is_log_send ev) evs
                         = true).
Proof.
  intros Hplain Hclock Hmute.
  unfold Bot.handle_message. rewrite Hplain.
  set (user := Bot.in_from_id message) in *.
  set (peer := Bot.in_peer_id message).
  apply returns_bind.
  eapply returns_weaken; [ apply db_add_user_returns | ].
  intros _ w1 [Hd1 Ht1]. cbv beta.
  apply returns_bind.
  eapply returns_weaken; [ apply db_update_message_count_returns | ].
  intros _ w2 [Hd2 Ht2]. cbv beta.
  assert (Hmute2 : Database.get_mute (st_db w2) user = 0).
  { rewrite Hd2, get_mute_update_message_count, Hd1, get_mute_add_user. exact Hmute. }
  assert (Hrest : forall w3 evs3,
             st_db w3 = st_db w2 -> adds w2 w3 evs3 ->
             forallb (fun ev => is_store_or_audit ev || is_log_send ev) evs3 = true ->
             returns
               (muted <- Bot.is_muted E user ;;
                staff <- (if muted then Bot.check_access_m user "moderator" None
                          else ret false) ;;
                if muted && negb staff then
                  d <- get_db ;;
                  let mute_until := Database.get_mute d user in
                  now <- Bot.int_time E ;;
                  let time_left := mute_until - now in
                  if time_left >? 0 then
                    (match Bot.truthy_id (Bot.in_id message) with
                     | Some message_id => Bot.delete_message E peer message_id >> skip
                     | None => skip
                     end) >>
                    Bot.send_message E peer (MsgMuted user time_left) >> skip
                  else skip
                else skip) w3
               (fun _ w' =>
                  exists evs, adds w w' evs /\
                    forallb (fun ev => is_store_or_audit ev || is_log_send ev) evs
                    = true)).
  { intros w3 evs3 Hd3 Ht3 Hevs.
    unfold returns, bind, Bot.is_muted, get_db, Bot.int_time, Bot.time_time,
      external, ret. cbn.
    rewrite Hd3, Hmute2.
    assert (Hnot : (0 >? int_of_float (clock E (st_calls w3))) = false).
    { pose proof (int_of_float_nonneg _ (Hclock (st_calls w3))).
      rewrite Z.gtb_ltb. apply Z.ltb_ge. assumption. }
    rewrite Hnot. cbn.
    eexists _, _. split; [ reflexivity | ].
    exists ([EvStore (CallAddUser user)] ++ [EvStore (CallUpdateMessageCount user)]
            ++ evs3)%list.
    split.
    - unfold adds in *. cbn. rewrite Ht3, Ht2, Ht1.
      rewrite <- !app_assoc. reflexivity.
    - cbn. exact Hevs. }
  apply returns_bind.
  assert (Hskip : returns skip w2
            (fun _ w3 => st_db w3 = st_db w2 /\ exists evs3, adds w2 w3 evs3 /\
               forallb (fun ev => is_store_or_audit ev || is_log_send ev) evs3 = true)).
  { apply returns_ret. split; [ reflexivity | ]. exists [].
    split; [ unfold adds; rewrite app_nil_r; reflexivity | reflexivity ]. }
  assert (Hlog : returns
            (if peer >? 2000000000 then
               let log_text :=
                 if (100 <? String.length (Py.strip (Bot.in_text message)))%nat
                 then (Py.take 97 (Py.strip (Bot.in_text message)) ++ "...")%string
                 else Py.strip (Bot.in_text message) in
               Bot.send_log_message E C "message" user None (Some peer)
                                    (Some (DetMessage log_text)) >> skip
             else skip) w2
            (fun _ w3 => st_db w3 = st_db w2 /\ exists evs3, adds w2 w3 evs3 /\
               forallb (fun ev => is_store_or_audit ev || is_log_send ev) evs3 = true)).
  { destruct (peer >? 2000000000); [ | exact Hskip ]. cbv zeta.
    apply returns_bind.
    eapply returns_weaken; [ apply send_log_message_returns | ].
    intros _ w3 (Hd3 & evs & Ht3 & Hsend & _). apply returns_ret.
    split; [ exact Hd3 | ]. eexists. split; [ exact Ht3 | ].
    cbn. apply forallb_forall. intros ev Hev.
    rewrite forallb_forall in Hsend. rewrite (Hsend ev Hev). apply orb_true_r. }
  eapply returns_weaken.
  { destruct (log_peer_id C); [ exact Hskip | exact Hlog | exact Hlog ]. }
  intros _ w3 (Hd3 & evs3 & Ht3 & Hevs). cbv beta.
  eapply Hrest; eassumption.
Qed.

(** C6.  A call [set_mute(u, d, reason)] at the clock reading [now] passes
    [int(now) + d] and [u] to the engine.  When the engine binds both and
    [u] has a row in table [users], the call returns [int(now) + d], which
    [get_mute(u)] returns right after it and which is more than
    [now + d - 1].  When the engine binds both and [u] has no row, the call
    returns the same number but stores nothing: [get_mute(u)] is 0 after it.
    When the engine does not bind one of the two, the call raises
    [OverflowError] and the store is as before.  After [remove_mute(u)],
    [get_mute(u)] is 0, and a message of [u] that is not a command is then
    neither deleted nor answered with the mute notice (the clock showing a
    time that is not negative). *)
Theorem mute_round_trip :
  (forall (E : env) (u duration : Z) (reason : text) (w : world) (row : user_row),
      let now := clock E (st_calls w) in
      Database.binds (int_of_float now + duration) = true ->
      Database.binds u = true ->
      t_users (st_db w) !! u = Some row ->
      returns (Bot.db_set_mute E u duration reason) w
        (fun mute_until w' =>
           Database.get_mute (st_db w') u = mute_until /\
           mute_until = int_of_float now + duration /\
           (now + inject_Z duration - 1 < inject_Z (Database.get_mute (st_db w') u))%Q)) /\
  (forall (E : env) (u duration : Z) (reason : text) (w : world),
      let now := clock E (st_calls w) in
      Database.binds (int_of_float now + duration) = true ->
      Database.binds u = true ->
      t_users (st_db w) !! u = None ->
      returns (Bot.db_set_mute E u duration reason) w
        (fun mute_until w' =>
           mute_until = int_of_float now + duration /\
           st_db w' = st_db w /\ Database.get_mute (st_db w') u = 0)) /\
  (forall (E : env) (u duration : Z) (reason : text) (w : world),
      let now := clock E (st_calls w) in
      Database.binds (int_of_float now + duration) && Database.binds u = false ->
      exists w',
        Bot.db_set_mute E u duration reason w = (Raise OverflowError, w') /\
        st_db w' = st_db w /\ st_trace w' = st_trace w) /\
  (forall (d : DB) (u : Z),
      Database.get_mute (snd (Database.remove_mute u d)) u = 0) /\
  (forall (E : env) (C : config)
          (handle_command : Z -> Z -> string -> Bot.incoming -> M unit)
          (message : Bot.incoming) (w : world) (d : DB),
      Py.startswith "/" (Py.strip (Bot.in_text message)) = false ->
      (forall n, 0 <= clock E n)%Q ->
      st_db w = snd (Database.remove_mute (Bot.in_from_id message) d) ->
      returns (Bot.handle_message E C handle_command message) w
              (fun _ w' =>
                 exists evs, adds w w' evs /\
                             forallb (fun ev => negb (is_delete ev)
                                                && negb (is_mute_notice ev)) evs
                             = true)).
Proof.
  assert (Hrun : forall (E : env) (u duration : Z) (reason : text) (w : world),
             Database.binds (int_of_float (clock E (st_calls w)) + duration) = true ->
             Database.binds u = true ->
             Bot.db_set_mute E u duration reason w
             = (Ok (int_of_float (clock E (st_calls w)) + duration),
                mk_world (snd (Database.set_mute (int_of_float (clock E (st_calls w)))
                                                 u duration reason (st_db w)))
                         (st_last_command_time w) (S (st_calls w))
                         (st_trace w ++ [EvStore (CallSetMute u duration reason)]))).
  { intros E u duration reason w Hb Hu.
    unfold Bot.db_set_mute, Bot.int_time, Bot.time_time, Bot.binding.
    unfold bind, external, ret. cbn [st_calls tick]. rewrite Hb, Hu. reflexivity. }
  split; [ | split; [ | split; [ | split ] ] ].
  - intros E u duration reason w row now Hb Hu Hrow.
    eexists _, _. split; [ apply (Hrun E u duration reason w Hb Hu) | ].
    cbn [st_db]. unfold Database.set_mute, Database.get_mute. rewrite Hrow. cbn.
    rewrite lookup_insert_eq. cbn.
    split; [ reflexivity | ]. split; [ reflexivity | ].
    rewrite inject_Z_plus.
    pose proof (int_of_float_above now) as Hlt.
    unfold Qminus in *.
    rewrite <- Qplus_assoc, (Qplus_comm (inject_Z duration)), Qplus_assoc.
    apply Qplus_lt_l. exact Hlt.
  - intros E u duration reason w now Hb Hu Hrow.
    eexists _, _. split; [ apply (Hrun E u duration reason w Hb Hu) | ].
    cbn [st_db]. unfold Database.set_mute, Database.get_mute. rewrite Hrow. cbn.
    rewrite Hrow. repeat split.
  - intros E u duration reason w now Hb. exists (tick w). split; [ | split; reflexivity ].
    unfold Bot.db_set_mute, Bot.int_time, Bot.time_time, Bot.binding.
    unfold bind, external, ret. cbn [st_calls tick]. fold now.
    destruct (Database.binds (int_of_float now + duration)); [ | reflexivity ].
    destruct (Database.binds u); [ discriminate Hb | reflexivity ].
  - exact (fun d u => get_mute_remove_mute u d).
  - intros E C handle_command message w d Hplain Hclock Hdb.
    eapply returns_weaken.
    + apply handle_message_not_muted; [ exact Hplain | exact Hclock | ].
      rewrite Hdb. apply get_mute_remove_mute.
    + cbv beta. intros _ w' (evs & Hadds & Hall).
      exists evs. split; [ exact Hadds | ].
      apply forallb_forall. intros ev Hev.
      rewrite forallb_forall in Hall. specialize (Hall ev Hev).
      destruct ev as [peer m | | | | ]; try reflexivity; try discriminate.
      destruct m; try reflexivity; discriminate.
Qed.

Lemma mute_round_trip_witness :
  returns (Bot.db_set_mute (platform_at (201 # 2)) 7 1800 NotSpecified)
          (mk_world muted_seven ∅ 0 [])
          (fun mute_until w' =>
             Database.get_mute (st_db w') 7 = mute_until /\ mute_until = 1900) /\
  returns (Bot.handle_message platform_up (logging_to 5) no_commands
             (Bot.mk_incoming chat 7 "hello" (Some 42)))
          (mk_world (snd (Database.remove_mute 7 muted_seven)) ∅ 0 [])
          (fun _ w' =>
             exists evs,
               adds (mk_world (snd (Database.remove_mute 7 muted_seven)) ∅ 0 []) w' evs /\
               forallb (fun ev => negb (is_delete ev) && negb (is_mute_notice ev)) evs
               = true).
Proof.
  split.
  - eapply returns_weaken.
    + apply (proj1 mute_round_trip (platform_at (201 # 2)) 7 1800 NotSpecified
               (mk_world muted_seven ∅ 0 []) (Database.set_mute_until plain_row 500));
        reflexivity.
    + cbv beta. intros mute_until w' (Hget & Hret & _). split; [ exact Hget | ].
      rewrite Hret. reflexivity.
  - apply (proj2 (proj2 (proj2 (proj2 mute_round_trip))) platform_up (logging_to 5)
             no_commands (Bot.mk_incoming chat 7 "hello" (Some 42)) _ muted_seven).
    + reflexivity.
    + intros n. cbn. discriminate.
    + reflexivity.
Defined.

(** C6 as stated fails.  User 7 has no row in the fresh store: the call
    [set_mute(7, 60, reason)] at time 100 returns 160 and stores nothing, so
    [get_mute(7)] right after it is 0, which is less than [100 + 60 - 1].
    And for user 7 muted until 500 the call with the duration 2^63 raises
    [OverflowError]; the stored end of the mute is still 500. *)
Lemma mute_of_unregistered_user_is_lost :
  let run := Bot.db_set_mute platform_up 7 60 NotSpecified
               (mk_world Database.init_db ∅ 0 []) in
  let run' := Bot.db_set_mute platform_up 7 9223372036854775808 NotSpecified
                (mk_world muted_seven ∅ 0 []) in
  (fst run = Ok 160 /\
   Database.get_mute (st_db (snd run)) 7 = 0 /\
   (inject_Z (Database.get_mute (st_db (snd run)) 7) < 100 + 60 - 1)%Q) /\
  (fst run' = Raise OverflowError /\
   Database.get_mute (st_db (snd run')) 7 = 500).
Proof. vm_compute. repeat split; reflexivity. Qed.

(** while the mute lasts, the message of the muted user is deleted and
    answered with the notice of the remaining time *)
Example muted_message_is_deleted :
  st_trace (snd (Bot.handle_message platform_up logging_off no_commands
                   (Bot.mk_incoming chat 7 "hello" (Some 42))
                   (mk_world muted_seven ∅ 0 [])))
  = [EvStore (CallAddUser 7); EvStore (CallUpdateMessageCount 7);
     EvDelete chat 42 ByCmids; EvSend chat (MsgMuted 7 400)].
Proof. vm_compute. reflexivity. Qed.

(** ** The steps of the handlers *)

Lemma returns_bind_run {A B} (m : M A) (k : A -> M B) (w w1 : world) (a : A)
      (Q : B -> world -> Prop) :
  m w = (Ok a, w1) -> returns (k a) w1 Q -> returns (bind m k) w Q.
Proof.
  intros Hm (b & w2 & Hk & HQ). exists b, w2. unfold bind. rewrite Hm. auto.
Qed.

Lemma adds_cons (w w1 w' : world) (ev : event) (evs : list event) :
  adds w w1 [ev] -> adds w1 w' evs -> adds w w' (ev :: evs).
Proof. intros H1 H2. exact (adds_trans w w1 w' [ev] evs H1 H2). Qed.

Ltac step L :=
  apply returns_bind; eapply returns_weaken; [ apply L | ]; cbv beta.

(** a text sent to the conversation as the last action of a handler *)
Lemma reply_returns (E : env) (peer : Z) (m : message) (w : world) :
  returns (Bot.send_message E peer m >> skip) w
          (fun _ w' => st_db w' = st_db w /\ adds w w' [EvSend peer m]).
Proof.
  step send_message_returns. intros _ w1 [Hd Ht]. apply returns_ret. auto.
Qed.

(** the second attempt of the handlers that resolve the first word and then
    the whole argument text *)
Lemma second_attempt_returns (E : env) (found : option Z) (args : string) (w : world) :
  returns (match Bot.truthy_id found with
           | Some id => ret (Some id)
           | None => Bot.extract_user_id_from_mention E args
           end) w (fun _ w' => quiet w w').
Proof.
  destruct (Bot.truthy_id found).
  - apply returns_ret, quiet_refl.
  - apply extract_returns.
Qed.

Lemma truthy_id_nonzero (n : Z) : n <> 0 -> Bot.truthy_id (Some n) = Some n.
Proof.
  intros Hn. unfold Bot.truthy_id.
  destruct (n =? 0) eqn:Hz; [ apply Z.eqb_eq in Hz; contradiction | reflexivity ].
Qed.

Lemma staff_protected_run (target actor : Z) (w : world) :
  Commands.staff_protected target actor w
  = (Ok (protected_from (st_db w) target actor), w).
Proof.
  unfold Commands.staff_protected, protected_from, Bot.check_access_m, get_db, ret, bind.
  destruct (Bot.check_access (st_db w) target "moderator" None); reflexivity.
Qed.

(** *** Runs that may raise *)

Lemma ends_bind {A B} (m : M A) (k : A -> M B) (w : world)
      (Q : outcome B -> world -> Prop) :
  returns m w (fun a w1 => ends (k a) w1 Q) -> ends (bind m k) w Q.
Proof.
  intros (a & w1 & Hm & r & w2 & Hk & HQ).
  exists r, w2. unfold bind. rewrite Hm. split; assumption.
Qed.

Lemma ends_bind_run {A B} (m : M A) (k : A -> M B) (w w1 : world) (a : A)
      (Q : outcome B -> world -> Prop) :
  m w = (Ok a, w1) -> ends (k a) w1 Q -> ends (bind m k) w Q.
Proof.
  intros Hm (r & w2 & Hk & HQ). exists r, w2. unfold bind. rewrite Hm. auto.
Qed.

Lemma ends_of_returns {A} (m : M A) (w : world) (P : A -> world -> Prop)
      (Q : outcome A -> world -> Prop) :
  returns m w P -> (forall a w', P a w' -> Q (Ok a) w') -> ends m w Q.
Proof. intros (a & w' & Hm & HP) HPQ. exists (Ok a), w'. auto. Qed.

Lemma ends_weaken {A} (m : M A) (w : world) (P Q : outcome A -> world -> Prop) :
  ends m w P -> (forall r w', P r w' -> Q r w') -> ends m w Q.
Proof. intros (r & w' & Hm & HP) HPQ. exists r, w'. auto. Qed.

Ltac step_ends L :=
  apply ends_bind; eapply returns_weaken; [ apply L | ]; cbv beta.

(** *** Numbers that the engine binds *)

Lemma binding_bound {A} (n : Z) (call : M A) :
  Database.binds n = true -> Bot.binding n call = call.
Proof. intros H. unfold Bot.binding. rewrite H. reflexivity. Qed.

Lemma binding_unbound {A} (n : Z) (call : M A) (w : world) :
  Database.binds n = false -> Bot.binding n call w = (Raise OverflowError, w).
Proof. intros H. unfold Bot.binding. rewrite H. reflexivity. Qed.

(** a bound number is a signed integer of 64 bits *)
Lemma binds_range (n : Z) :
  Database.binds n = true <-> - 9223372036854775808 <= n < 9223372036854775808.
Proof.
  unfold Database.binds. rewrite andb_true_iff, Z.leb_le, Z.ltb_lt.
  change (2 ^ 63) with 9223372036854775808. reflexivity.
Qed.

(** *** The resolution of the target *)

Lemma silent_resolve_target (E : env) (args : string) :
  silent (Commands.resolve_target E args).
Proof. unfold Commands.resolve_target. silent_steps. Qed.

#[local] Hint Resolve silent_resolve_target : silent.

(** the resolution of the target returns, changes neither the store nor the
    trace, and a target that it returns is not 0 *)
Lemma resolve_target_returns (E : env) (args : string) (w : world) :
  returns (Commands.resolve_target E args) w
          (fun target w' =>
             quiet w w' /\ forall t, target = Some t -> t <> 0).
Proof.
  unfold Commands.resolve_target. cbv zeta.
  step extract_returns. intros found1 w1 Hq1.
  step second_attempt_returns. intros found w2 Hq2.
  apply returns_ret. split; [ eapply quiet_trans; eassumption | ].
  intros t Ht. unfold Bot.truthy_id in Ht.
  destruct found as [n|]; [ | discriminate ].
  destruct (n =? 0) eqn:Hn; [ discriminate | ].
  inversion Ht; subst. apply Z.eqb_neq. exact Hn.
Qed.

Lemma truthy_id_not_zero (found : option Z) (t : Z) :
  Bot.truthy_id found = Some t -> t <> 0.
Proof.
  unfold Bot.truthy_id. destruct found as [n|]; [ | discriminate ].
  destruct (n =? 0) eqn:Hn; [ discriminate | ].
  intros Ht. inversion Ht; subst. apply Z.eqb_neq. exact Hn.
Qed.

Lemma db_remove_warn_returns (user : Z) (w : world) :
  returns (Bot.db_remove_warn user) w
          (fun n w' =>
             n = fst (Database.remove_warn user (st_db w)) /\
             st_db w' = snd (Database.remove_warn user (st_db w)) /\
             adds w w' [EvStore (CallRemoveWarn user)]).
Proof.
  unfold Bot.db_remove_warn, returns, bind, emit, get_db, put_db, ret. cbn.
  destruct (Database.remove_warn user (st_db w)) as [n d'].
  eexists _, _. split; [ reflexivity | ]. repeat split.
Qed.



Lemma db_remove_mute_returns (user : Z) (w : world) :
  returns (Bot.db_remove_mute user) w
          (fun ok w' =>
             ok = fst (Database.remove_mute user (st_db w)) /\
             st_db w' = snd (Database.remove_mute user (st_db w)) /\
             adds w w' [EvStore (CallRemoveMute user)]).
Proof.
  unfold Bot.db_remove_mute, returns, bind, emit, get_db, put_db, ret. cbn.
  destruct (Database.remove_mute user (st_db w)) as [ok d'].
  eexists _, _. split; [ reflexivity | ]. repeat split.
Qed.

Lemma db_unban_user_returns (user : Z) (w : world) :
  returns (Bot.db_unban_user user) w
          (fun ok w' =>
             ok = fst (Database.unban_user user (st_db w)) /\
             st_db w' = snd (Database.unban_user user (st_db w)) /\
             adds w w' [EvStore (CallUnbanUser user)]).
Proof.
  unfold Bot.db_unban_user, returns, bind, emit, get_db, put_db, ret. cbn.
  destruct (Database.unban_user user (st_db w)) as [ok d'].
  eexists _, _. split; [ reflexivity | ]. repeat split.
Qed.

Lemma db_set_nickname_returns (user : Z) (nickname : string) (w : world) :
  returns (Bot.db_set_nickname user nickname) w
          (fun ok w' =>
             ok = fst (Database.set_nickname user nickname (st_db w)) /\
             st_db w' = snd (Database.set_nickname user nickname (st_db w)) /\
             adds w w' [EvStore (CallSetNickname user nickname)]).
Proof.
  unfold Bot.db_set_nickname, returns, bind, emit, get_db, put_db, ret. cbn.
  destruct (Database.set_nickname user nickname (st_db w)) as [ok d'].
  eexists _, _. split; [ reflexivity | ]. repeat split.
Qed.

(** a reply that ends a handler, with the events so far *)
Lemma reply_after (E : env) (peer : Z) (m : message) (w0 w : world)
      (evs : list event) (d : DB) :
  st_db w = d -> adds w0 w evs ->
  returns (Bot.send_message E peer m >> skip) w
          (fun _ w' => st_db w' = d /\ adds w0 w' (evs ++ [EvSend peer m])).
Proof.
  intros Hd Ht. eapply returns_weaken; [ apply reply_returns | ]. cbv beta.
  intros _ w' [Hd' Ht']. split; [ congruence | ].
  eapply adds_trans; eassumption.
Qed.

Lemma adds_nil_quiet (w w' : world) : quiet w w' -> adds w w' [].
Proof. intros (_ & _ & Ht). unfold adds. rewrite Ht, app_nil_r. reflexivity. Qed.

(** the run of [resolve_target], as an equation *)
Lemma resolve_target_run (E : env) (args : string) (w : world) :
  exists target w1,
    Commands.resolve_target E args w = (Ok target, w1) /\
    quiet w w1 /\ forall t, target = Some t -> t <> 0.
Proof.
  destruct (resolve_target_returns E args w) as (target & w1 & Hrun & Hq & Hnz).
  exists target, w1. auto.
Qed.

(** a displayed name costs one request, whatever the answer is *)
Lemma name_or_calls (E : env) (fallback : name) (id : Z) (w : world) :
  returns (Bot.name_or E fallback id) w
          (fun _ w' => quiet w w' /\ st_calls w' = S (st_calls w)).
Proof.
  unfold Bot.name_or, Bot.first_profile, Bot.vk_users_get.
  unfold returns, try_except, bind, request, ret, raise.
  destruct (users_get E (st_calls w) (ById id)) as [[ | p l ] | ];
    eexists _, _; (split; [ reflexivity | ]); split; try reflexivity;
      repeat split.
Qed.



(** ** The removal of an administrator *)

(** the tail of [cmd_removeadmin] once the target is known and bound *)
Lemma removeadmin_decides (E : env) (C : config) (peer actor target : Z) (w : world) :
  returns
    (user_role <- Bot.db_get_role target (Some peer) ;;
     if negb (String.eqb user_role "admin") then
       Bot.send_message E peer (MsgNotAdmin target) >> skip
     else
       user_name <- Bot.name_or E PlainUser target ;;
       done <- Bot.db_set_role target "user" (Some peer) ;;
       if done then
         Bot.send_message E peer (MsgAdminRemoved target user_name) >>
         Bot.send_log_message E C "remove_role" actor (Some target)
           (Some peer) (Some DetAdminRemoved) >>
         skip
       else
         Bot.send_message E peer (MsgRemoveAdminFailed target) >> skip) w
    (fun _ w' =>
       if String.eqb (Database.get_role (st_db w) target (Some peer)) "admin"
       then
         st_db w' = snd (Database.set_role target "user" (Some peer) (st_db w)) /\
         exists evs,
           adds w w' (EvStore (CallSetRole target "user" (Some peer)) :: evs)
       else
         st_db w' = st_db w /\ adds w w' [EvSend peer (MsgNotAdmin target)]).
Proof.
  eapply returns_bind_run; [ reflexivity | ].
  destruct (String.eqb (Database.get_role (st_db w) target (Some peer)) "admin")
    eqn:Hrole; cbn [negb].
  - step name_or_returns. intros user_name w1 Hq.
    step db_set_role_returns. intros done w2 (Hdone & Hd2 & Ht2).
    destruct Hq as (Hd1 & Hl1 & Ht1). rewrite Hd1 in Hd2.
    assert (Ha2 : adds w w2 [EvStore (CallSetRole target "user" (Some peer))]).
    { unfold adds in *. rewrite Ht2, Ht1. reflexivity. }
    destruct done.
    + step send_message_returns. intros _ w3 [Hd3 Ht3].
      step send_log_message_returns. intros _ w4 (Hd4 & evs & Ht4 & _ & _).
      apply returns_ret. split; [ congruence | ].
      eexists. eapply adds_cons; [ exact Ha2 | ].
      eapply adds_trans; [ exact Ht3 | exact Ht4 ].
    + eapply returns_weaken; [ apply reply_returns | ]. cbv beta.
      intros _ w3 [Hd3 Ht3]. split; [ congruence | ].
      eexists. eapply adds_cons; [ exact Ha2 | exact Ht3 ].
  - apply reply_returns.
Qed.

(** [cmd_removeadmin] resolves its target as [resolve_target] does *)
Lemma removeadmin_resolves (E : env) (C : config) (peer actor : Z) (args : string)
      (w : world) :
  Py.truthy args = true ->
  exists target w1,
    Commands.resolve_target E args w = (Ok target, w1) /\
    quiet w w1 /\
    Commands.cmd_removeadmin E C peer actor args w
    = match target with
      | None => (Bot.send_message E peer MsgUnresolved >> skip) w1
      | Some target_id =>
          (user_role <-
             Bot.binding target_id (Bot.db_get_role target_id (Some peer)) ;;
           if negb (String.eqb user_role "admin") then
             Bot.send_message E peer (MsgNotAdmin target_id) >> skip
           else
             user_name <- Bot.name_or E PlainUser target_id ;;
             done <- Bot.db_set_role target_id "user" (Some peer) ;;
             if done then
               Bot.send_message E peer (MsgAdminRemoved target_id user_name) >>
               Bot.send_log_message E C "remove_role" actor (Some target_id)
                 (Some peer) (Some DetAdminRemoved) >>
               skip
             else
               Bot.send_message E peer (MsgRemoveAdminFailed target_id) >> skip) w1
      end.
Proof.
  intros Hargs.
  destruct (resolve_target_run E args w) as (target & w1 & Hrun & Hq & _).
  exists target, w1. split; [ exact Hrun | ]. split; [ exact Hq | ].
  unfold Commands.cmd_removeadmin. rewrite Hargs. cbn [negb]. cbv zeta.
  unfold Commands.resolve_target in Hrun. cbv zeta in Hrun.
  unfold bind at 1 2 in Hrun. unfold bind at 1 2.
  destruct (Bot.extract_user_id_from_mention E (fst (Commands.parts_of args)) w)
    as [[found1 | e1] w0]; [ | discriminate Hrun ].
  destruct (match Bot.truthy_id found1 with
            | Some id => ret (Some id)
            | None => Bot.extract_user_id_from_mention E args
            end w0) as [[found | e2] w2]; [ | discriminate Hrun ].
  unfold ret in Hrun. inversion Hrun; subst.
  destruct (Bot.truthy_id found); reflexivity.
Qed.

(** C9. For every argument text, [cmd_removeadmin] ends in exactly one of
    these ways.  Without arguments, or with arguments that resolve to no
    target, it sends one text and the store is as before.  With a resolved
    target that the engine does not bind (a typed number outside the 64-bit
    range), [get_role] raises [OverflowError]: nothing is sent and the store
    is as before.  With a resolved target whose role read for the
    conversation is not the text "admin" ("creator" included), it sends the
    not-an-admin text and the store is as before.  With a resolved target
    whose role read for the conversation is the text "admin", the store
    becomes the result of [set_role(target, "user", peer_id)].  So the store
    changes only in the last case. *)
Theorem removeadmin_exact_admin (E : env) (C : config) (peer actor : Z)
        (args : string) (w : world) :
  ends (Commands.cmd_removeadmin E C peer actor args) w
    (fun r w' =>
       if Py.truthy args then
         match fst (Commands.resolve_target E args w) with
         | Ok (Some target) =>
             if Database.binds target then
               r = Ok tt /\
               if String.eqb (Database.get_role (st_db w) target (Some peer)) "admin"
               then
                 st_db w' = snd (Database.set_role target "user" (Some peer) (st_db w)) /\
                 exists evs,
                   adds w w' (EvStore (CallSetRole target "user" (Some peer)) :: evs)
               else
                 st_db w' = st_db w /\ adds w w' [EvSend peer (MsgNotAdmin target)]
             else
               r = Raise OverflowError /\ st_db w' = st_db w /\ adds w w' []
         | _ =>
             r = Ok tt /\ st_db w' = st_db w /\ adds w w' [EvSend peer MsgUnresolved]
         end
       else
         r = Ok tt /\ st_db w' = st_db w /\ adds w w' [EvSend peer MsgNeedUser]).
Proof.
  destruct (Py.truthy args) eqn:Hargs.
  2:{ unfold Commands.cmd_removeadmin. rewrite Hargs. cbn [negb].
      eapply ends_of_returns; [ apply reply_returns | ]. cbv beta.
      intros [] w' [Hd Ht]. auto. }
  destruct (removeadmin_resolves E C peer actor args w Hargs)
    as (target & w1 & Hrun & (Hd1 & Hl1 & Ht1) & Hcmd).
  unfold ends. rewrite Hcmd, Hrun. cbn [fst]. clear Hcmd.
  destruct target as [target|].
  2:{ destruct (reply_returns E peer MsgUnresolved w1) as ([] & w' & Hr & Hd & Ht).
      exists (Ok tt), w'. split; [ exact Hr | ].
      split; [ reflexivity | ]. split; [ congruence | ].
      unfold adds in *. rewrite Ht, Ht1. reflexivity. }
  destruct (Database.binds target) eqn:Hb.
  - rewrite (binding_bound _ _ Hb).
    destruct (removeadmin_decides E C peer actor target w1) as ([] & w' & Hr & HQ).
    exists (Ok tt), w'. split; [ exact Hr | ]. split; [ reflexivity | ].
    rewrite Hd1 in HQ.
    destruct (String.eqb (Database.get_role (st_db w) target (Some peer)) "admin").
    + destruct HQ as (Hd & evs & Ht). split; [ exact Hd | ].
      exists evs. unfold adds in *. rewrite Ht, Ht1. reflexivity.
    + destruct HQ as (Hd & Ht). split; [ exact Hd | ].
      unfold adds in *. rewrite Ht, Ht1. reflexivity.
  - exists (Raise OverflowError), w1. split.
    + unfold bind. rewrite (binding_unbound _ _ _ Hb). reflexivity.
    + split; [ reflexivity | ]. split; [ exact Hd1 | ].
      unfold adds. rewrite Ht1, app_nil_r. reflexivity.
Qed.

Lemma removeadmin_exact_admin_witness :
  Database.get_role chat_with_creator 20 (Some chat) = "creator" /\
  ends (Commands.cmd_removeadmin platform_up logging_off chat 10 "20")
       (mk_world chat_with_creator ∅ 0 [])
       (fun r w' =>
          r = Ok tt /\ st_db w' = chat_with_creator /\
          adds (mk_world chat_with_creator ∅ 0 []) w' [EvSend chat (MsgNotAdmin 20)]).
Proof.
  split; [ reflexivity | ].
  eapply ends_weaken.
  - apply (removeadmin_exact_admin platform_up logging_off chat 10 "20"
             (mk_world chat_with_creator ∅ 0 [])).
  - cbv beta. intros r w' H. vm_compute in H. exact H.
Defined.

(** a typed number that the engine does not bind: the handler raises before
    it reads a role, and the dispatcher answers with the error text *)
Example removeadmin_of_unbound_number :
  fst (Commands.cmd_removeadmin platform_up logging_off chat 10
         "99999999999999999999" (mk_world chat_with_creator ∅ 0 []))
  = Raise OverflowError /\
  Commands.execute_command platform_up logging_off (fun _ _ _ _ => skip)
    "removeadmin" chat 10 "99999999999999999999" (mk_world chat_with_creator ∅ 0 [])
  = (Ok tt, mk_world chat_with_creator ∅ 2 [EvSend chat MsgCommandError]).
Proof. vm_compute. split; reflexivity. Qed.

(** ** The staff protection of the ban *)

(** C4.  The staff protection of [cmd_ban] calls [check_access] without the
    conversation, so it reads the global role of the target, while the
    dispatcher reads the role for the conversation and every role that the
    handlers grant is stored for a conversation.  Users 10 and 20 both hold
    the role "moderator" in the conversation [chat] (their global role is
    "user"), and 10 owns the conversation.  The command
    "/ban 20 spam" of user 10 passes the dispatcher and [cmd_ban]: the ban
    record of user 20 is written, the audit entry for "ban" is sent to the
    logging conversation 5, and the platform is asked to remove user 20.  No
    staff-protection text is sent.  In the same way user 30, who holds
    "senior_moderator" in [chat] and does not own it, bans user 40, who
    holds "admin" there. *)
Lemma ban_of_chat_moderator_goes_through :
  let w := mk_world two_chat_moderators ∅ 0 [] in
  let run := Commands.execute_command platform_up (logging_to 5) (fun _ _ _ _ => skip)
               "ban" chat 10 "20 spam" w in
  let entry :=
    mk_audit "ban" 10 (Some 20) (Some chat) (Some (DetBan (UserText "spam"))) in
  let w' := mk_world chat_staff ∅ 0 [] in
  let run' := Commands.execute_command platform_up (logging_to 5) (fun _ _ _ _ => skip)
                "ban" chat 30 "40 spam" w' in
  (effective_role two_chat_moderators 10 chat = "moderator" /\
   effective_role two_chat_moderators 20 chat = "moderator" /\
   Bot.rank (effective_role two_chat_moderators 10 chat) < Bot.rank "admin" /\
   fst run = Ok tt /\
   Database.get_ban two_chat_moderators 20 = None /\
   Database.get_ban (st_db (snd run)) 20 = Some (mk_ban (UserText "spam") 100) /\
   st_trace (snd run) =
     [EvStore (CallAddUser 20);
      EvStore (CallBanUser 20 (UserText "spam"));
      EvSend chat (MsgBanned 20 (FullName "Ann" "Lee") 10 (FullName "Ann" "Lee")
                             (UserText "spam") 100);
      EvAudit entry;
      EvSend 5 (MsgLog entry (FullName "Ann" "Lee") (FullName "Ann" "Lee") 100);
      EvRemoveChatUser 1 20] /\
   st_trace (snd (Commands.cmd_ban platform_up (logging_to 5) chat 10 "20 spam" w))
   = st_trace (snd run)) /\
  (effective_role chat_staff 30 chat = "senior_moderator" /\
   effective_role chat_staff 40 chat = "admin" /\
   Bot.rank (effective_role chat_staff 30 chat) < Bot.rank "admin" /\
   Bot.owner_in (get_conversation_members platform_up 0 chat) = Some 10 /\
   fst run' = Ok tt /\
   Database.get_ban chat_staff 40 = None /\
   Database.get_ban (st_db (snd run')) 40 = Some (mk_ban (UserText "spam") 100)).
Proof. vm_compute. repeat split; reflexivity. Qed.

(** the same command from user 20, who holds "moderator" in [chat] and does
    not own it, ends in the dispatcher: "ban" requires "senior_moderator" *)
Example ban_by_chat_moderator_stops_at_dispatcher :
  Commands.execute_command platform_up (logging_to 5) (fun _ _ _ _ => skip)
    "ban" chat 20 "10 spam" (mk_world two_chat_moderators ∅ 0 [])
  = (Ok tt, mk_world two_chat_moderators ∅ 2 [EvSend chat (MsgNoRights 20)]).
Proof. vm_compute. reflexivity. Qed.

(** the protection does stop the command when the role of the target is
    stored in [users.role]: users 10 and 20 hold the global role
    "moderator", user 10 owns the conversation, and "/ban 20 spam" of user
    10 is answered with the staff text; no ban record is written *)
Example ban_of_global_moderator_is_rejected :
  let run := Commands.execute_command platform_up (logging_to 5) (fun _ _ _ _ => skip)
               "ban" chat 10 "20 spam" (mk_world two_global_moderators ∅ 0 []) in
  fst run = Ok tt /\
  st_db (snd run) = two_global_moderators /\
  Database.get_ban (st_db (snd run)) 20 = None /\
  st_trace (snd run) = [EvSend chat (MsgBanStaff 20 (FullName "Ann" "Lee"))].
Proof. vm_compute. repeat split; reflexivity. Qed.

(** ** The third warning *)

(** what an audit attempt sends: with a logging conversation and a readable
    profile of the acting user, the log text and nothing else; without one
    of the two, nothing *)
Lemma send_log_message_sends (E : env) (C : config) (action : string)
      (admin : Z) (target peer : option Z) (det : option details) (w : world) :
  returns (Bot.send_log_message E C action admin target peer det) w
    (fun _ w' =>
       let entry := mk_audit action admin target peer det in
       st_db w' = st_db w /\
       exists evs,
         adds w w' (EvAudit entry :: evs) /\
         match log_peer_id C with
         | LogPeer lp =>
             match users_get E (st_calls w) (ById admin) with
             | Some (p :: _) =>
                 exists target_name timestamp,
                   evs = [EvSend lp (MsgLog entry (Bot.full_name p) target_name
                                            timestamp)]
             | _ => evs = []
             end
         | _ => evs = []
         end).
Proof.
  cbv zeta. unfold Bot.send_log_message.
  cbv beta delta [returns bind emit try_except Bot.first_profile Bot.vk_users_get
                    request Bot.name_or Bot.time_time external Bot.send_message ret
                    raise].
  cbn.
  destruct (log_peer_id C) as [ | lp | ].
  - eexists _, _. split; [ reflexivity | ]. cbn.
    split; [ reflexivity | ]. exists []. split; reflexivity.
  - cbn. destruct (users_get E (st_calls w) (ById admin)) as [[ | p l ] | ]; cbn.
    + eexists _, _. split; [ reflexivity | ]. cbn.
      split; [ reflexivity | ]. exists []. split; reflexivity.
    + destruct (Bot.truthy_id target) as [t|]; cbn.
      * destruct (users_get E (S (st_calls w)) (ById t)) as [[ | q l' ] | ]; cbn;
          (eexists _, _; split; [ reflexivity | ]; cbn;
           split; [ reflexivity | ];
           eexists [_];
           split; [ unfold adds; cbn; rewrite <- app_assoc; reflexivity | ];
           eexists _, _; reflexivity).
      * eexists _, _. split; [ reflexivity | ]. cbn.
        split; [ reflexivity | ].
        eexists [_].
        split; [ unfold adds; cbn; rewrite <- app_assoc; reflexivity | ].
        eexists _, _. reflexivity.
    + eexists _, _. split; [ reflexivity | ]. cbn.
      split; [ reflexivity | ]. exists []. split; reflexivity.
  - cbn. destruct (users_get E (st_calls w) (ById admin)) as [[ | p l ] | ]; cbn.
    + eexists _, _. split; [ reflexivity | ]. cbn.
      split; [ reflexivity | ]. exists []. split; reflexivity.
    + destruct (Bot.truthy_id target) as [t|]; cbn.
      * destruct (users_get E (S (st_calls w)) (ById t)) as [[ | q l' ] | ]; cbn;
          (eexists _, _; split; [ reflexivity | ]; cbn;
           split; [ reflexivity | ]; exists []; split; reflexivity).
      * eexists _, _. split; [ reflexivity | ]. cbn.
        split; [ reflexivity | ]. exists []. split; reflexivity.
    + eexists _, _. split; [ reflexivity | ]. cbn.
      split; [ reflexivity | ]. exists []. split; reflexivity.
Qed.

(** C3.  [cmd_warn] is given arguments whose first word resolves to a target
    that the engine binds, that is not protected from the actor and whose
    counter of warnings is 2.  Then the handler returns; the counter is 3; a
    ban record of the target with the automatic reason is stored; and the
    handler has done, in this order: the write of the warning, the text
    about the warning, the audit attempt for "warn", the write of the ban
    record, the text about the automatic ban, the request to remove the
    target from the conversation, and the audit attempt for "ban".  The two
    audit entries differ.  What an audit attempt sends depends on the
    configuration: with a logging conversation, and a platform that returns
    the profile of the acting user, each attempt sends its entry to the
    logging conversation, and nothing else; without a logging conversation
    (or with an id that [int] rejects) neither attempt sends anything. *)
Theorem third_warning_bans (E : env) (C : config) (peer actor : Z) (args : string)
        (w w1 : world) (target : Z) :
  Commands.lacks_second_part args = false ->
  Bot.extract_user_id_from_mention E (fst (Commands.parts_of args)) w
  = (Ok (Some target), w1) ->
  target <> 0 ->
  Database.binds target = true ->
  protected_from (st_db w) target actor = false ->
  Database.get_warns (st_db w) target = 2 ->
  returns (Commands.cmd_warn E C peer actor args) w
    (fun _ w' =>
       let reason := Commands.reason_of (Commands.parts_of args) in
       let warn_entry :=
         mk_audit "warn" actor (Some target) (Some peer) (Some (DetWarn reason 3)) in
       let ban_entry :=
         mk_audit "ban" actor (Some target) (Some peer) (Some (DetAutoBan 3)) in
       Database.get_warns (st_db w') target = 3 /\
       (exists ban_time,
           Database.get_ban (st_db w') target
           = Some (mk_ban (AutoBanReason 3) ban_time)) /\
       warn_entry <> ban_entry /\
       exists user_name admin_name log1 log2,
         adds w w'
              ([EvStore (CallAddUser target);
                EvStore (CallAddWarn target reason);
                EvSend peer (MsgWarned target user_name actor admin_name reason 3);
                EvAudit warn_entry]
               ++ log1 ++
               [EvStore (CallBanUser target (AutoBanReason 3));
                EvSend peer (MsgAutoBanned target user_name 3);
                EvRemoveChatUser (peer - 2000000000) target;
                EvAudit ban_entry]
               ++ log2) /\
         match log_peer_id C with
         | LogPeer lp =>
             (forall n, exists p l, users_get E n (ById actor) = Some (p :: l)) ->
             exists name1 target1 time1 name2 target2 time2,
               log1 = [EvSend lp (MsgLog warn_entry name1 target1 time1)] /\
               log2 = [EvSend lp (MsgLog ban_entry name2 target2 time2)]
         | _ => log1 = [] /\ log2 = []
         end).
Proof.
  intros Hargs Hrun Hne Hbound Hprot Hcounter.
  assert (Hreg : exists row, t_users (st_db w) !! target = Some row /\ u_warns row = 2).
  { unfold Database.get_warns in Hcounter.
    destruct (t_users (st_db w) !! target) as [row|]; [ eauto | discriminate ]. }
  destruct Hreg as (row & Hrow & Hwarns).
  pose proof (silent_extract E (fst (Commands.parts_of args)) w) as Hq.
  rewrite Hrun in Hq. cbn [snd] in Hq. destruct Hq as (Hd1 & _ & Ht1).
  unfold Commands.cmd_warn. rewrite Hargs. cbv zeta.
  eapply returns_bind_run; [ exact Hrun | ].
  rewrite (truthy_id_nonzero target Hne).
  set (reason := Commands.reason_of (Commands.parts_of args)).
  rewrite (binding_bound _ _ Hbound).
  eapply returns_bind_run; [ apply staff_protected_run | ].
  rewrite Hd1, Hprot.
  step db_add_user_returns. intros _ w2 [Hd2 Ht2].
  rewrite Hd1, (add_user_registered _ target (st_db w) row Hrow) in Hd2.
  step name_or_returns. intros user_name w3 (Hd3 & _ & Ht3).
  step name_or_returns. intros admin_name w4 (Hd4 & _ & Ht4).
  assert (Hrow4 : t_users (st_db w4) !! target = Some row) by congruence.
  step (db_add_warn_returns E target reason w4 row Hrow4).
  intros warn_count w5 (Hcount & Hd5 & Ht5).
  rewrite Hwarns in Hcount. cbn in Hcount. subst warn_count.
  step send_message_returns. intros _ w6 [Hd6 Ht6].
  step send_log_message_sends. intros _ w7 (Hd7 & log1 & Ht7 & Hlog1).
  cbn [Z.geb Z.compare Pos.compare Pos.compare_cont].
  step db_ban_user_returns. intros banned w8 (_ & Hd8 & Ht8).
  step send_message_returns. intros _ w9 [Hd9 Ht9].
  step kick_user_returns. intros _ w10 [Hd10 Ht10].
  step send_log_message_sends. intros _ w11 (Hd11 & log2 & Ht11 & Hlog2).
  apply returns_ret.
  assert (Hdb : st_db w11
                = snd (Database.ban_user (int_of_float (clock E (st_calls w7))) target
                         (AutoBanReason 3)
                         (snd (Database.add_warn (int_of_float (clock E (st_calls w4)))
                                 target reason (st_db w))))).
  { rewrite Hd11, Hd10, Hd9, Hd8, Hd7, Hd6, Hd5, Hd4, Hd3, Hd2. reflexivity. }
  split; [ | split; [ | split ] ].
  - rewrite Hdb, (add_warn_registered _ target reason (st_db w) row Hrow).
    unfold Database.get_warns. cbn. rewrite lookup_insert_eq. cbn. lia.
  - eexists. rewrite Hdb. unfold Database.get_ban. cbn. apply lookup_insert_eq.
  - discriminate.
  - exists user_name, admin_name, log1, log2.
    split.
    + unfold adds in *.
      rewrite Ht11, Ht10, Ht9, Ht8, Ht7, Ht6, Ht5, Ht4, Ht3, Ht2, Ht1.
      cbn. rewrite <- !app_assoc. cbn. reflexivity.
    + destruct (log_peer_id C) as [ | lp | ]; [ split; assumption | | split; assumption ].
      intros Hprofile.
      destruct (Hprofile (st_calls w6)) as (p1 & l1 & Hp1).
      destruct (Hprofile (st_calls w10)) as (p2 & l2 & Hp2).
      rewrite Hp1 in Hlog1. rewrite Hp2 in Hlog2.
      destruct Hlog1 as (t1 & s1 & ->). destruct Hlog2 as (t2 & s2 & ->).
      eexists _, _, _, _, _, _. split; reflexivity.
Qed.

Lemma third_warning_bans_witness :
  returns (Commands.cmd_warn platform_up (logging_to 5) chat 10 "20 flood")
          (mk_world twice_warned ∅ 0 [])
          (fun _ w' =>
             let warn_entry :=
               mk_audit "warn" 10 (Some 20) (Some chat)
                        (Some (DetWarn (UserText "flood") 3)) in
             let ban_entry :=
               mk_audit "ban" 10 (Some 20) (Some chat) (Some (DetAutoBan 3)) in
             Database.get_warns (st_db w') 20 = 3 /\
             (exists ban_time,
                 Database.get_ban (st_db w') 20
                 = Some (mk_ban (AutoBanReason 3) ban_time)) /\
             exists name1 target1 time1 name2 target2 time2,
               List.filter is_log_send (st_trace w')
               = [EvSend 5 (MsgLog warn_entry name1 target1 time1);
                  EvSend 5 (MsgLog ban_entry name2 target2 time2)]).
Proof.
  pose proof (third_warning_bans platform_up (logging_to 5) chat 10 "20 flood"
                (mk_world twice_warned ∅ 0 []) (mk_world twice_warned ∅ 0 [])
                20 eq_refl eq_refl ltac:(lia) eq_refl eq_refl eq_refl) as H.
  eapply returns_weaken; [ exact H | ].
  cbv beta zeta. intros _ w' (Hw & Hb & _ & user_name & admin_name & log1 & log2 & Ht & Hlog).
  split; [ exact Hw | ]. split; [ exact Hb | ].
  destruct Hlog as (name1 & target1 & time1 & name2 & target2 & time2 & -> & ->).
  { intros n. exists (mk_profile 10 "Ann" "Lee"), []. reflexivity. }
  exists name1, target1, time1, name2, target2, time2.
  unfold adds in Ht. rewrite Ht. reflexivity.
Defined.

(** the same command without a logging conversation: the third warning of
    user 20 is followed by the ban record and the request to remove the
    user; the two audit attempts are made and send nothing, so the trace
    holds no text for a logging conversation *)
Example third_warning_without_logging :
  let run := Commands.cmd_warn platform_up logging_off chat 10 "20 flood"
               (mk_world twice_warned ∅ 0 []) in
  Database.get_warns twice_warned 20 = 2 /\
  protected_from twice_warned 20 10 = false /\
  fst run = Ok tt /\
  Database.get_warns (st_db (snd run)) 20 = 3 /\
  Database.get_ban (st_db (snd run)) 20 = Some (mk_ban (AutoBanReason 3) 100) /\
  In (EvRemoveChatUser 1 20) (st_trace (snd run)) /\
  List.filter is_log_send (st_trace (snd run)) = [].
Proof. vm_compute. repeat split; try reflexivity. tauto. Qed.

(** * Further properties *)

(** ** Numbers and their decimal texts *)

Lemma digit_value_digit_char (d : Z) :
  0 <= d <= 9 -> Py.digit_value (Py.digit_char d) = d.
Proof.
  intros Hd. unfold Py.digit_value, Py.digit_char, Py.code.
  rewrite nat_ascii_embedding by lia. lia.
Qed.

Lemma is_digit_digit_char (d : Z) :
  0 <= d <= 9 -> Py.is_digit (Py.digit_char d) = true.
Proof.
  intros Hd. unfold Py.is_digit, Py.digit_char, Py.code.
  rewrite nat_ascii_embedding by lia.
  apply andb_true_iff. split; apply Nat.leb_le; lia.
Qed.

Lemma all_chars_app (p : ascii -> bool) (s t : string) :
  Py.all_chars p (s ++ t) = Py.all_chars p s && Py.all_chars p t.
Proof.
  induction s as [ | c r IH ]; simpl; [ reflexivity | ].
  rewrite IH, andb_assoc. reflexivity.
Qed.

Lemma int_acc_app (a : Z) (s t : string) :
  Py.int_acc a (s ++ t) = Py.int_acc (Py.int_acc a s) t.
Proof.
  revert a. induction s as [ | c r IH ]; intros a; simpl;
    [ reflexivity | apply IH ].
Qed.

Lemma append_assoc (s t u : string) : ((s ++ t) ++ u = s ++ (t ++ u))%string.
Proof.
  induction s as [ | c r IH ]; [ reflexivity | ].
  change (String c ((r ++ t) ++ u) = String c (r ++ (t ++ u)))%string.
  rewrite IH. reflexivity.
Qed.

Lemma str_digits_acc (fuel : nat) (n : Z) (acc : string) :
  Py.str_digits fuel n acc = (Py.str_digits fuel n "" ++ acc)%string.
Proof.
  revert n acc. induction fuel as [ | k IH ]; intros n acc; cbn [Py.str_digits].
  - reflexivity.
  - destruct (n <? 10); [ reflexivity | ].
    rewrite (IH (n / 10) (String _ acc)), (IH (n / 10) (String _ "")).
    rewrite append_assoc. reflexivity.
Qed.

(** the digits of a number that fits the fuel: they are digits, there is at
    least one, and they denote the number *)
Lemma str_digits_spec (fuel : nat) (n : Z) :
  0 <= n < 2 ^ Z.of_nat fuel -> (0 < fuel)%nat ->
  Py.isdigit (Py.str_digits fuel n "") = true /\
  Py.int (Py.str_digits fuel n "") = n.
Proof.
  revert n. induction fuel as [ | k IH ]; intros n Hn Hfuel.
  - lia.
  - cbn [Py.str_digits]. destruct (n <? 10) eqn:Hlt.
    + apply Z.ltb_lt in Hlt. split.
      * unfold Py.isdigit. cbn [Py.truthy Py.all_chars].
        rewrite is_digit_digit_char by lia. reflexivity.
      * unfold Py.int. cbn [Py.int_acc]. rewrite digit_value_digit_char by lia. lia.
    + apply Z.ltb_ge in Hlt.
      assert (Hk : 0 <= n / 10 < 2 ^ Z.of_nat k).
      { rewrite Nat2Z.inj_succ, Z.pow_succ_r in Hn by lia.
        split; [ apply Z.div_pos; lia | ].
        apply Z.div_lt_upper_bound; lia. }
      assert (Hpos : (0 < k)%nat).
      { destruct k; [ | lia ]. cbn in Hk.
        assert (1 <= n / 10) by (apply Z.div_le_lower_bound; lia). lia. }
      destruct (IH (n / 10) Hk Hpos) as [Hd Hv].
      assert (Hm : 0 <= n mod 10 <= 9) by (pose proof (Z.mod_pos_bound n 10); lia).
      rewrite str_digits_acc. split.
      * unfold Py.isdigit in *. apply andb_true_iff in Hd. destruct Hd as [Ht Ha].
        apply andb_true_iff. split.
        -- destruct (Py.str_digits k (n / 10) ""); [ discriminate | reflexivity ].
        -- rewrite all_chars_app, Ha. cbn [Py.all_chars].
           rewrite is_digit_digit_char by lia. reflexivity.
      * unfold Py.int in *. rewrite int_acc_app, Hv. cbn [Py.int_acc].
        rewrite digit_value_digit_char by lia.
        pose proof (Z.div_mod n 10). lia.
Qed.

(** [str] of a number that is not negative is a text of digits, and [int]
    reads the number back *)
Lemma str_digits_of_nonneg (n : Z) :
  0 <= n -> Py.isdigit (Py.str n) = true /\ Py.int (Py.str n) = n.
Proof.
  intros Hn. unfold Py.str.
  destruct (n <? 0) eqn:Hneg; [ apply Z.ltb_lt in Hneg; lia | ].
  apply str_digits_spec; [ | lia ]. split; [ exact Hn | ].
  rewrite Nat2Z.inj_succ, Z2Nat.id by apply Z.log2_nonneg.
  destruct (Z.eq_dec n 0) as [-> | Hz]; [ cbn; lia | ].
  apply Z.log2_spec. lia.
Qed.

(** ** Displayed durations *)


(** ** Displayed durations *)

(** X1. [format_time_delta] rounds down and never by a full unit.  For
    every number of seconds the text is one of the six templates, filled
    with numbers in canonical form; the seconds that the text stands for are
    at most the given seconds; the difference is below one hour, below one
    minute for less than a day, and zero below one minute (where the number
    is displayed as it is, a negative one included). *)
Theorem format_time_delta_rounds_down (seconds : Z) :
  exists t,
    Utils.format_time_delta seconds = render t /\
    canonical t /\
    seconds_shown t <= seconds /\
    seconds - seconds_shown t < 3600 /\
    (seconds < 86400 -> seconds - seconds_shown t < 60) /\
    (seconds < 60 -> t = Seconds seconds).
Proof.
  unfold Utils.format_time_delta.
  destruct (seconds <? 60) eqn:H1.
  { apply Z.ltb_lt in H1. exists (Seconds seconds). cbn. repeat split; lia. }
  apply Z.ltb_ge in H1. cbv zeta.
  destruct (seconds / 60 <? 60) eqn:H2.
  { apply Z.ltb_lt in H2. exists (Minutes (seconds / 60)). cbn.
    repeat split; try lia; Z.div_mod_to_equations; lia. }
  apply Z.ltb_ge in H2.
  destruct (seconds / 60 / 60 <? 24) eqn:H3.
  { apply Z.ltb_lt in H3.
    destruct ((seconds / 60) mod 60 =? 0) eqn:H4.
    - apply Z.eqb_eq in H4. exists (Hours (seconds / 60 / 60)). cbn.
      repeat split; try lia; Z.div_mod_to_equations; lia.
    - apply Z.eqb_neq in H4.
      exists (HoursMinutes (seconds / 60 / 60) ((seconds / 60) mod 60)). cbn.
      repeat split; try lia; Z.div_mod_to_equations; lia. }
  apply Z.ltb_ge in H3.
  destruct ((seconds / 60 / 60) mod 24 =? 0) eqn:H5.
  - apply Z.eqb_eq in H5. exists (Days (seconds / 60 / 60 / 24)). cbn.
    repeat split; try lia; Z.div_mod_to_equations; lia.
  - apply Z.eqb_neq in H5.
    exists (DaysHours (seconds / 60 / 60 / 24) ((seconds / 60 / 60) mod 24)). cbn.
    repeat split; try lia; Z.div_mod_to_equations; lia.
Qed.

Lemma format_time_delta_seconds (n : Z) :
  n < 60 -> Utils.format_time_delta n = render (Seconds n).
Proof.
  intros H. unfold Utils.format_time_delta.
  destruct (n <? 60) eqn:H1; [ reflexivity | apply Z.ltb_ge in H1; lia ].
Qed.

Lemma format_time_delta_minutes (n : Z) :
  1 <= n < 60 -> Utils.format_time_delta (n * 60) = render (Minutes n).
Proof.
  intros H. unfold Utils.format_time_delta.
  destruct (n * 60 <? 60) eqn:H1; [ apply Z.ltb_lt in H1; lia | ]. cbv zeta.
  rewrite Z.div_mul by lia.
  destruct (n <? 60) eqn:H2; [ reflexivity | apply Z.ltb_ge in H2; lia ].
Qed.

Lemma format_time_delta_hours (n : Z) :
  1 <= n < 24 -> Utils.format_time_delta (n * 3600) = render (Hours n).
Proof.
  intros H. unfold Utils.format_time_delta.
  destruct (n * 3600 <? 60) eqn:H1; [ apply Z.ltb_lt in H1; lia | ]. cbv zeta.
  replace (n * 3600) with (n * 60 * 60) by lia.
  rewrite !Z.div_mul by lia. rewrite Z.mod_mul by lia.
  destruct (n * 60 <? 60) eqn:H2; [ apply Z.ltb_lt in H2; lia | ].
  destruct (n <? 24) eqn:H3; [ reflexivity | apply Z.ltb_ge in H3; lia ].
Qed.

Lemma format_time_delta_days (n : Z) :
  1 <= n -> Utils.format_time_delta (n * 86400) = render (Days n).
Proof.
  intros H. unfold Utils.format_time_delta.
  destruct (n * 86400 <? 60) eqn:H1; [ apply Z.ltb_lt in H1; lia | ]. cbv zeta.
  replace (n * 86400) with (n * 24 * 60 * 60) by lia.
  rewrite !Z.div_mul by lia. rewrite Z.mod_mul by lia.
  destruct (n * 24 * 60 <? 60) eqn:H2; [ apply Z.ltb_lt in H2; lia | ].
  destruct (n * 24 <? 24) eqn:H3; [ apply Z.ltb_lt in H3; lia | ].
  rewrite Z.mod_mul by lia. reflexivity.
Qed.

(** X2. A duration typed as a number and a unit letter is displayed with the
    same number and unit whenever the number is below the size of the next
    unit (and at least 1 for minutes, hours and days): [parse_time] returns
    the seconds and [format_time_delta] of these seconds is the text of the
    typed number with the word of the typed unit. *)
Theorem duration_round_trip (digits : string) :
  Py.isdigit digits = true ->
  let n := Py.int digits in
  (n < 60 ->
   exists secs, Utils.parse_time (digits ++ "s") = Ok secs /\
                Utils.format_time_delta secs = render (Seconds n)) /\
  (1 <= n < 60 ->
   exists secs, Utils.parse_time (digits ++ "m") = Ok secs /\
                Utils.format_time_delta secs = render (Minutes n)) /\
  (1 <= n < 24 ->
   exists secs, Utils.parse_time (digits ++ "h") = Ok secs /\
                Utils.format_time_delta secs = render (Hours n)) /\
  (1 <= n ->
   exists secs, Utils.parse_time (digits ++ "d") = Ok secs /\
                Utils.format_time_delta secs = render (Days n)).
Proof.
  intros Hd n. repeat split; intros Hn.
  - exists (n * 1). split.
    + apply (parse_time_unit digits "s" 1 Hd). cbn. auto.
    + rewrite Z.mul_1_r. apply format_time_delta_seconds. exact Hn.
  - exists (n * 60). split.
    + apply (parse_time_unit digits "m" 60 Hd). cbn. auto.
    + apply format_time_delta_minutes. exact Hn.
  - exists (n * 3600). split.
    + apply (parse_time_unit digits "h" 3600 Hd). cbn. auto.
    + apply format_time_delta_hours. exact Hn.
  - exists (n * 86400). split.
    + apply (parse_time_unit digits "d" 86400 Hd). cbn. auto.
    + apply format_time_delta_days. exact Hn.
Qed.

Lemma duration_round_trip_witness :
  exists secs, Utils.parse_time "30m" = Ok secs /\
               Utils.format_time_delta secs = "30 мин.".
Proof.
  apply (proj1 (proj2 (duration_round_trip "30" eq_refl))). vm_compute.
  split; [ intros H; discriminate H | reflexivity ].
Defined.

(** ** Command lines *)

Lemma split_space1_spec (s : string) :
  Py.contains " " (fst (Py.split_space1 s)) = false /\
  match snd (Py.split_space1 s) with
  | Some rest => s = (fst (Py.split_space1 s) ++ String " " rest)%string
  | None => s = fst (Py.split_space1 s)
  end.
Proof.
  induction s as [ | c r [IH1 IH2] ]; cbn [Py.split_space1].
  - split; reflexivity.
  - destruct (Ascii.eqb c " ") eqn:Hc.
    + apply Ascii.eqb_eq in Hc. subst c. split; reflexivity.
    + destruct (Py.split_space1 r) as [a b]. cbn [fst snd] in *.
      split.
      * cbn [Py.contains]. rewrite Ascii.eqb_sym, Hc. exact IH1.
      * destruct b as [rest|]; rewrite IH2 at 1; reflexivity.
Qed.

Lemma lower_char_space (c : ascii) :
  Ascii.eqb " " (Py.lower_char c) = Ascii.eqb " " c.
Proof.
  unfold Py.lower_char.
  destruct ((65 <=? Py.code c)%nat && (Py.code c <=? 90)%nat) eqn:Hup; [ | reflexivity ].
  apply andb_true_iff in Hup. destruct Hup as [H1 H2].
  apply Nat.leb_le in H1. apply Nat.leb_le in H2.
  destruct (Ascii.eqb " " c) eqn:Hc.
  - apply Ascii.eqb_eq in Hc. subst c. change (65 <= 32)%nat in H1. lia.
  - apply Ascii.eqb_neq. intros Heq.
    assert (Hcode : Py.code (ascii_of_nat (Py.code c + 32)) = 32%nat)
      by (rewrite <- Heq; reflexivity).
    unfold Py.code in *. rewrite nat_ascii_embedding in Hcode by lia. lia.
Qed.

Lemma contains_space_lower (s : string) :
  Py.contains " " (Py.lower s) = Py.contains " " s.
Proof.
  induction s as [ | c r IH ]; cbn [Py.lower Py.contains]; [ reflexivity | ].
  rewrite lower_char_space, IH. reflexivity.
Qed.

Lemma lower_char_idempotent (c : ascii) :
  Py.lower_char (Py.lower_char c) = Py.lower_char c.
Proof.
  unfold Py.lower_char, Py.code.
  destruct ((65 <=? nat_of_ascii c)%nat && (nat_of_ascii c <=? 90)%nat) eqn:Hup.
  - apply andb_true_iff in Hup. destruct Hup as [H1 H2].
    apply Nat.leb_le in H1. apply Nat.leb_le in H2.
    rewrite nat_ascii_embedding by lia.
    destruct ((65 <=? nat_of_ascii c + 32)%nat && (nat_of_ascii c + 32 <=? 90)%nat) eqn:H;
      [ | reflexivity ].
    apply andb_true_iff in H. destruct H as [_ H]. apply Nat.leb_le in H. lia.
  - rewrite Hup. reflexivity.
Qed.

Lemma lower_idempotent (s : string) : Py.lower (Py.lower s) = Py.lower s.
Proof.
  induction s as [ | c r IH ]; cbn [Py.lower]; [ reflexivity | ].
  rewrite lower_char_idempotent, IH. reflexivity.
Qed.

Lemma startswith_char (c : ascii) (s : string) :
  Py.startswith (String c "") s
  = match s with String d _ => Ascii.eqb c d | EmptyString => false end.
Proof.
  destruct s as [ | d r ]; [ reflexivity | ].
  unfold Py.startswith. cbn [String.prefix].
  destruct (ascii_dec c d) as [-> | Hne].
  - rewrite Ascii.eqb_refl. destruct r; reflexivity.
  - symmetry. apply Ascii.eqb_neq. exact Hne.
Qed.

(** X3. [parse_command] loses nothing but one leading slash and the case of
    the command name.  Every text is an optional slash, a name without a
    space and, when the text has a space, that space and the arguments; the
    command is the name in lower case (it has no space and is in lower
    case), the arguments are returned as they are typed, and they are empty
    when the text has no space after the name.  Only one slash is dropped:
    without a dropped slash the name does not start with one. *)
Theorem parse_command_splits (text : string) :
  exists slash name,
    (slash = "" \/ slash = "/") /\
    (slash = "" -> Py.startswith "/" name = false) /\
    Py.contains " " name = false /\
    fst (Utils.parse_command text) = Py.lower name /\
    Py.contains " " (fst (Utils.parse_command text)) = false /\
    Py.lower (fst (Utils.parse_command text)) = fst (Utils.parse_command text) /\
    ((text = slash ++ name /\ snd (Utils.parse_command text) = "") \/
     text = slash ++ name ++ " " ++ snd (Utils.parse_command text))%string.
Proof.
  unfold Utils.parse_command. cbv zeta. cbn [fst snd].
  set (body := if Py.startswith "/" text then Py.drop 1 text else text).
  destruct (split_space1_spec body) as [Hname Hbody].
  exists (if Py.startswith "/" text then "/" else ""), (fst (Py.split_space1 body)).
  assert (Htext : text = ((if Py.startswith "/" text then "/" else "") ++ body)%string).
  { subst body. rewrite startswith_char. destruct text as [ | c r ]; [ reflexivity | ].
    destruct (Ascii.eqb "/" c) eqn:Hc; [ | reflexivity ].
    apply Ascii.eqb_eq in Hc. subst c. reflexivity. }
  split; [ destruct (Py.startswith "/" text); auto | ].
  split.
  { intros Hslash. destruct (Py.startswith "/" text) eqn:Hs; [ discriminate | ].
    subst body. cbv beta iota in *.
    destruct (snd (Py.split_space1 text)) as [rest|].
    - rewrite Hbody in Hs. clear Hbody. rewrite startswith_char in *.
      destruct (fst (Py.split_space1 text)) as [ | c r ]; [ reflexivity | exact Hs ].
    - rewrite <- Hbody. exact Hs. }
  split; [ exact Hname | ].
  split; [ reflexivity | ].
  split; [ rewrite contains_space_lower; exact Hname | ].
  split; [ apply lower_idempotent | ].
  destruct (snd (Py.split_space1 body)) as [rest|].
  - right. rewrite Htext at 1. rewrite Hbody at 1. reflexivity.
  - left. split; [ | reflexivity ]. rewrite Htext at 1. rewrite Hbody at 1. reflexivity.
Qed.

(** ** Ordered queries *)

Lemma insert_desc_perm {A} (key : A -> Z) (x : A) (l : list A) :
  Permutation (Database.insert_desc key x l) (x :: l).
Proof.
  induction l as [ | y l IH ]; cbn; [ reflexivity | ].
  destruct (key y <=? key x); [ reflexivity | ].
  rewrite IH. apply perm_swap.
Qed.

Lemma order_by_desc_perm {A} (key : A -> Z) (l : list A) :
  Permutation (Database.order_by_desc key l) l.
Proof.
  induction l as [ | x l IH ]; cbn; [ reflexivity | ].
  fold (Database.order_by_desc key l). rewrite insert_desc_perm, IH. reflexivity.
Qed.

Lemma in_order_by_desc {A} (key : A -> Z) (l : list A) (x : A) :
  In x (Database.order_by_desc key l) <-> In x l.
Proof.
  split; apply Permutation_in;
    [ apply order_by_desc_perm | symmetry; apply order_by_desc_perm ].
Qed.

Lemma length_order_by_desc {A} (key : A -> Z) (l : list A) :
  length (Database.order_by_desc key l) = length l.
Proof. apply Permutation_length, order_by_desc_perm. Qed.

Lemma insert_desc_descending {A} (key : A -> Z) (x : A) (l : list A) :
  descending key l -> descending key (Database.insert_desc key x l).
Proof.
  induction l as [ | y l IH ]; cbn [Database.insert_desc descending].
  - intros _. split; [ constructor | exact I ].
  - intros [Hall Hl]. destruct (key y <=? key x) eqn:Hle.
    + apply Z.leb_le in Hle. cbn [descending]. split; [ | split; assumption ].
      constructor; [ exact Hle | ].
      eapply Forall_impl; [ exact Hall | ]. cbn. intros z Hz. lia.
    + apply Z.leb_gt in Hle. cbn [descending]. split; [ | apply IH, Hl ].
      apply Forall_forall. intros z Hz.
      apply list_elem_of_In, (Permutation_in _ (insert_desc_perm key x l)) in Hz.
      destruct Hz as [<- | Hz]; [ lia | ].
      rewrite Forall_forall in Hall. apply Hall, list_elem_of_In, Hz.
Qed.

Lemma order_by_desc_descending {A} (key : A -> Z) (l : list A) :
  descending key (Database.order_by_desc key l).
Proof.
  induction l as [ | x l IH ]; cbn; [ exact I | ].
  apply insert_desc_descending, IH.
Qed.

Lemma descending_map {A B} (f : A -> B) (key : B -> Z) (l : list A) :
  descending (fun x => key (f x)) l -> descending key (map f l).
Proof.
  induction l as [ | x l IH ]; cbn [map descending]; [ auto | ].
  intros [Hall Hl]. split; [ | apply IH, Hl ].
  apply Forall_forall. intros y Hy.
  apply list_elem_of_In, in_map_iff in Hy. destruct Hy as (z & <- & Hz).
  rewrite Forall_forall in Hall. apply Hall, list_elem_of_In, Hz.
Qed.

Lemma in_map_to_list {K V} `{Countable K} (m : gmap K V) (k : K) (v : V) :
  In (k, v) (map_to_list m) <-> m !! k = Some v.
Proof. rewrite <- list_elem_of_In. apply elem_of_map_to_list. Qed.

(** ** Bans *)

(** X4. A ban is a record per user that [ban_user] writes or replaces and
    [unban_user] deletes.  After [ban_user], [get_ban] returns the reason and
    the time of that call, [is_banned] is true and the user is in the list
    of [get_banned_users]; a second [ban_user] replaces the record.
    [unban_user] then returns [True] and removes the record, and it returns
    [False] and changes nothing for a user without a record; banning and
    unbanning a user who was not banned leaves the store as it was.  No
    call touches the record of another user or any other table. *)
Theorem ban_unban_round_trip (now : Z) (u : Z) (reason : text) (d : DB) :
  let d1 := snd (Database.ban_user now u reason d) in
  let d2 := snd (Database.unban_user u d1) in
  Database.get_ban d1 u = Some (mk_ban reason now) /\
  Bot.is_banned d1 u = true /\
  In (Database.mk_ban_entry u (Database.joined_nickname d u) reason now)
     (Database.get_banned_users d1) /\
  (forall now' reason',
      Database.get_ban (snd (Database.ban_user now' u reason' d1)) u
      = Some (mk_ban reason' now')) /\
  fst (Database.unban_user u d1) = true /\
  Database.get_ban d2 u = None /\
  Bot.is_banned d2 u = false /\
  (forall e, In e (Database.get_banned_users d2) -> Database.be_user_id e <> u) /\
  (Database.get_ban d u = None ->
   Database.unban_user u d = (false, d) /\ d2 = d) /\
  (forall v, v <> u ->
             Database.get_ban d1 v = Database.get_ban d v /\
             Database.get_ban d2 v = Database.get_ban d v) /\
  (t_users d1 = t_users d /\ t_warns d1 = t_warns d /\
   t_conversation_roles d1 = t_conversation_roles d) /\
  (t_users d2 = t_users d /\ t_warns d2 = t_warns d /\
   t_conversation_roles d2 = t_conversation_roles d).
Proof.
  cbn zeta.
  assert (Hd1 : snd (Database.ban_user now u reason d)
                = Database.with_bans d (<[u := mk_ban reason now]> (t_bans d)))
    by reflexivity.
  assert (Hun : Database.unban_user u (snd (Database.ban_user now u reason d))
                = (true, Database.with_bans d (delete u (t_bans d)))).
  { rewrite Hd1. unfold Database.unban_user, Database.with_bans. cbn.
    rewrite lookup_insert_eq. cbn. rewrite delete_insert_eq. reflexivity. }
  rewrite Hun. cbn [fst snd].
  unfold Bot.is_banned, Database.get_ban. rewrite Hd1. cbn.
  rewrite lookup_insert_eq, lookup_delete_eq.
  repeat split.
  - unfold Database.get_banned_users. cbn.
    apply in_map_iff. exists (u, mk_ban reason now). split; [ reflexivity | ].
    apply in_order_by_desc, in_map_to_list, lookup_insert_eq.
  - intros now' reason'. apply lookup_insert_eq.
  - intros e He Hu. unfold Database.get_banned_users in He. cbn in He.
    apply in_map_iff in He. destruct He as ([v row] & <- & Hv).
    apply in_order_by_desc, in_map_to_list in Hv. cbn in Hu. subst v.
    rewrite lookup_delete_eq in Hv. discriminate.
  - unfold Database.unban_user. rewrite H. reflexivity.
  - unfold Database.with_bans. rewrite delete_id by exact H. destruct d; reflexivity.
  - apply lookup_insert_ne. congruence.
  - apply lookup_delete_ne. congruence.
Qed.

(** ** Nicknames *)

Lemma set_nickname_of_same (row : user_row) :
  Database.set_nickname_of row (u_nickname row) = row.
Proof. destruct row; reflexivity. Qed.

(** X5. A nickname is a column of the row of the user.  For a registered
    user [set_nickname] returns [True] and [get_user] then shows the new
    nickname, with every other column as before; [remove_nickname] returns
    [True] and the nickname is NULL afterwards, also when there was no
    nickname to remove (the store is then unchanged).  For a user without a
    row both calls return [False] and change nothing.  The row of another
    user is never touched. *)
Theorem nickname_round_trip (u : Z) (nickname : string) (d : DB) :
  (forall row,
      Database.get_user d u = Some row ->
      let d1 := snd (Database.set_nickname u nickname d) in
      let d2 := snd (Database.remove_nickname u d1) in
      fst (Database.set_nickname u nickname d) = true /\
      Database.get_user d1 u
      = Some (mk_user (Some nickname) (u_role row) (u_messages_count row)
                      (u_warns row) (u_mute_until row) (u_ban_reason row)
                      (u_reg_date row)) /\
      fst (Database.remove_nickname u d1) = true /\
      Database.get_user d2 u
      = Some (mk_user None (u_role row) (u_messages_count row)
                      (u_warns row) (u_mute_until row) (u_ban_reason row)
                      (u_reg_date row)) /\
      (u_nickname row = None ->
       Database.remove_nickname u d = (true, d) /\ d2 = d)) /\
  (Database.get_user d u = None ->
   Database.set_nickname u nickname d = (false, d) /\
   Database.remove_nickname u d = (false, d)) /\
  (forall v, v <> u ->
             Database.get_user (snd (Database.set_nickname u nickname d)) v
             = Database.get_user d v /\
             Database.get_user (snd (Database.remove_nickname u d)) v
             = Database.get_user d v).
Proof.
  unfold Database.get_user. split; [ | split ].
  - intros row Hrow. cbn zeta.
    unfold Database.set_nickname. rewrite Hrow. cbn [fst snd].
    unfold Database.remove_nickname, Database.with_users. cbn.
    rewrite !lookup_insert_eq. cbn. rewrite lookup_insert_eq.
    split; [ reflexivity | ]. split; [ reflexivity | ].
    split; [ reflexivity | ]. split; [ reflexivity | ].
    intros Hnone. split.
    + rewrite Hrow. f_equal.
      rewrite <- Hnone, set_nickname_of_same, insert_id by exact Hrow.
      destruct d; reflexivity.
    + rewrite insert_insert_eq.
      replace (Database.set_nickname_of (Database.set_nickname_of row (Some nickname)) None)
        with row by (destruct row; cbn in *; subst; reflexivity).
      rewrite insert_id by exact Hrow. destruct d; reflexivity.
  - intros Hnone. unfold Database.set_nickname, Database.remove_nickname.
    rewrite Hnone. split; reflexivity.
  - intros v Hv. unfold Database.set_nickname, Database.remove_nickname.
    destruct (t_users d !! u); cbn; [ | split; reflexivity ].
    rewrite !lookup_insert_ne by congruence. split; reflexivity.
Qed.

Lemma nickname_round_trip_witness :
  fst (Database.set_nickname 7 "Kai" muted_seven) = true /\
  Database.get_user (snd (Database.set_nickname 7 "Kai" muted_seven)) 7
  = Some (mk_user (Some "Kai") "user" 0 0 500 None 50).
Proof.
  pose proof (proj1 (nickname_round_trip 7 "Kai" muted_seven)
                    (Database.set_mute_until plain_row 500) eq_refl) as H.
  cbv zeta in H. destruct H as (H1 & H2 & _). split; [ exact H1 | exact H2 ].
Defined.

Lemma filter_two_lengths {A} (p : A -> bool) (l : list A) :
  (length (List.filter p l) + length (List.filter (fun x => negb (p x)) l))%nat
  = length l.
Proof.
  induction l as [ | x l IH ]; cbn; [ reflexivity | ].
  destruct (p x); cbn; lia.
Qed.

(** X6. The two nickname lists split the registered users.  A registered
    user with a nickname is in [get_users_with_nicknames] (with the nickname
    and the global role) and not in [get_users_without_nicknames]; one
    without a nickname is in the second list and not in the first; every
    entry of either list is such a user; and the lengths of the two lists
    add up to the number of rows of table [users]. *)
Theorem nickname_lists_partition (d : DB) :
  (forall u n role,
      In (Database.mk_entry u n role) (Database.get_users_with_nicknames d) <->
      exists row, Database.get_user d u = Some row /\ u_nickname row = n /\
                  n <> None /\ u_role row = role) /\
  (forall u role,
      In (u, role) (Database.get_users_without_nicknames d) <->
      exists row, Database.get_user d u = Some row /\ u_nickname row = None /\
                  u_role row = role) /\
  (forall u, In u (map Database.e_user_id (Database.get_users_with_nicknames d)) ->
             ~ In u (map fst (Database.get_users_without_nicknames d))) /\
  (length (Database.get_users_with_nicknames d)
   + length (Database.get_users_without_nicknames d))%nat
  = size (t_users d).
Proof.
  assert (Hwith : forall u n role,
      In (Database.mk_entry u n role) (Database.get_users_with_nicknames d) <->
      exists row, Database.get_user d u = Some row /\ u_nickname row = n /\
                  n <> None /\ u_role row = role).
  { intros u n role. unfold Database.get_users_with_nicknames, Database.users_rows,
      Database.get_user.
    rewrite in_map_iff. split.
    - intros ([v row] & Heq & Hin). apply filter_In in Hin. destruct Hin as [Hin Hn].
      apply in_map_to_list in Hin. unfold Database.entry_of in Heq. cbn in *.
      inversion Heq; subst. exists row. repeat split; auto.
      destruct (u_nickname row); [ discriminate | discriminate ].
    - intros (row & Hrow & <- & Hn & <-). exists (u, row). split; [ reflexivity | ].
      apply filter_In. split; [ apply in_map_to_list, Hrow | ]. cbn.
      destruct (u_nickname row); [ reflexivity | contradiction ]. }
  assert (Hwithout : forall u role,
      In (u, role) (Database.get_users_without_nicknames d) <->
      exists row, Database.get_user d u = Some row /\ u_nickname row = None /\
                  u_role row = role).
  { intros u role. unfold Database.get_users_without_nicknames, Database.users_rows,
      Database.get_user.
    rewrite in_map_iff. split.
    - intros ([v row] & Heq & Hin). apply filter_In in Hin. destruct Hin as [Hin Hn].
      apply in_map_to_list in Hin. cbn in *. inversion Heq; subst.
      exists row. repeat split; auto.
      destruct (u_nickname row); [ discriminate | reflexivity ].
    - intros (row & Hrow & Hn & <-). exists (u, row). split; [ reflexivity | ].
      apply filter_In. split; [ apply in_map_to_list, Hrow | ]. cbn.
      rewrite Hn. reflexivity. }
  split; [ exact Hwith | ]. split; [ exact Hwithout | ]. split.
  - intros u Hin Hin'.
    apply in_map_iff in Hin. destruct Hin as ([u1 n role] & Hu & Hin). cbn in Hu. subst u1.
    apply in_map_iff in Hin'. destruct Hin' as ([u2 role'] & Hu & Hin'). cbn in Hu. subst u2.
    apply Hwith in Hin. apply Hwithout in Hin'.
    destruct Hin as (row & Hrow & Hn & Hne & _).
    destruct Hin' as (row' & Hrow' & Hn' & _).
    rewrite Hrow in Hrow'. inversion Hrow'; subst. congruence.
  - unfold Database.get_users_with_nicknames, Database.get_users_without_nicknames,
      Database.users_rows.
    rewrite !length_map.
    rewrite <- (length_map_to_list (t_users d)).
    rewrite <- (filter_two_lengths
                  (fun kv : Z * user_row =>
                     match u_nickname (snd kv) with Some _ => true | None => false end)
                  (map_to_list (t_users d))).
    f_equal. f_equal. apply filter_ext. intros [v row]. cbn.
    destruct (u_nickname row); reflexivity.
Qed.

(** ** The search by nickname *)

Lemma like_percent (p s : string) :
  Database.like (String "%" p) s
  = Database.like p s
    || match s with
       | EmptyString => false
       | String _ r => Database.like (String "%" p) r
       end.
Proof. destruct s; reflexivity. Qed.

Lemma like_percent_skip (p before s : string) :
  Database.like p s = true ->
  Database.like (String "%" p) (before ++ s) = true.
Proof.
  intros Hs. induction before as [ | c r IH ].
  - change (EmptyString ++ s)%string with s. rewrite like_percent, Hs. reflexivity.
  - change (String c r ++ s)%string with (String c (r ++ s))%string.
    rewrite like_percent, IH. apply orb_true_r.
Qed.

Lemma like_percent_any (s : string) : Database.like "%" s = true.
Proof.
  induction s as [ | c r IH ]; [ reflexivity | ].
  rewrite like_percent, IH. apply orb_true_r.
Qed.

(** a text matches itself as a pattern, whatever follows when the pattern
    ends in [%] *)
Lemma like_literal (needle rest : string) :
  Database.like (needle ++ "%") (needle ++ rest) = true.
Proof.
  induction needle as [ | c p IH ].
  - apply like_percent_any.
  - change (String c p ++ "%")%string with (String c (p ++ "%"))%string.
    change (String c p ++ rest)%string with (String c (p ++ rest))%string.
    destruct (Ascii.eqb c "%") eqn:Hc.
    + apply Ascii.eqb_eq in Hc. subst c.
      rewrite like_percent. apply orb_true_iff. right.
      rewrite like_percent, IH. reflexivity.
    + cbn [Database.like]. rewrite Hc, Ascii.eqb_refl, orb_true_r, IH. reflexivity.
Qed.

(** X7. The search by nickname finds every registered user whose nickname
    contains the search text (also when the text has the characters [%] or
    [_], which the query passes to LIKE as wild cards), it never returns a
    user without a nickname, and every entry it returns is a registered
    user with the nickname and global role of the entry. *)
Theorem nickname_search_finds_substring (d : DB) (needle : string) :
  (forall u row before after,
      Database.get_user d u = Some row ->
      u_nickname row = Some (before ++ needle ++ after)%string ->
      In (Database.mk_entry u (Some (before ++ needle ++ after)%string) (u_role row))
         (Database.find_user_by_nickname needle d)) /\
  (forall e,
      In e (Database.find_user_by_nickname needle d) ->
      exists row n,
        Database.get_user d (Database.e_user_id e) = Some row /\
        u_nickname row = Some n /\
        e = Database.mk_entry (Database.e_user_id e) (Some n) (u_role row)).
Proof.
  unfold Database.find_user_by_nickname, Database.users_rows, Database.get_user.
  split.
  - intros u row before after Hrow Hn. apply in_map_iff.
    exists (u, row). split; [ unfold Database.entry_of; cbn; rewrite Hn; reflexivity | ].
    apply filter_In. split; [ apply in_map_to_list, Hrow | ]. cbn. rewrite Hn.
    change ("%" ++ needle ++ "%")%string with (String "%" (needle ++ "%"))%string.
    apply like_percent_skip, like_literal.
  - intros e He. apply in_map_iff in He. destruct He as ([u row] & <- & Hin).
    apply filter_In in Hin. destruct Hin as [Hin Hlike]. cbn in *.
    apply in_map_to_list in Hin.
    destruct (u_nickname row) as [n|] eqn:Hn; [ | discriminate ].
    exists row, n. unfold Database.entry_of. cbn. rewrite Hn. auto.
Qed.

Lemma nickname_search_finds_substring_witness :
  In (Database.mk_entry 7 (Some "Kai_99") "user")
     (Database.find_user_by_nickname "i_9"
        (snd (Database.set_nickname 7 "Kai_99" muted_seven))).
Proof.
  apply (proj1 (nickname_search_finds_substring
                  (snd (Database.set_nickname 7 "Kai_99" muted_seven)) "i_9")
               7 (Database.set_nickname_of (Database.set_mute_until plain_row 500)
                                           (Some "Kai_99"))
               "Ka" "9"); reflexivity.
Defined.

(** ** The history of warnings and the counter *)

Lemma entries_same_warns (d d' : DB) (u : Z) :
  t_warns d' = t_warns d -> entries d' u = entries d u.
Proof. intros H. unfold entries, Database.warns_of. rewrite H. reflexivity. Qed.

(** a write that leaves table [warns] alone and, in table [users], keeps the
    counter of every row and adds rows with the counter 0 only *)
Lemma counters_agree_kept (d d' : DB) :
  t_warns d' = t_warns d ->
  (forall v,
      match t_users d !! v with
      | Some row => exists row', t_users d' !! v = Some row' /\ u_warns row' = u_warns row
      | None => t_users d' !! v = None \/
                exists row', t_users d' !! v = Some row' /\ u_warns row' = 0
      end) ->
  counters_agree d -> counters_agree d'.
Proof.
  intros Hw Hu Hagree v. specialize (Hu v). specialize (Hagree v).
  rewrite (entries_same_warns d d' v Hw).
  destruct (t_users d !! v) as [row|].
  - destruct Hu as (row' & -> & Hc). congruence.
  - destruct Hu as [-> | (row' & -> & Hc)]; [ exact Hagree | ]. rewrite Hagree. exact Hc.
Qed.

Lemma counters_agree_add_user (now u : Z) (d : DB) :
  counters_agree d -> counters_agree (Database.add_user now u d).
Proof.
  apply counters_agree_kept.
  - unfold Database.add_user. destruct (t_users d !! u); reflexivity.
  - intros v. unfold Database.add_user.
    destruct (t_users d !! u) as [r|] eqn:Hu.
    + destruct (t_users d !! v) as [row|]; eauto.
    + cbn. destruct (decide (v = u)) as [-> | Hne].
      * rewrite Hu, lookup_insert_eq. right. eauto.
      * rewrite lookup_insert_ne by congruence.
        destruct (t_users d !! v) as [row|]; eauto.
Qed.

(** an UPDATE of one row of [users] that keeps the counter *)
Lemma counters_agree_update (f : user_row -> user_row) (u : Z) (d : DB) :
  (forall r, u_warns (f r) = u_warns r) ->
  counters_agree d ->
  counters_agree
    match t_users d !! u with
    | Some r => Database.with_users d (<[u := f r]> (t_users d))
    | None => d
    end.
Proof.
  intros Hf. apply counters_agree_kept.
  - destruct (t_users d !! u); reflexivity.
  - intros v. destruct (t_users d !! u) as [r|] eqn:Hu.
    + cbn. destruct (decide (v = u)) as [-> | Hne].
      * rewrite Hu, lookup_insert_eq. eauto.
      * rewrite lookup_insert_ne by congruence.
        destruct (t_users d !! v) as [row|]; eauto.
    + destruct (t_users d !! v) as [row|]; eauto.
Qed.

Lemma entries_add_warn (now u v : Z) (reason : text) (d : DB) (row : user_row) :
  t_users d !! u = Some row ->
  entries (snd (Database.add_warn now u reason d)) v
  = (entries d v + (if (u =? v)%Z then 1 else 0))%nat.
Proof.
  intros Hrow. rewrite (add_warn_registered now u reason d row Hrow). cbn [snd].
  unfold entries, Database.warns_of. cbn.
  rewrite List.filter_app, length_app. cbn. destruct (u =? v); reflexivity.
Qed.

Lemma counters_agree_add_warn (now u : Z) (reason : text) (d : DB) (row : user_row) :
  t_users d !! u = Some row ->
  counters_agree d -> counters_agree (snd (Database.add_warn now u reason d)).
Proof.
  intros Hrow Hagree v.
  rewrite (entries_add_warn now u v reason d row Hrow).
  rewrite (add_warn_registered now u reason d row Hrow). cbn [snd t_users].
  specialize (Hagree v).
  destruct (decide (v = u)) as [-> | Hne].
  - rewrite lookup_insert_eq, Z.eqb_refl. rewrite Hrow in Hagree. cbn. lia.
  - rewrite lookup_insert_ne by congruence.
    assert (Hneq : (u =? v) = false) by (apply Z.eqb_neq; congruence).
    rewrite Hneq, Nat.add_0_r. exact Hagree.
Qed.

Lemma counters_agree_remove_warn (u : Z) (d : DB) :
  warns_keyed d ->
  counters_agree d -> counters_agree (snd (Database.remove_warn u d)).
Proof.
  intros Hk Hagree.
  destruct (Database.most_recent_warn d u) as [sel|] eqn:Hsel.
  2:{ unfold Database.remove_warn. rewrite Hsel. exact Hagree. }
  destruct (remove_warn_selected u d sel Hsel) as (_ & Hw & _ & Hus & _).
  destruct (remove_warn_entries u d sel Hk Hsel) as [He _].
  pose proof (most_recent_warn_spec d u) as Hspec. rewrite Hsel in Hspec.
  destruct Hspec as [Hin _]. apply in_warns_of in Hin. destruct Hin as [Hin Hsu].
  intros v. specialize (Hagree v). rewrite Hus.
  destruct (decide (v = u)) as [-> | Hne].
  - destruct (t_users d !! u) as [r|] eqn:Hrow.
    + rewrite lookup_insert_eq. cbn. lia.
    + rewrite Hrow. lia.
  - assert (Hev : entries (snd (Database.remove_warn u d)) v = entries d v).
    { unfold entries, Database.warns_of. rewrite Hw.
      pose proof (count_delete_warn (fun r => w_user_id r =? v) (t_warns d) sel
                    (proj1 Hk) Hin) as Hc.
      cbn in Hc. rewrite Hsu in Hc.
      assert (Hneq : (u =? v) = false) by (apply Z.eqb_neq; congruence).
      rewrite Hneq in Hc. lia. }
    rewrite Hev.
    destruct (t_users d !! u) as [r|]; [ rewrite lookup_insert_ne by congruence | ];
      exact Hagree.
Qed.

Lemma keyed_same_warns (d d' : DB) :
  t_warns d' = t_warns d -> t_warns_seq d' = t_warns_seq d ->
  warns_keyed d -> warns_keyed d'.
Proof. unfold warns_keyed. intros -> ->. auto. Qed.

(** the two invariants hold on every store that the handlers produce *)
Lemma written_invariants (d : DB) : written d -> warns_keyed d /\ counters_agree d.
Proof.
  induction 1 as [ | o d Hd [Hk Hagree] ].
  - split; [ split; [ apply NoDup_nil_2 | constructor ] | ].
    intros u. reflexivity.
  - destruct o as [ now u | now u | u nick | u | reg_now now u reason | u
                  | now u dur reason | u | now u reason | u | u role peer ];
      cbn [run_write].
    + split; [ apply add_user_keyed, Hk | apply counters_agree_add_user, Hagree ].
    + split.
      * eapply keyed_same_warns; [ | | exact Hk ];
          unfold Database.update_message_count; destruct (t_users d !! u); reflexivity.
      * revert Hagree. apply counters_agree_kept.
        -- unfold Database.update_message_count. destruct (t_users d !! u); reflexivity.
        -- intros v. unfold Database.update_message_count.
           destruct (t_users d !! u) as [r|] eqn:Hu; cbn;
             (destruct (decide (v = u)) as [-> | Hne];
              [ rewrite Hu, lookup_insert_eq; eauto
              | rewrite lookup_insert_ne by congruence;
                destruct (t_users d !! v) as [row|]; eauto ]).
    + split.
      * eapply keyed_same_warns; [ | | exact Hk ];
          unfold Database.set_nickname; destruct (t_users d !! u); reflexivity.
      * unfold Database.set_nickname.
        pose proof (counters_agree_update
                      (fun r => Database.set_nickname_of r (Some nick)) u d
                      (fun r => eq_refl) Hagree) as Hc.
        destruct (t_users d !! u); exact Hc.
    + split.
      * eapply keyed_same_warns; [ | | exact Hk ];
          unfold Database.remove_nickname; destruct (t_users d !! u); reflexivity.
      * unfold Database.remove_nickname.
        pose proof (counters_agree_update
                      (fun r => Database.set_nickname_of r None) u d
                      (fun r => eq_refl) Hagree) as Hc.
        destruct (t_users d !! u); exact Hc.
    + destruct (add_user_registers reg_now u d) as (row & Hrow & _).
      split.
      * apply add_warn_keyed, add_user_keyed, Hk.
      * eapply counters_agree_add_warn; [ exact Hrow | ].
        apply counters_agree_add_user, Hagree.
    + split; [ apply remove_warn_keyed, Hk | apply counters_agree_remove_warn; assumption ].
    + split.
      * eapply keyed_same_warns; [ | | exact Hk ];
          unfold Database.set_mute; cbn; destruct (t_users d !! u); reflexivity.
      * unfold Database.set_mute. cbn [snd].
        exact (counters_agree_update
                 (fun r => Database.set_mute_until r (now + dur)) u d
                 (fun r => eq_refl) Hagree).
    + split.
      * eapply keyed_same_warns; [ | | exact Hk ];
          unfold Database.remove_mute; destruct (t_users d !! u); reflexivity.
      * unfold Database.remove_mute.
        pose proof (counters_agree_update
                      (fun r => Database.set_mute_until r 0) u d
                      (fun r => eq_refl) Hagree) as Hc.
        destruct (t_users d !! u); exact Hc.
    + split; [ exact Hk | exact Hagree ].
    + unfold Database.unban_user. destruct (t_bans d !! u); split; assumption.
    + unfold Database.set_role. destruct (Database.peer_truthy peer) as [p|].
      * split; assumption.
      * split.
        -- eapply keyed_same_warns; [ | | exact Hk ]; destruct (t_users d !! u); reflexivity.
        -- pose proof (counters_agree_update
                         (fun r => Database.set_user_role r role) u d
                         (fun r => eq_refl) Hagree) as Hc.
           destruct (t_users d !! u); exact Hc.
Qed.

(** X8. [get_warn_history] returns the warning entries of the user, each
    once, with the most recent first.  On every store that the handlers
    produce from the initial one, the number of entries of that history is
    the counter that [get_warns] returns, for every user. *)
Theorem warn_history_matches_counter :
  (forall (d : DB) (u : Z),
      Permutation (Database.get_warn_history d u) (Database.warns_of d u) /\
      descending w_timestamp (Database.get_warn_history d u) /\
      (forall r, In r (Database.get_warn_history d u)
                 <-> In r (t_warns d) /\ w_user_id r = u)) /\
  (forall (d : DB),
      written d ->
      forall u, Database.get_warns d u
                = Z.of_nat (length (Database.get_warn_history d u))).
Proof.
  split.
  - intros d u. unfold Database.get_warn_history.
    split; [ apply order_by_desc_perm | ].
    split; [ apply order_by_desc_descending | ].
    intros r. rewrite in_order_by_desc. apply in_warns_of.
  - intros d Hd u. destruct (written_invariants d Hd) as [_ Hagree].
    specialize (Hagree u). unfold Database.get_warn_history, Database.get_warns.
    rewrite length_order_by_desc. fold (entries d u).
    destruct (t_users d !! u); [ exact Hagree | rewrite Hagree; reflexivity ].
Qed.

Lemma warn_history_matches_counter_witness :
  Database.get_warns (run_write (WWarn 50 60 7 NotSpecified) Database.init_db) 7
  = Z.of_nat (length (Database.get_warn_history
                        (run_write (WWarn 50 60 7 NotSpecified) Database.init_db) 7)).
Proof.
  apply (proj2 warn_history_matches_counter).
  apply written_step, written_init.
Defined.

(** ** The staff of a conversation *)

Lemma in_get_staff (d : DB) (peer u : Z) (nick : option string) (role : string) :
  peer <> 0 ->
  (In (Database.mk_entry u nick role) (Database.get_staff (Some peer) d) <->
   t_conversation_roles d !! (u, peer) = Some role /\ role <> "user" /\
   nick = Database.joined_nickname d u).
Proof.
  intros Hpeer. unfold Database.get_staff. rewrite (peer_truthy_nonzero peer Hpeer).
  rewrite in_map_iff. split.
  - intros ([[v p] r] & Heq & Hin).
    apply in_order_by_desc, filter_In in Hin. destruct Hin as [Hin Hf].
    apply in_map_to_list in Hin. cbn in *.
    apply andb_true_iff in Hf. destruct Hf as [Hp Hr].
    apply Z.eqb_eq in Hp. subst p. apply negb_true_iff, String.eqb_neq in Hr.
    inversion Heq; subst. auto.
  - intros (Hrole & Hne & ->). exists ((u, peer), role). split; [ reflexivity | ].
    apply in_order_by_desc, filter_In. split; [ apply in_map_to_list, Hrole | ].
    cbn. rewrite Z.eqb_refl. cbn. apply negb_true_iff, String.eqb_neq, Hne.
Qed.

(** X9. The staff list of a conversation (an id other than 0) has an entry
    for a user exactly when an override other than "user" is stored for the
    user and the conversation; the entry carries that role and the nickname
    of the row of the user, if there is one.  The list is ordered from
    "creator" down to "moderator", any other role last.  After [set_role]
    for that conversation the user is listed with the new role unless the
    role is "user", and then the user is not listed; the entries of the
    other users are as before.  A user whose role in the conversation is the
    fallback to the global role has no entry, whatever that role is. *)
Theorem staff_list_of_conversation (d : DB) (peer : Z) :
  peer <> 0 ->
  (forall u nick role,
      In (Database.mk_entry u nick role) (Database.get_staff (Some peer) d) <->
      t_conversation_roles d !! (u, peer) = Some role /\ role <> "user" /\
      nick = Database.joined_nickname d u) /\
  descending (fun e => Database.staff_order (Database.e_role e))
             (Database.get_staff (Some peer) d) /\
  (forall u role,
      let d' := snd (Database.set_role u role (Some peer) d) in
      (role <> "user" ->
       In (Database.mk_entry u (Database.joined_nickname d u) role)
          (Database.get_staff (Some peer) d')) /\
      (role = "user" ->
       forall e, In e (Database.get_staff (Some peer) d') -> Database.e_user_id e <> u) /\
      (forall e, Database.e_user_id e <> u ->
                 (In e (Database.get_staff (Some peer) d')
                  <-> In e (Database.get_staff (Some peer) d)))) /\
  (forall u,
      t_conversation_roles d !! (u, peer) = None ->
      Database.get_role d u (Some peer) = Database.global_role d u /\
      forall e, In e (Database.get_staff (Some peer) d) -> Database.e_user_id e <> u).
Proof.
  intros Hpeer. split; [ intros u nick role; apply in_get_staff, Hpeer | ].
  split.
  { unfold Database.get_staff. rewrite (peer_truthy_nonzero peer Hpeer).
    apply (descending_map
             (fun kv : Z * Z * string =>
                Database.mk_entry (fst (fst kv))
                                  (Database.joined_nickname d (fst (fst kv))) (snd kv))
             (fun e => Database.staff_order (Database.e_role e))).
    cbn. apply order_by_desc_descending. }
  split.
  - intros u role. cbv zeta.
    assert (Hset : snd (Database.set_role u role (Some peer) d)
                   = Database.with_conversation_roles d
                       (<[(u, peer) := role]> (t_conversation_roles d))).
    { unfold Database.set_role. rewrite (peer_truthy_nonzero peer Hpeer). reflexivity. }
    rewrite Hset. split; [ | split ].
    + intros Hne. apply in_get_staff; [ exact Hpeer | ]. cbn.
      rewrite lookup_insert_eq. auto.
    + intros -> [v nick r] Hin Hv. cbn in Hv. subst v.
      apply in_get_staff in Hin; [ | exact Hpeer ]. cbn in Hin.
      rewrite lookup_insert_eq in Hin. destruct Hin as (Hr & Hne & _).
      inversion Hr. congruence.
    + intros [v nick r] Hv. cbn in Hv.
      rewrite !in_get_staff by exact Hpeer. cbn.
      rewrite lookup_insert_ne by congruence. reflexivity.
  - intros u Hnone. split.
    + unfold Database.get_role. rewrite (peer_truthy_nonzero peer Hpeer), Hnone.
      reflexivity.
    + intros [v nick r] Hin Hv. cbn in Hv. subst v.
      apply in_get_staff in Hin; [ | exact Hpeer ].
      destruct Hin as (Hr & _). congruence.
Qed.

Lemma staff_list_of_conversation_witness :
  In (Database.mk_entry 40 None "admin") (Database.get_staff (Some chat) chat_staff).
Proof.
  apply (proj1 (staff_list_of_conversation chat_staff chat ltac:(discriminate))).
  repeat split. discriminate.
Defined.

(** ** The list of muted users *)

(** X10. The list of muted users at a time has an entry for a user exactly
    when the user has a row whose end of mute is later than that time; the
    entry carries the nickname and the end of the mute; the latest end comes
    first.  At a clock reading that is not negative, [is_muted] is true for
    exactly the users of that list. *)
Theorem muted_list_agrees_with_is_muted (d : DB) (now : Z) :
  (forall u nick mute_until,
      In (Database.mk_mute_entry u nick mute_until) (Database.get_muted_users now d) <->
      exists row, Database.get_user d u = Some row /\ u_nickname row = nick /\
                  u_mute_until row = mute_until /\ now < mute_until) /\
  descending Database.me_mute_until (Database.get_muted_users now d) /\
  (0 <= now ->
   forall u, In u (map Database.me_user_id (Database.get_muted_users now d))
             <-> now < Database.get_mute d u) /\
  (forall (E : env) (u : Z) (w : world),
      st_db w = d ->
      int_of_float (clock E (st_calls w)) = now ->
      0 <= now ->
      returns (Bot.is_muted E u) w
              (fun muted w' =>
                 (muted = true <->
                  In u (map Database.me_user_id (Database.get_muted_users now d))) /\
                 quiet w w')).
Proof.
  assert (Hin : forall u nick mute_until,
      In (Database.mk_mute_entry u nick mute_until) (Database.get_muted_users now d) <->
      exists row, Database.get_user d u = Some row /\ u_nickname row = nick /\
                  u_mute_until row = mute_until /\ now < mute_until).
  { intros u nick mute_until.
    unfold Database.get_muted_users, Database.users_rows, Database.get_user.
    rewrite in_map_iff. split.
    - intros ([v row] & Heq & Hv). apply in_order_by_desc, filter_In in Hv.
      destruct Hv as [Hv Hgt]. apply in_map_to_list in Hv. cbn in *.
      inversion Heq; subst. exists row. repeat split; auto. lia.
    - intros (row & Hrow & <- & <- & Hgt). exists (u, row). split; [ reflexivity | ].
      apply in_order_by_desc, filter_In. split; [ apply in_map_to_list, Hrow | ].
      cbn. lia. }
  assert (Hlist : 0 <= now ->
                  forall u, In u (map Database.me_user_id (Database.get_muted_users now d))
                            <-> now < Database.get_mute d u).
  { intros Hnow u. rewrite in_map_iff. unfold Database.get_mute. split.
    - intros ([v nick mu] & Hv & He). cbn in Hv. subst v. apply Hin in He.
      destruct He as (row & Hrow & _ & Hmu & Hgt).
      unfold Database.get_user in Hrow. rewrite Hrow, Hmu. exact Hgt.
    - intros Hgt. destruct (t_users d !! u) as [row|] eqn:Hrow; [ | lia ].
      exists (Database.mk_mute_entry u (u_nickname row) (u_mute_until row)).
      split; [ reflexivity | ]. apply Hin. exists row. auto. }
  split; [ exact Hin | ]. split.
  { unfold Database.get_muted_users.
    apply (descending_map
             (fun kv : Z * user_row =>
                Database.mk_mute_entry (fst kv) (u_nickname (snd kv))
                                       (u_mute_until (snd kv)))
             Database.me_mute_until).
    cbn. apply order_by_desc_descending. }
  split; [ exact Hlist | ].
  intros E u w Hd Hclock Hnow. subst d now.
  exists (Database.get_mute (st_db w) u >? int_of_float (clock E (st_calls w))), (tick w).
  split; [ reflexivity | ].
  - split; [ | apply quiet_tick ].
    rewrite (Hlist Hnow u). rewrite Z.gtb_ltb, Z.ltb_lt. reflexivity.
Qed.

Lemma muted_list_agrees_with_is_muted_witness :
  In 7 (map Database.me_user_id (Database.get_muted_users 100 muted_seven))
  <-> 100 < Database.get_mute muted_seven 7.
Proof.
  apply (proj1 (proj2 (proj2 (muted_list_agrees_with_is_muted muted_seven 100)))).
  lia.
Defined.

(** ** Deleting a message *)

(** X11. [delete_message] never raises and touches neither the store nor
    the cooldown map.  In a private conversation it makes one request.  In a
    group conversation (an id above 2000000000) it tries the three call
    shapes in a fixed order (by conversation message id, by a list of ids,
    by an id as text), each once, and stops at the first that the platform
    accepts; the result is the answer of the last request, so it is [False]
    only after all the shapes were refused. *)
Theorem delete_message_attempts (E : env) (peer message_id : Z) (w : world) :
  returns (Bot.delete_message E peer message_id) w
    (fun ok w' =>
       st_db w' = st_db w /\
       st_last_command_time w' = st_last_command_time w /\
       exists shapes,
         adds w w' (map (EvDelete peer message_id) shapes) /\
         st_calls w' = (st_calls w + length shapes)%nat /\
         (if peer >? 2000000000
          then exists rest, (shapes ++ rest)%list = [ByCmids; ByIdList; ByIdString]
          else shapes = [ByMessageIds]) /\
         shapes <> [] /\
         (forall i shape,
             shapes !! i = Some shape ->
             messages_delete E (st_calls w + i) peer message_id shape
             = if (S i =? length shapes)%nat then ok else false) /\
         (ok = false -> (peer >? 2000000000) = true -> length shapes = 3%nat)).
Proof.
  unfold returns, Bot.delete_message.
  destruct (peer >? 2000000000) eqn:Hgroup.
  - unfold Bot.try_delete, bind, emit, external, ret. cbn.
    destruct (messages_delete E (st_calls w) peer message_id ByCmids) eqn:H1.
    { eexists _, _. split; [ reflexivity | ]. cbn.
      split; [ reflexivity | ]. split; [ reflexivity | ].
      exists [ByCmids]. split; [ reflexivity | ]. split; [ cbn; lia | ].
      split; [ exists [ByIdList; ByIdString]; reflexivity | ].
      split; [ discriminate | ]. split; [ | discriminate ].
      intros [ | i ] shape Hs; cbn in Hs; [ | discriminate ].
      inversion Hs; subst. rewrite Nat.add_0_r. exact H1. }
    cbn.
    destruct (messages_delete E (S (st_calls w)) peer message_id ByIdList) eqn:H2.
    { eexists _, _. split; [ reflexivity | ]. cbn.
      split; [ reflexivity | ]. split; [ reflexivity | ].
      exists [ByCmids; ByIdList].
      split; [ unfold adds; cbn; rewrite <- app_assoc; reflexivity | ].
      split; [ cbn; lia | ].
      split; [ exists [ByIdString]; reflexivity | ].
      split; [ discriminate | ]. split; [ | discriminate ].
      intros [ | [ | i ] ] shape Hs; cbn in Hs; try discriminate;
        inversion Hs; subst; cbn.
      - rewrite Nat.add_0_r. exact H1.
      - rewrite Nat.add_1_r. exact H2. }
    eexists _, _. split; [ reflexivity | ]. cbn.
    split; [ reflexivity | ]. split; [ reflexivity | ].
    exists [ByCmids; ByIdList; ByIdString].
    split; [ unfold adds; cbn; rewrite <- !app_assoc; reflexivity | ].
    split; [ cbn; lia | ].
    split; [ exists []; reflexivity | ].
    split; [ discriminate | ]. split; [ | reflexivity ].
    intros [ | [ | [ | i ] ] ] shape Hs; cbn in Hs; try discriminate;
      inversion Hs; subst; cbn.
    + rewrite Nat.add_0_r. exact H1.
    + rewrite Nat.add_1_r. exact H2.
    + replace (st_calls w + 2)%nat with (S (S (st_calls w))) by lia. reflexivity.
  - unfold Bot.try_delete, bind, emit, external, ret. cbn.
    eexists _, _. split; [ reflexivity | ]. cbn.
    split; [ reflexivity | ]. split; [ reflexivity | ].
    exists [ByMessageIds]. split; [ reflexivity | ]. split; [ cbn; lia | ].
    split; [ reflexivity | ]. split; [ discriminate | ]. split; [ | discriminate ].
    intros [ | i ] shape Hs; cbn in Hs; [ | discriminate ].
    inversion Hs; subst. rewrite Nat.add_0_r. reflexivity.
Qed.

(** ** Audit entries *)

(** X12. [send_log_message] never raises and never writes to the store.
    Without a logging conversation it returns [False] at once, without a
    request to the platform.  With one, it sends at most one text, and only
    to the logging conversation: nothing when the profile of the acting user
    cannot be read (the request raises or the answer is empty), and otherwise
    the log text with the names of that profile, where a target whose
    profile cannot be read appears as "ID: <id>" and a missing target as
    "N/A".  The result is [True] exactly when the platform accepted the
    text.  A logging id that [int] rejects gives [False] and no text. *)
Theorem send_log_message_outcome (E : env) (C : config) (action : string)
        (admin_id : Z) (target_id peer_id : option Z) (det : option details)
        (w : world) :
  let entry := mk_audit action admin_id target_id peer_id det in
  let n := st_calls w in
  returns (Bot.send_log_message E C action admin_id target_id peer_id det) w
    (fun ok w' =>
       st_db w' = st_db w /\
       st_last_command_time w' = st_last_command_time w /\
       exists sent,
         adds w w' (EvAudit entry :: sent) /\
         (length sent <= 1)%nat /\
         (ok = true -> sent <> []) /\
         match log_peer_id C with
         | LogOff => ok = false /\ sent = [] /\ st_calls w' = n
         | LogInvalid => ok = false /\ sent = []
         | LogPeer lp =>
             match users_get E n (ById admin_id) with
             | Some (p :: _) =>
                 sent = [EvSend lp
                           (MsgLog entry (Bot.full_name p)
                                   (log_target_name E (S n) target_id)
                                   (clock E (n + log_lookups target_id)))] /\
                 ok = match messages_send E (S (n + log_lookups target_id)) lp with
                      | Some _ => true
                      | None => false
                      end
             | _ => ok = false /\ sent = []
             end
         end).
Proof.
  cbv zeta. unfold Bot.send_log_message, log_target_name, log_lookups.
  cbv beta delta [returns bind emit try_except Bot.first_profile Bot.vk_users_get
                    request Bot.name_or Bot.time_time external Bot.send_message ret
                    raise].
  cbn.
  destruct (log_peer_id C) as [ | lp | ].
  - eexists _, _. split; [ reflexivity | ]. cbn.
    split; [ reflexivity | ]. split; [ reflexivity | ].
    exists []. repeat split; try discriminate. cbn. lia.
  - cbn. destruct (users_get E (st_calls w) (ById admin_id)) as [[ | p l ] | ]; cbn.
    + eexists _, _. split; [ reflexivity | ]. cbn.
      split; [ reflexivity | ]. split; [ reflexivity | ].
      exists []. repeat split; try discriminate. cbn. lia.
    + destruct (Bot.truthy_id target_id) as [t|]; cbn.
      * destruct (users_get E (S (st_calls w)) (ById t)) as [[ | q l' ] | ]; cbn;
          (eexists _, _; split; [ reflexivity | ]; cbn;
           split; [ reflexivity | ]; split; [ reflexivity | ];
           eexists [_];
           split; [ unfold adds; cbn; rewrite <- app_assoc; reflexivity | ];
           split; [ cbn; lia | ]; split; [ discriminate | ];
           replace (st_calls w + 2)%nat with (S (S (st_calls w))) by lia;
           split; reflexivity).
      * eexists _, _. split; [ reflexivity | ]. cbn.
        split; [ reflexivity | ]. split; [ reflexivity | ].
        eexists [_].
        split; [ unfold adds; cbn; rewrite <- app_assoc; reflexivity | ].
        split; [ cbn; lia | ]. split; [ discriminate | ].
        replace (st_calls w + 1)%nat with (S (st_calls w)) by lia.
        split; reflexivity.
    + eexists _, _. split; [ reflexivity | ]. cbn.
      split; [ reflexivity | ]. split; [ reflexivity | ].
      exists []. repeat split; try discriminate. cbn. lia.
  - cbn. destruct (users_get E (st_calls w) (ById admin_id)) as [[ | p l ] | ]; cbn.
    + eexists _, _. split; [ reflexivity | ]. cbn.
      split; [ reflexivity | ]. split; [ reflexivity | ].
      exists []. repeat split; try discriminate. cbn. lia.
    + destruct (Bot.truthy_id target_id) as [t|]; cbn.
      * destruct (users_get E (S (st_calls w)) (ById t)) as [[ | q l' ] | ]; cbn;
          (eexists _, _; split; [ reflexivity | ]; cbn;
           split; [ reflexivity | ]; split; [ reflexivity | ];
           exists []; repeat split; try discriminate; cbn; lia).
      * eexists _, _. split; [ reflexivity | ]. cbn.
        split; [ reflexivity | ]. split; [ reflexivity | ].
        exists []. repeat split; try discriminate. cbn. lia.
    + eexists _, _. split; [ reflexivity | ]. cbn.
      split; [ reflexivity | ]. split; [ reflexivity | ].
      exists []. repeat split; try discriminate. cbn. lia.
Qed.

(** ** The dispatcher *)

(** X13. [execute_command] never raises, whatever the handler does.  For a
    name that is not registered it does nothing at all.  For a registered
    name it runs the handler exactly when the invoker is the owner that the
    platform designates or the role read for the conversation ranks at
    least the required role; otherwise the only effect is the no-rights
    text, and the store and the cooldown map are as before.  When the
    handler raises, what the handler did up to that point stays, and the
    conversation gets the error text. *)
Theorem execute_command_contains_failures (E : env) (C : config)
        (other : string -> Z -> Z -> string -> M unit)
        (name : string) (peer user : Z) (args : string) (w : world) :
  (Commands.required_role_of name = None
   <-> ~ In name (map fst Commands.registered)) /\
  returns (Commands.execute_command E C other name peer user args) w
    (fun _ w' =>
       match Commands.required_role_of name with
       | None => w' = w
       | Some required =>
           if Bot.same_user
                (Bot.owner_in (get_conversation_members E (st_calls w) peer)) user
              || Bot.check_access (st_db w) user required (Some peer)
           then
             match Commands.handler_of E C other name peer user args (tick w) with
             | (Ok _, w1) => w' = w1
             | (Raise _, w1) =>
                 st_db w' = st_db w1 /\
                 st_last_command_time w' = st_last_command_time w1 /\
                 adds w1 w' [EvSend peer MsgCommandError]
             end
           else
             st_db w' = st_db w /\
             st_last_command_time w' = st_last_command_time w /\
             adds w w' [EvSend peer (MsgNoRights user)]
       end).
Proof.
  split.
  - unfold Commands.required_role_of. rewrite <- list_elem_of_In.
    symmetry. apply not_elem_of_list_to_map.
  - unfold Commands.execute_command.
    destruct (Commands.required_role_of name) as [required|].
    2:{ apply returns_ret. reflexivity. }
    eapply returns_bind_run; [ apply has_rights_run | ].
    destruct (Bot.same_user _ user || Bot.check_access (st_db w) user required (Some peer));
      cbn [negb].
    + unfold returns, try_except.
      destruct (Commands.handler_of E C other name peer user args (tick w))
        as [[[] | e] w1].
      * eexists _, _. split; reflexivity.
      * eexists _, _. split; [ reflexivity | ]. repeat split.
    + eexists _, _. split; [ reflexivity | ]. repeat split.
Qed.

(** ** Removals from a conversation *)

(** X14. [cmd_kick] never writes to the store, and what it does is decided
    by the target that the arguments resolve to.  Without arguments or
    without a resolved target it sends one text.  For a target that the
    engine does not bind (a typed number outside the 64-bit range) the staff
    check raises [OverflowError] and nothing is sent or requested.  For a
    target that is protected from the actor (the staff protection on global
    roles) only the staff text is sent.  Otherwise the platform is asked
    once for the removal of that target, after the two requests for the
    displayed names: when it accepts, the confirmation and an audit attempt
    follow; when it refuses, the failure text is sent instead. *)
Theorem kick_removes_unprotected_only (E : env) (C : config) (peer actor : Z)
        (args : string) (w : world) :
  ends (Commands.cmd_kick E C peer actor args) w
    (fun r w' =>
       st_db w' = st_db w /\
       if Py.truthy args then
         match fst (Commands.resolve_target E args w) with
         | Ok (Some target) =>
             if Database.binds target then
               r = Ok tt /\
               if protected_from (st_db w) target actor then
                 exists user_name,
                   adds w w' [EvSend peer (MsgKickStaff target user_name)]
               else
                 let n := (st_calls (snd (Commands.resolve_target E args w)) + 2)%nat in
                 exists user_name admin_name,
                   if messages_remove_chat_user E n (peer - 2000000000) target then
                     exists log,
                       adds w w'
                            ([EvRemoveChatUser (peer - 2000000000) target;
                              EvSend peer (MsgKicked target user_name actor admin_name);
                              EvAudit (mk_audit "kick" actor (Some target) (Some peer)
                                                (Some DetKicked))] ++ log) /\
                       forallb is_log_send log = true /\ (length log <= 1)%nat
                   else
                     adds w w' [EvRemoveChatUser (peer - 2000000000) target;
                                EvSend peer (MsgKickFailed target user_name)]
             else r = Raise OverflowError /\ adds w w' []
         | _ => r = Ok tt /\ adds w w' [EvSend peer MsgUnresolved]
         end
       else r = Ok tt /\ adds w w' [EvSend peer MsgKickUsage]).
Proof.
  unfold Commands.cmd_kick.
  destruct (Py.truthy args); cbn [negb].
  2:{ eapply ends_of_returns; [ apply reply_returns | ]. cbv beta.
      intros [] w' [Hd Ht]. auto. }
  destruct (resolve_target_run E args w) as (target & w1 & Hrun & Hq1 & _).
  rewrite Hrun. cbn [fst snd].
  eapply ends_bind_run; [ exact Hrun | ].
  destruct target as [target|].
  2:{ eapply ends_of_returns;
        [ apply (reply_after E peer _ w w1 [] (st_db w));
          [ apply Hq1 | apply adds_nil_quiet, Hq1 ] | ].
      cbv beta. intros [] w' [Hd Ht]. auto. }
  step_ends name_or_calls. intros user_name w2 [Hq2 Hc2].
  step_ends name_or_calls. intros admin_name w3 [Hq3 Hc3].
  assert (Hn : st_calls w3 = (st_calls w1 + 2)%nat) by lia.
  pose proof (quiet_trans _ _ _ Hq1 (quiet_trans _ _ _ Hq2 Hq3)) as Hq.
  destruct Hq as (Hd3 & Hl3 & Ht3).
  destruct (Database.binds target) eqn:Hb.
  2:{ exists (Raise OverflowError), w3. split.
      - unfold bind. rewrite (binding_unbound _ _ _ Hb). reflexivity.
      - split; [ exact Hd3 | ]. split; [ reflexivity | ].
        unfold adds. rewrite Ht3, app_nil_r. reflexivity. }
  rewrite (binding_bound _ _ Hb).
  eapply ends_bind_run; [ apply staff_protected_run | ]. rewrite Hd3.
  destruct (protected_from (st_db w) target actor) eqn:Hprot.
  { eapply ends_of_returns;
      [ apply (reply_after E peer _ w w3 [] (st_db w));
        [ exact Hd3 | unfold adds; rewrite Ht3, app_nil_r; reflexivity ] | ].
    cbv beta. intros [] w' [Hd Ht]. split; [ exact Hd | ].
    split; [ reflexivity | ]. exists user_name. exact Ht. }
  apply ends_bind. eexists _, _. split; [ reflexivity | ]. cbn [st_calls].
  cbv zeta. rewrite <- Hn. set (n := st_calls w3).
  destruct (messages_remove_chat_user E n (peer - 2000000000) target) eqn:Hok.
  - step_ends send_message_returns. intros _ w5 [Hd5 Ht5].
    step_ends send_log_message_returns. intros _ w6 (Hd6 & log & Ht6 & Hlog & Hlen).
    exists (Ok tt), w6. split; [ reflexivity | ].
    cbn in Hd5. split; [ congruence | ]. split; [ reflexivity | ].
    exists user_name, admin_name, log.
    split; [ | split; assumption ].
    unfold adds in *. rewrite Ht6, Ht5. cbn. rewrite Ht3, <- !app_assoc. reflexivity.
  - eapply ends_of_returns; [ apply reply_returns | ]. cbv beta.
    intros [] w5 [Hd5 Ht5]. cbn in Hd5. split; [ congruence | ].
    split; [ reflexivity | ].
    exists user_name, admin_name.
    unfold adds in *. rewrite Ht5. cbn. rewrite Ht3, <- !app_assoc. reflexivity.
Qed.

(** the loop of [cmd_masskick] goes through the ids up to the first that the
    engine does not bind, where the staff check raises; it asks for the
    removal of those of them that are not protected, in order, and of nobody
    else, and counts at most one for each request *)
Lemma masskick_loop_ends (E : env) (peer actor : Z) (ids : list Z) (k : Z)
      (w : world) :
  ends (Commands.masskick_loop E peer actor ids k) w
    (fun r w' =>
       let kept :=
         List.filter (fun t => negb (protected_from (st_db w) t actor))
                     (bound_prefix ids) in
       st_db w' = st_db w /\
       adds w w' (map (EvRemoveChatUser (peer - 2000000000)) kept) /\
       if forallb Database.binds ids then
         exists k', r = Ok k' /\ k <= k' <= k + Z.of_nat (length kept)
       else r = Raise OverflowError).
Proof.
  revert k w. induction ids as [ | t rest IH ]; intros k w;
    cbn [Commands.masskick_loop bound_prefix forallb].
  - exists (Ok k), w. split; [ reflexivity | ]. cbn.
    split; [ reflexivity | ].
    split; [ unfold adds; rewrite app_nil_r; reflexivity | ].
    exists k. split; [ reflexivity | lia ].
  - destruct (Database.binds t) eqn:Hb; cbn [andb].
    2:{ exists (Raise OverflowError), w. split.
        - unfold bind. rewrite (binding_unbound _ _ _ Hb). reflexivity.
        - cbn. split; [ reflexivity | ].
          split; [ unfold adds; rewrite app_nil_r; reflexivity | reflexivity ]. }
    rewrite (binding_bound _ _ Hb).
    eapply ends_bind_run; [ apply staff_protected_run | ].
    cbn [List.filter].
    destruct (protected_from (st_db w) t actor); cbn [negb].
    + apply IH.
    + apply ends_bind. eexists _, _. split; [ reflexivity | ].
      eapply ends_weaken; [ apply IH | ]. cbv beta zeta. cbn [st_db st_trace].
      intros r w' (Hd & Ht & Hk). cbn in Hd, Ht, Hk. split; [ exact Hd | ].
      split.
      * unfold adds in *. rewrite Ht. cbn. rewrite <- app_assoc. reflexivity.
      * destruct (forallb Database.binds rest); [ | exact Hk ].
        destruct Hk as (k' & Hr & Hk). exists k'. split; [ exact Hr | ].
        cbn [length map].
        destruct (messages_remove_chat_user E (st_calls w) (peer - 2000000000) t); lia.
Qed.

(** X15. [cmd_masskick] never writes to the store.  The ids are the words
    of the arguments that [int] accepts; only the first 20 are considered.
    After the start text the handler goes through them in the order typed,
    up to the first that the engine does not bind, and asks the platform for
    the removal of exactly those that are not protected from the actor (the
    staff protection on global roles).  When the engine binds all of them,
    the handler then reports a count that is at most the number of these
    requests, with the number of ids considered as the total, and makes an
    audit attempt.  When it does not, the staff check of that id raises
    [OverflowError]: the removals requested so far stay requested, and
    neither the report nor an audit attempt follows.  Without an argument,
    or without a word that is a number, one text is sent. *)
Theorem masskick_is_bounded (E : env) (C : config) (peer actor : Z)
        (args : string) (w : world) :
  ends (Commands.cmd_masskick E C peer actor args) w
    (fun r w' =>
       st_db w' = st_db w /\
       if Py.truthy args then
         match omap Py.int_of (Py.split (Py.strip args)) with
         | [] => r = Ok tt /\ adds w w' [EvSend peer MsgMasskickNoIds]
         | typed =>
             let ids := firstn 20 typed in
             let total := Z.of_nat (length ids) in
             let kept :=
               List.filter (fun t => negb (protected_from (st_db w) t actor))
                           (bound_prefix ids) in
             (length ids <= 20)%nat /\
             if forallb Database.binds ids then
               r = Ok tt /\
               exists kicked_count log,
                 adds w w'
                      ([EvSend peer (MsgMasskickStart total)]
                       ++ map (EvRemoveChatUser (peer - 2000000000)) kept
                       ++ [EvSend peer (MsgMasskickDone kicked_count total);
                           EvAudit (mk_audit "masskick" actor None (Some peer)
                                             (Some (DetMasskick kicked_count total)))]
                       ++ log) /\
                 forallb is_log_send log = true /\ (length log <= 1)%nat /\
                 0 <= kicked_count <= Z.of_nat (length kept)
             else
               r = Raise OverflowError /\
               adds w w'
                    ([EvSend peer (MsgMasskickStart total)]
                     ++ map (EvRemoveChatUser (peer - 2000000000)) kept)
         end
       else r = Ok tt /\ adds w w' [EvSend peer MsgMasskickUsage]).
Proof.
  unfold Commands.cmd_masskick.
  destruct (Py.truthy args); cbn [negb].
  2:{ eapply ends_of_returns; [ apply reply_returns | ]. cbv beta.
      intros [] w' [Hd Ht]. auto. }
  cbv zeta.
  destruct (omap Py.int_of (Py.split (Py.strip args))) as [ | id0 ids0 ] eqn:Hids.
  { eapply ends_of_returns; [ apply reply_returns | ]. cbv beta.
    intros [] w' [Hd Ht]. auto. }
  set (ids := firstn 20 (id0 :: ids0)).
  assert (Hlen20 : (length ids <= 20)%nat) by (subst ids; rewrite length_firstn; lia).
  step_ends send_message_returns. intros _ w1 [Hd1 Ht1].
  destruct (masskick_loop_ends E peer actor ids 0 w1) as (r & w2 & Hloop & Hd2 & Ht2 & Hk).
  cbv zeta in Ht2, Hk. rewrite Hd1 in Ht2, Hk.
  destruct (forallb Database.binds ids).
  - destruct Hk as (k & -> & Hk).
    eapply ends_bind_run; [ exact Hloop | ].
    step_ends send_message_returns. intros _ w3 [Hd3 Ht3].
    step_ends send_log_message_returns. intros _ w4 (Hd4 & log & Ht4 & Hlog & Hlen).
    exists (Ok tt), w4. split; [ reflexivity | ].
    split; [ congruence | ]. split; [ exact Hlen20 | ]. split; [ reflexivity | ].
    exists k, log.
    split.
    { unfold adds in *. rewrite Ht4, Ht3, Ht2, Ht1. rewrite <- !app_assoc. reflexivity. }
    split; [ exact Hlog | ]. split; [ exact Hlen | lia ].
  - subst r. exists (Raise OverflowError), w2. split.
    + unfold bind. rewrite Hloop. reflexivity.
    + split; [ congruence | ]. split; [ exact Hlen20 | ]. split; [ reflexivity | ].
      unfold adds in *. rewrite Ht2, Ht1. rewrite <- !app_assoc. reflexivity.
Qed.

(** ** Mutes through the handlers *)





(** a duration whose end the engine does not bind: user 7 is not muted any
    longer than before, and the dispatcher answers with the error text *)
Example mute_with_unbound_end :
  let run := Commands.cmd_mute platform_up logging_off (fun _ => true) chat 10
               "7 99999999999999999999d spam" (mk_world muted_seven ∅ 0 []) in
  fst run = Raise OverflowError /\
  Database.get_mute (st_db (snd run)) 7 = 500 /\
  st_trace (snd run) = [EvStore (CallAddUser 7)].
Proof. vm_compute. repeat split; reflexivity. Qed.

(** X17. What [cmd_unmute] does is decided by the target that its
    arguments resolve to.  Without arguments or without a resolved target it
    sends one text and the store is as before.  For a target that the engine
    does not bind, [remove_mute] raises [OverflowError]: nothing is stored
    and nothing is sent.  For a bound target with a row in [users] it clears
    the end of the mute, sends the "mute lifted" text and makes an audit
    attempt, whether the target was muted or not; for a bound target without
    a row it changes nothing and sends the "was not muted" text. *)
Theorem unmute_reports_by_registration (E : env) (C : config) (peer actor : Z)
        (args : string) (w : world) :
  ends (Commands.cmd_unmute E C peer actor args) w
    (fun r w' =>
       if Py.truthy args then
         match fst (Commands.resolve_target E args w) with
         | Ok (Some target) =>
             if Database.binds target then
               r = Ok tt /\
               match Database.get_user (st_db w) target with
               | Some row =>
                   st_db w' = snd (Database.remove_mute target (st_db w)) /\
                   Database.get_mute (st_db w') target = 0 /\
                   exists log,
                     adds w w'
                          ([EvStore (CallRemoveMute target);
                            EvSend peer (MsgUnmuted target);
                            EvAudit (mk_audit "unmute" actor (Some target) (Some peer)
                                              (Some DetUnmuted))] ++ log) /\
                     forallb is_log_send log = true /\ (length log <= 1)%nat
               | None =>
                   st_db w' = st_db w /\
                   adds w w' [EvStore (CallRemoveMute target);
                              EvSend peer (MsgNotMuted target)]
               end
             else r = Raise OverflowError /\ st_db w' = st_db w /\ adds w w' []
         | _ => r = Ok tt /\ st_db w' = st_db w /\ adds w w' [EvSend peer MsgUnresolved]
         end
       else r = Ok tt /\ st_db w' = st_db w /\ adds w w' [EvSend peer MsgNeedUser]).
Proof.
  unfold Commands.cmd_unmute.
  destruct (Py.truthy args); cbn [negb].
  2:{ eapply ends_of_returns; [ apply reply_returns | ]. cbv beta.
      intros [] w' [Hd Ht]. auto. }
  destruct (resolve_target_run E args w) as (target & w1 & Hrun & Hq1 & _).
  rewrite Hrun. cbn [fst snd].
  eapply ends_bind_run; [ exact Hrun | ].
  destruct target as [target|].
  2:{ eapply ends_of_returns;
        [ apply (reply_after E peer _ w w1 [] (st_db w));
          [ apply Hq1 | apply adds_nil_quiet, Hq1 ] | ].
      cbv beta. intros [] w' [Hd Ht]. auto. }
  destruct Hq1 as (Hd1 & Hl1 & Ht1).
  destruct (Database.binds target) eqn:Hb.
  2:{ exists (Raise OverflowError), w1. split.
      - unfold bind. rewrite (binding_unbound _ _ _ Hb). reflexivity.
      - split; [ reflexivity | ]. split; [ exact Hd1 | ].
        unfold adds. rewrite Ht1, app_nil_r. reflexivity. }
  rewrite (binding_bound _ _ Hb).
  step_ends db_remove_mute_returns. intros success w2 (-> & Hd2 & Ht2).
  rewrite Hd1 in *.
  unfold Database.get_user.
  destruct (t_users (st_db w) !! target) as [row|] eqn:Hrow.
  - assert (Hfst : fst (Database.remove_mute target (st_db w)) = true)
      by (unfold Database.remove_mute; rewrite Hrow; reflexivity).
    rewrite Hfst.
    step_ends send_message_returns. intros _ w3 [Hd3 Ht3].
    step_ends send_log_message_returns. intros _ w4 (Hd4 & log & Ht4 & Hlog & Hlen).
    exists (Ok tt), w4. split; [ reflexivity | ]. split; [ reflexivity | ].
    assert (Hdb : st_db w4 = snd (Database.remove_mute target (st_db w)))
      by congruence.
    split; [ exact Hdb | ]. split; [ rewrite Hdb; apply get_mute_remove_mute | ].
    exists log. split; [ | auto ].
    unfold adds in *. rewrite Ht4, Ht3, Ht2, Ht1. rewrite <- !app_assoc. reflexivity.
  - assert (Hrm : Database.remove_mute target (st_db w) = (false, st_db w))
      by (unfold Database.remove_mute; rewrite Hrow; reflexivity).
    rewrite Hrm in *. cbn [fst snd] in *.
    eapply ends_of_returns; [ apply reply_returns | ]. cbv beta.
    intros [] w3 [Hd3 Ht3]. split; [ reflexivity | ].
    split; [ congruence | ].
    unfold adds in *. rewrite Ht3, Ht2, Ht1. rewrite <- !app_assoc. reflexivity.
Qed.

(** a typed number that the engine does not bind: nothing is unmuted and
    nothing is sent by the handler *)
Example unmute_of_unbound_number :
  let run := Commands.cmd_unmute platform_up logging_off chat 10
               "99999999999999999999" (mk_world muted_seven ∅ 0 []) in
  fst run = Raise OverflowError /\
  Database.get_mute (st_db (snd run)) 7 = 500 /\
  st_trace (snd run) = [].
Proof. vm_compute. repeat split; reflexivity. Qed.

(** ** Roles through the handlers *)

Lemma set_role_in_conversation (u : Z) (role : string) (peer : Z) (d : DB) :
  peer <> 0 ->
  Database.set_role u role (Some peer) d
  = (true, Database.with_conversation_roles d
             (<[(u, peer) := role]> (t_conversation_roles d))).
Proof.
  intros Hpeer. unfold Database.set_role. rewrite (peer_truthy_nonzero peer Hpeer).
  reflexivity.
Qed.

Lemma get_role_after_set_role (u : Z) (role : string) (peer : Z) (d : DB) :
  peer <> 0 ->
  Database.get_role (snd (Database.set_role u role (Some peer) d)) u (Some peer) = role.
Proof.
  intros Hpeer. rewrite (set_role_in_conversation u role peer d Hpeer). cbn [snd].
  unfold Database.get_role. rewrite (peer_truthy_nonzero peer Hpeer). cbn.
  rewrite lookup_insert_eq. reflexivity.
Qed.

Lemma global_role_add_user (now u v : Z) (d : DB) :
  Database.global_role (Database.add_user now u d) v = Database.global_role d v.
Proof.
  unfold Database.add_user, Database.global_role.
  destruct (t_users d !! u) as [r|] eqn:Hr; [ reflexivity | ]. cbn.
  destruct (Z.eq_dec u v) as [-> | Hne].
  - rewrite lookup_insert_eq, Hr. reflexivity.
  - rewrite lookup_insert_ne by assumption. reflexivity.
Qed.

(** the handler of the three promotions, for a role and a conversation *)
Lemma add_role_ends (E : env) (C : config) (role : string) (peer actor : Z)
      (args : string) (w : world) :
  peer <> 0 ->
  ends (Commands.add_role E C role peer actor args) w
    (fun r w' =>
       if Py.truthy args then
         match fst (Commands.resolve_target E args w) with
         | Ok (Some target) =>
             if Database.binds target then
               r = Ok tt /\
               exists n user_name log,
                 st_db w' = snd (Database.set_role target role (Some peer)
                                   (Database.add_user (int_of_float (clock E n)) target
                                                      (st_db w))) /\
                 adds w w'
                      ([EvStore (CallAddUser target);
                        EvStore (CallSetRole target role (Some peer));
                        EvSend peer (MsgPromoted role target user_name);
                        EvAudit (mk_audit "set_role" actor (Some target) (Some peer)
                                          (Some (DetPromoted role)))] ++ log) /\
                 forallb is_log_send log = true /\ (length log <= 1)%nat
             else r = Raise OverflowError /\ st_db w' = st_db w /\ adds w w' []
         | _ => r = Ok tt /\ st_db w' = st_db w /\ adds w w' [EvSend peer MsgUnresolved]
         end
       else r = Ok tt /\ st_db w' = st_db w /\ adds w w' [EvSend peer MsgNeedUser]).
Proof.
  intros Hpeer. unfold Commands.add_role.
  destruct (Py.truthy args); cbn [negb].
  2:{ eapply ends_of_returns; [ apply reply_returns | ]. cbv beta.
      intros [] w' [Hd Ht]. auto. }
  destruct (resolve_target_run E args w) as (target & w1 & Hrun & Hq1 & _).
  rewrite Hrun. cbn [fst].
  eapply ends_bind_run; [ exact Hrun | ].
  destruct target as [target|].
  2:{ eapply ends_of_returns;
        [ apply (reply_after E peer _ w w1 [] (st_db w));
          [ apply Hq1 | apply adds_nil_quiet, Hq1 ] | ].
      cbv beta. intros [] w' [Hd Ht]. auto. }
  destruct Hq1 as (Hd1 & Hl1 & Ht1).
  destruct (Database.binds target) eqn:Hb.
  2:{ exists (Raise OverflowError), w1. split.
      - unfold bind. rewrite (binding_unbound _ _ _ Hb). reflexivity.
      - split; [ reflexivity | ]. split; [ exact Hd1 | ].
        unfold adds. rewrite Ht1, app_nil_r. reflexivity. }
  rewrite (binding_bound _ _ Hb).
  step_ends db_add_user_returns. intros _ w2 [Hd2 Ht2].
  step_ends name_or_returns. intros user_name w3 (Hd3 & Hl3 & Ht3).
  step_ends db_set_role_returns. intros success w4 (-> & Hd4 & Ht4).
  rewrite Hd3, Hd2, Hd1 in *.
  rewrite (set_role_in_conversation target role peer _ Hpeer) in *. cbn [fst snd] in *.
  step_ends send_message_returns. intros _ w5 [Hd5 Ht5].
  step_ends send_log_message_returns. intros _ w6 (Hd6 & log & Ht6 & Hlog & Hlen).
  exists (Ok tt), w6. split; [ reflexivity | ]. split; [ reflexivity | ].
  exists (st_calls w1), user_name, log.
  split; [ rewrite (set_role_in_conversation target role peer _ Hpeer); cbn [snd];
           congruence | ].
  split; [ | auto ].
  unfold adds in *. rewrite Ht6, Ht5, Ht4, Ht3, Ht2, Ht1. rewrite <- !app_assoc.
  reflexivity.
Qed.

(** X18. What the three promotions ([cmd_addmoder], [cmd_addsenmoder],
    [cmd_addadmin]) do is decided by the target that the arguments resolve
    to.  For a target that the engine binds, the handler registers the
    target if needed and stores the role of the command as the role of the
    target in the conversation, whatever role the target held there before,
    a higher one included; the role that the checks of the conversation read
    for the target is then the role of the command, and the global role of
    every user and every other stored override are as before.  The failure
    text of these handlers is never sent.  For a target that the engine does
    not bind, [add_user] raises [OverflowError]: nothing is stored and
    nothing is sent.  Without a resolved target one text is sent and the
    store is unchanged. *)
Theorem promotion_overwrites (E : env) (C : config)
        (cmd : Z -> Z -> string -> M unit) (role : string)
        (peer actor : Z) (args : string) (w : world) :
  In (cmd, role) [(Commands.cmd_addmoder E C, "moderator");
                  (Commands.cmd_addsenmoder E C, "senior_moderator");
                  (Commands.cmd_addadmin E C, "admin")] ->
  peer <> 0 ->
  ends (cmd peer actor args) w
    (fun r w' =>
       if Py.truthy args then
         match fst (Commands.resolve_target E args w) with
         | Ok (Some target) =>
             if Database.binds target then
               r = Ok tt /\
               Database.get_role (st_db w') target (Some peer) = role /\
               Database.get_user (st_db w') target <> None /\
               (forall v, Database.global_role (st_db w') v
                          = Database.global_role (st_db w) v) /\
               (forall v p, (v, p) <> (target, peer) ->
                            t_conversation_roles (st_db w') !! (v, p)
                            = t_conversation_roles (st_db w) !! (v, p)) /\
               exists user_name log,
                 adds w w'
                      ([EvStore (CallAddUser target);
                        EvStore (CallSetRole target role (Some peer));
                        EvSend peer (MsgPromoted role target user_name);
                        EvAudit (mk_audit "set_role" actor (Some target) (Some peer)
                                          (Some (DetPromoted role)))] ++ log) /\
                 forallb is_log_send log = true /\ (length log <= 1)%nat
             else r = Raise OverflowError /\ st_db w' = st_db w /\ adds w w' []
         | _ => r = Ok tt /\ st_db w' = st_db w /\ adds w w' [EvSend peer MsgUnresolved]
         end
       else r = Ok tt /\ st_db w' = st_db w /\ adds w w' [EvSend peer MsgNeedUser]).
Proof.
  intros Hcmd Hpeer.
  assert (Heq : cmd = Commands.add_role E C role).
  { cbn in Hcmd. destruct Hcmd as [H | [H | [H | []]]]; inversion H; reflexivity. }
  subst cmd.
  eapply ends_weaken; [ apply (add_role_ends E C role peer actor args w Hpeer) | ].
  cbv beta. intros r w'.
  destruct (Py.truthy args); [ | auto ].
  destruct (fst (Commands.resolve_target E args w)) as [[target|]|]; auto.
  destruct (Database.binds target); [ | auto ].
  intros (Hr & n & user_name & log & Hd & Ht & Hlog).
  split; [ exact Hr | ].
  rewrite Hd. rewrite (set_role_in_conversation target role peer _ Hpeer). cbn [snd].
  split.
  { unfold Database.get_role. rewrite (peer_truthy_nonzero peer Hpeer). cbn.
    rewrite lookup_insert_eq. reflexivity. }
  split.
  { unfold Database.get_user. cbn.
    destruct (add_user_registers (int_of_float (clock E n)) target (st_db w))
      as (row & Hrow & _).
    rewrite Hrow. discriminate. }
  split.
  { intros v. unfold Database.global_role at 1. cbn.
    fold (Database.global_role
            (Database.add_user (int_of_float (clock E n)) target (st_db w)) v).
    apply global_role_add_user. }
  split.
  { intros v p Hne. cbn. rewrite lookup_insert_ne by congruence.
    unfold Database.add_user. destruct (t_users (st_db w) !! target); reflexivity. }
  exists user_name, log. split; [ exact Ht | exact Hlog ].
Qed.

Lemma promotion_overwrites_witness :
  Database.get_role chat_with_creator 20 (Some chat) = "creator" /\
  ends (Commands.cmd_addmoder platform_up logging_off chat 10 "20")
       (mk_world chat_with_creator ∅ 0 [])
       (fun r w' => r = Ok tt /\
                    Database.get_role (st_db w') 20 (Some chat) = "moderator").
Proof.
  split; [ reflexivity | ].
  eapply ends_weaken.
  - apply (promotion_overwrites platform_up logging_off
             (Commands.cmd_addmoder platform_up logging_off) "moderator"
             chat 10 "20" (mk_world chat_with_creator ∅ 0 [])).
    + left. reflexivity.
    + discriminate.
  - cbv beta. intros r w' H. vm_compute in H. split; apply H.
Defined.

(** a typed number that the engine does not bind *)
Example promotion_of_unbound_number :
  let run := Commands.cmd_addadmin platform_up logging_off chat 10
               "99999999999999999999" (mk_world chat_with_creator ∅ 0 []) in
  fst run = Raise OverflowError /\
  st_db (snd run) = chat_with_creator /\
  st_trace (snd run) = [].
Proof. vm_compute. repeat split; reflexivity. Qed.

Lemma utils_rank_nonneg (role : string) : 0 <= Utils.rank role.
Proof.
  unfold Utils.rank, Utils.ROLE_HIERARCHY.
  destruct (list_to_map _ !! role) as [z|] eqn:Hz; cbn; [ | lia ].
  apply elem_of_list_to_map_2, list_elem_of_In in Hz. cbn in Hz.
  repeat (destruct Hz as [Hz | Hz]; [ inversion Hz; lia | ]). contradiction.
Qed.

Lemma utils_rank_user : Utils.rank "user" = 0.
Proof. reflexivity. Qed.

(** X19. What [cmd_removerole] does is decided by the target that its
    arguments resolve to.  It changes the store only for a target that the
    engine binds, whose role read for the conversation is not "user" and
    ranks strictly below the role read for the invoker in the hierarchy of
    [utils.py]; the change is then that the override of the target in that
    conversation becomes "user", so the role read for the target there is
    "user" afterwards, and no row of [users] is touched.  A target of the
    same or a higher rank keeps the role, and an invoker whose role read for
    the conversation is "user" (a conversation owner without a stored role,
    for instance) removes no role at all.  In these cases one text is sent
    and the store is unchanged.  For a target that the engine does not bind,
    [get_role] raises [OverflowError]: nothing is stored and nothing is
    sent. *)
Theorem removerole_needs_higher_rank (E : env) (C : config) (peer actor : Z)
        (args : string) (w : world) :
  peer <> 0 ->
  ends (Commands.cmd_removerole E C peer actor args) w
    (fun r w' =>
       if Py.truthy args then
         match fst (Commands.resolve_target E args w) with
         | Ok (Some target) =>
             let target_role := Database.get_role (st_db w) target (Some peer) in
             let initiator_role := Database.get_role (st_db w) actor (Some peer) in
             target <> 0 /\
             if negb (Database.binds target) then
               r = Raise OverflowError /\ st_db w' = st_db w /\ adds w w' []
             else if String.eqb target_role "user" then
               r = Ok tt /\
               st_db w' = st_db w /\ adds w w' [EvSend peer (MsgNoSpecialRole target)]
             else if Utils.rank target_role >=? Utils.rank initiator_role then
               r = Ok tt /\
               st_db w' = st_db w /\ adds w w' [EvSend peer MsgRankTooLow]
             else
               r = Ok tt /\
               Utils.rank target_role < Utils.rank initiator_role /\
               initiator_role <> "user" /\
               st_db w' = snd (Database.set_role target "user" (Some peer) (st_db w)) /\
               Database.get_role (st_db w') target (Some peer) = "user" /\
               t_users (st_db w') = t_users (st_db w) /\
               exists user_name log,
                 adds w w'
                      ([EvStore (CallSetRole target "user" (Some peer));
                        EvSend peer (MsgRoleRemoved target user_name);
                        EvAudit (mk_audit "remove_role" actor (Some target)
                                          (Some peer)
                                          (Some (DetRoleRemoved target_role)))]
                       ++ log) /\
                 forallb is_log_send log = true /\ (length log <= 1)%nat
         | _ => r = Ok tt /\ st_db w' = st_db w /\ adds w w' [EvSend peer MsgUnresolved]
         end
       else r = Ok tt /\ st_db w' = st_db w /\ adds w w' [EvSend peer MsgNeedUser]).
Proof.
  intros Hpeer. unfold Commands.cmd_removerole.
  destruct (Py.truthy args); cbn [negb].
  2:{ eapply ends_of_returns; [ apply reply_returns | ]. cbv beta.
      intros [] w' [Hd Ht]. auto. }
  destruct (resolve_target_run E args w) as (target & w1 & Hrun & Hq1 & Hnz).
  rewrite Hrun. cbn [fst].
  eapply ends_bind_run; [ exact Hrun | ].
  destruct target as [target|].
  2:{ eapply ends_of_returns;
        [ apply (reply_after E peer _ w w1 [] (st_db w));
          [ apply Hq1 | apply adds_nil_quiet, Hq1 ] | ].
      cbv beta. intros [] w' [Hd Ht]. auto. }
  specialize (Hnz target eq_refl). destruct Hq1 as (Hd1 & Hl1 & Ht1).
  assert (Hnil : adds w w1 []) by (unfold adds; rewrite Ht1, app_nil_r; reflexivity).
  cbv zeta.
  destruct (Database.binds target) eqn:Hb; cbn [negb].
  2:{ exists (Raise OverflowError), w1. split.
      - unfold bind. rewrite (binding_unbound _ _ _ Hb). reflexivity.
      - split; [ exact Hnz | ]. split; [ reflexivity | ]. split; assumption. }
  rewrite (binding_bound _ _ Hb).
  eapply ends_bind_run; [ reflexivity | ]. rewrite Hd1.
  destruct (String.eqb (Database.get_role (st_db w) target (Some peer)) "user") eqn:Huser.
  { eapply ends_of_returns;
      [ apply (reply_after E peer _ w w1 [] (st_db w)); [ exact Hd1 | exact Hnil ] | ].
    cbv beta. intros [] w' H. split; [ exact Hnz | ]. split; [ reflexivity | exact H ]. }
  eapply ends_bind_run; [ reflexivity | ]. rewrite Hd1.
  destruct (Utils.rank (Database.get_role (st_db w) target (Some peer))
            >=? Utils.rank (Database.get_role (st_db w) actor (Some peer))) eqn:Hrank.
  { eapply ends_of_returns;
      [ apply (reply_after E peer _ w w1 [] (st_db w)); [ exact Hd1 | exact Hnil ] | ].
    cbv beta. intros [] w' H. split; [ exact Hnz | ]. split; [ reflexivity | exact H ]. }
  step_ends name_or_returns. intros user_name w2 (Hd2 & Hl2 & Ht2).
  step_ends db_set_role_returns. intros success w3 (-> & Hd3 & Ht3).
  rewrite Hd2, Hd1 in *.
  rewrite (set_role_in_conversation target "user" peer _ Hpeer) in *. cbn [fst snd] in *.
  step_ends send_message_returns. intros _ w4 [Hd4 Ht4].
  step_ends send_log_message_returns. intros _ w5 (Hd5 & log & Ht5 & Hlog & Hlen).
  exists (Ok tt), w5. split; [ reflexivity | ].
  split; [ exact Hnz | ]. split; [ reflexivity | ].
  assert (Hlt : Utils.rank (Database.get_role (st_db w) target (Some peer))
                < Utils.rank (Database.get_role (st_db w) actor (Some peer))).
  { rewrite Z.geb_leb in Hrank. apply Z.leb_gt in Hrank. exact Hrank. }
  split; [ exact Hlt | ].
  split.
  { intros Hu. rewrite Hu, utils_rank_user in Hlt.
    pose proof (utils_rank_nonneg (Database.get_role (st_db w) target (Some peer))).
    lia. }
  assert (Hdb : st_db w5
                = Database.with_conversation_roles (st_db w)
                    (<[(target, peer) := "user"]> (t_conversation_roles (st_db w))))
    by congruence.
  rewrite ?(set_role_in_conversation target "user" peer _ Hpeer). cbn [snd].
  split; [ exact Hdb | ].
  split.
  { rewrite Hdb. unfold Database.get_role. rewrite (peer_truthy_nonzero peer Hpeer).
    cbn. rewrite lookup_insert_eq. reflexivity. }
  split; [ rewrite Hdb; reflexivity | ].
  exists user_name, log. split; [ | auto ].
  unfold adds in *. rewrite Ht5, Ht4, Ht3, Ht2, Ht1. rewrite <- !app_assoc. reflexivity.
Qed.

Lemma removerole_needs_higher_rank_witness :
  ends (Commands.cmd_removerole platform_up logging_off chat 30 "40")
       (mk_world chat_staff ∅ 0 [])
       (fun r w' => r = Ok tt /\ st_db w' = chat_staff /\
                    adds (mk_world chat_staff ∅ 0 []) w' [EvSend chat MsgRankTooLow]).
Proof.
  eapply ends_weaken.
  - apply (removerole_needs_higher_rank platform_up logging_off chat 30 "40"
             (mk_world chat_staff ∅ 0 [])).
    discriminate.
  - cbv beta. intros r w' H. vm_compute in H. apply H.
Defined.

(** ** Activation *)

(** X20. [cmd_start] returns.  In a conversation (an id other than 0) whose
    staff list is not empty it only sends the already-active text.  With an
    empty staff list and an invoker whom the platform designates as the
    owner, it stores "creator" as the role of the invoker in the
    conversation; the staff list is not empty afterwards, so every later
    [cmd_start] in the conversation is answered with the already-active text
    as long as it stays so.  With an empty staff list and another invoker,
    nothing is stored: the activation text is sent when the global role of
    the invoker ranks at least "creator", and the failure text otherwise. *)
Theorem start_activates_once (E : env) (C : config) (peer actor : Z)
        (args : string) (w : world) :
  peer <> 0 ->
  returns (Commands.cmd_start E C peer actor args) w
    (fun _ w' =>
       match Database.get_staff (Some peer) (st_db w) with
       | _ :: _ => st_db w' = st_db w /\ adds w w' [EvSend peer MsgAlreadyActive]
       | [] =>
           if Bot.same_user
                (Bot.owner_in (get_conversation_members E (st_calls w) peer)) actor
           then
             st_db w' = snd (Database.set_role actor "creator" (Some peer) (st_db w)) /\
             Database.get_role (st_db w') actor (Some peer) = "creator" /\
             Database.get_staff (Some peer) (st_db w') <> [] /\
             exists user_name log,
               adds w w'
                    ([EvStore (CallSetRole actor "creator" (Some peer));
                      EvSend peer (MsgActivatedOwner actor user_name);
                      EvAudit (mk_audit "start" actor None (Some peer)
                                        (Some DetStartOwner))] ++ log) /\
               forallb is_log_send log = true /\ (length log <= 1)%nat
           else if Bot.check_access (st_db w) actor "creator" None then
             st_db w' = st_db w /\
             exists log,
               adds w w'
                    ([EvSend peer MsgActivated;
                      EvAudit (mk_audit "start" actor None (Some peer)
                                        (Some DetStartAdmin))] ++ log) /\
               forallb is_log_send log = true /\ (length log <= 1)%nat
           else
             st_db w' = st_db w /\
             exists user_name,
               adds w w' [EvSend peer (MsgActivationFailed actor user_name)]
       end).
Proof.
  intros Hpeer. unfold Commands.cmd_start.
  apply returns_bind. eexists _, _. split; [ reflexivity | ]. cbv beta.
  apply returns_bind. eexists _, _. split; [ reflexivity | ]. cbv beta.
  cbn [st_db tick].
  set (w1 := tick w).
  assert (Hd1 : st_db w1 = st_db w) by reflexivity.
  assert (Ht1 : adds w w1 []) by (unfold adds; cbn; rewrite app_nil_r; reflexivity).
  destruct (Database.get_staff (Some peer) (st_db w)) as [ | e staff ] eqn:Hstaff.
  2:{ apply (reply_after E peer _ w w1 [] (st_db w)); assumption. }
  apply returns_bind. eexists _, _. split; [ reflexivity | ]. cbv beta.
  rewrite Hd1.
  destruct (Bot.same_user (Bot.owner_in (get_conversation_members E (st_calls w) peer))
                          actor) eqn:Howner; cbn [orb].
  - step name_or_returns. intros user_name w2 (Hd2 & Hl2 & Ht2).
    step db_set_role_returns. intros success w3 (_ & Hd3 & Ht3).
    rewrite Hd2, Hd1 in *.
    step send_message_returns. intros _ w4 [Hd4 Ht4].
    step send_log_message_returns. intros _ w5 (Hd5 & log & Ht5 & Hlog & Hlen).
    apply returns_ret.
    assert (Hdb : st_db w5
                  = snd (Database.set_role actor "creator" (Some peer) (st_db w)))
      by congruence.
    split; [ exact Hdb | ].
    split; [ rewrite Hdb; apply get_role_after_set_role, Hpeer | ].
    split.
    { rewrite Hdb. intros Hnil.
      assert (Hin : In (Database.mk_entry actor (Database.joined_nickname (st_db w) actor)
                                          "creator")
                       (Database.get_staff (Some peer)
                          (snd (Database.set_role actor "creator" (Some peer) (st_db w))))).
      { rewrite (set_role_in_conversation actor "creator" peer _ Hpeer). cbn [snd].
        apply in_get_staff; [ exact Hpeer | ]. cbn. rewrite lookup_insert_eq.
        repeat split. discriminate. }
      rewrite Hnil in Hin. contradiction. }
    exists user_name, log. split; [ | auto ].
    unfold adds in *. rewrite Ht5, Ht4, Ht3, Ht2. cbn. rewrite <- !app_assoc. reflexivity.
  - destruct (Bot.check_access (st_db w) actor "creator" None) eqn:Hcreator.
    + step name_or_returns. intros user_name w2 (Hd2 & Hl2 & Ht2).
      step send_message_returns. intros _ w3 [Hd3 Ht3].
      step send_log_message_returns. intros _ w4 (Hd4 & log & Ht4 & Hlog & Hlen).
      apply returns_ret. split; [ congruence | ].
      exists log. split; [ | auto ].
      unfold adds in *. rewrite Ht4, Ht3, Ht2. cbn. rewrite <- !app_assoc. reflexivity.
    + step name_or_returns. intros user_name w2 (Hd2 & Hl2 & Ht2).
      eapply returns_weaken; [ apply reply_returns | ]. cbv beta.
      intros _ w3 [Hd3 Ht3]. split; [ congruence | ].
      exists user_name. unfold adds in *. rewrite Ht3, Ht2. reflexivity.
Qed.

Lemma start_activates_once_witness :
  returns (Commands.cmd_start platform_up logging_off chat 10 "")
          (mk_world Database.init_db ∅ 0 [])
          (fun _ w' => Database.get_role (st_db w') 10 (Some chat) = "creator" /\
                       Database.get_staff (Some chat) (st_db w') <> []).
Proof.
  eapply returns_weaken.
  - apply (start_activates_once platform_up logging_off chat 10 ""
             (mk_world Database.init_db ∅ 0 [])).
    discriminate.
  - cbv beta. intros _ w' H.
    change (Database.get_staff (Some chat) (st_db (mk_world Database.init_db ∅ 0 [])))
      with (@nil Database.user_entry) in H.
    change (Bot.same_user
              (Bot.owner_in (get_conversation_members platform_up
                               (st_calls (mk_world Database.init_db ∅ 0 [])) chat)) 10)
      with true in H.
    cbv beta iota in H. destruct H as (_ & Hrole & Hstaff & _). auto.
Defined.

(** ** Nicknames through the handlers *)

(** X21. What [cmd_setnick] does is decided by its arguments.  When they
    have a first word that [int] accepts, a number that the engine binds,
    and a further text, the handler registers the target if needed and
    stores the further text as its nickname; the row of no other user
    changes, and the failure text of the handler is never sent.  When the
    engine does not bind the number, [add_user] raises [OverflowError]:
    nothing is stored and nothing is sent.  Without a second part the usage
    text is sent, and with a first word that is not a number the bad-id
    text; the store is then unchanged. *)
Theorem setnick_registers_target (E : env) (peer actor : Z) (args : string)
        (w : world) :
  ends (Commands.cmd_setnick E peer actor args) w
    (fun r w' =>
       if Commands.lacks_second_part args then
         r = Ok tt /\ st_db w' = st_db w /\ adds w w' [EvSend peer MsgSetnickUsage]
       else
         match Py.split_space1 (Py.strip args) with
         | (id_text, Some nickname) =>
             match Py.int_of id_text with
             | Some target =>
                 if Database.binds target then
                   r = Ok tt /\
                   (exists row,
                       Database.get_user (st_db w') target = Some row /\
                       u_nickname row = Some nickname /\
                       forall row0,
                         Database.get_user (st_db w) target = Some row0 ->
                         row = Database.set_nickname_of row0 (Some nickname)) /\
                   (forall v, v <> target ->
                              Database.get_user (st_db w') v
                              = Database.get_user (st_db w) v) /\
                   adds w w' [EvStore (CallAddUser target);
                              EvStore (CallSetNickname target nickname);
                              EvSend peer (MsgNickSet target nickname)]
                 else
                   r = Raise OverflowError /\ st_db w' = st_db w /\ adds w w' []
             | None =>
                 r = Ok tt /\ st_db w' = st_db w /\ adds w w' [EvSend peer MsgBadUserId]
             end
         | (_, None) =>
             r = Ok tt /\ st_db w' = st_db w /\ adds w w' [EvSend peer MsgBadUserId]
         end).
Proof.
  assert (Hreply : forall m,
             ends (Bot.send_message E peer m >> skip) w
                  (fun r w' => r = Ok tt /\ st_db w' = st_db w /\
                               adds w w' [EvSend peer m])).
  { intros m. eapply ends_of_returns; [ apply reply_returns | ]. cbv beta.
    intros [] w' [Hd Ht]. auto. }
  unfold Commands.cmd_setnick.
  destruct (Commands.lacks_second_part args); [ apply Hreply | ].
  destruct (Py.split_space1 (Py.strip args)) as [id_text [nickname|]];
    [ | apply Hreply ].
  destruct (Py.int_of id_text) as [target|]; [ | apply Hreply ].
  destruct (Database.binds target) eqn:Hb.
  2:{ exists (Raise OverflowError), w. split.
      - unfold bind. rewrite (binding_unbound _ _ _ Hb). reflexivity.
      - split; [ reflexivity | ]. split; [ reflexivity | ].
        unfold adds. rewrite app_nil_r. reflexivity. }
  rewrite (binding_bound _ _ Hb).
  step_ends db_add_user_returns. intros _ w1 [Hd1 Ht1].
  step_ends db_set_nickname_returns. intros done w2 (-> & Hd2 & Ht2).
  rewrite Hd1 in *.
  set (now := int_of_float (clock E (st_calls w))) in *.
  destruct (add_user_registers now target (st_db w)) as (row & Hrow & _).
  assert (Hset : Database.set_nickname target nickname
                   (Database.add_user now target (st_db w))
                 = (true,
                    Database.with_users (Database.add_user now target (st_db w))
                      (<[target := Database.set_nickname_of row (Some nickname)]>
                         (t_users (Database.add_user now target (st_db w)))))).
  { unfold Database.set_nickname. rewrite Hrow. reflexivity. }
  rewrite Hset in *. cbn [fst snd] in *.
  eapply ends_of_returns; [ apply reply_returns | ]. cbv beta.
  intros [] w3 [Hd3 Ht3]. split; [ reflexivity | ].
  rewrite Hd3, Hd2. unfold Database.get_user. cbn [t_users Database.with_users].
  split; [ | split ].
  - exists (Database.set_nickname_of row (Some nickname)).
    rewrite lookup_insert_eq. split; [ reflexivity | ]. split; [ reflexivity | ].
    intros row0 Hrow0. f_equal.
    rewrite (add_user_registered now target (st_db w) row0 Hrow0) in Hrow. congruence.
  - intros v Hv. rewrite lookup_insert_ne by congruence.
    unfold Database.add_user. destruct (t_users (st_db w) !! target) eqn:Ht; [ reflexivity | ].
    cbn. rewrite lookup_insert_ne by congruence. reflexivity.
  - unfold adds in *. rewrite Ht3, Ht2, Ht1. rewrite <- !app_assoc. reflexivity.
Qed.

(** a typed number that the engine does not bind *)
Example setnick_of_unbound_number :
  let run := Commands.cmd_setnick platform_up chat 10 "99999999999999999999 nick"
               (mk_world muted_seven ∅ 0 []) in
  fst run = Raise OverflowError /\
  st_db (snd run) = muted_seven /\
  st_trace (snd run) = [].
Proof. vm_compute. repeat split; reflexivity. Qed.

(** ** The list of inactive users *)

Lemma inactive_days_positive (args : string) : 1 <= Commands.inactive_days args.
Proof.
  unfold Commands.inactive_days. destruct (Py.truthy args); [ | lia ].
  destruct (Py.int_of (Py.strip args)); lia.
Qed.

Lemma db_get_inactive_users_run (E : env) (days : Z) (w : world) :
  Bot.db_get_inactive_users E days w
  = (if Database.binds (int_of_float (clock E (st_calls w)) - days * 86400)
     then Ok (Database.get_inactive_users (int_of_float (clock E (st_calls w))) days
                                          (st_db w))
     else Raise OverflowError,
     tick w).
Proof.
  unfold Bot.db_get_inactive_users, Bot.binding, bind, Bot.int_time, Bot.time_time,
    external, get_db, ret, raise. cbn.
  destruct (Database.binds _); reflexivity.
Qed.

(** X22. [cmd_inactivelist] cannot show a list.  The threshold in days is
    the argument, at least 1, and 30 without an argument or with one that is
    not a number.  The handler never stores and sends at most the text that
    there is no inactive user: when the engine does not bind the threshold
    (the clock reading minus the days in seconds), [get_inactive_users]
    raises [OverflowError]; when it returns no user, the handler sends that
    text; when it returns at least one user, the handler raises [KeyError]
    (the loop reads a key that the entries do not have).  Through the
    dispatcher, an invoker with the rights gets the error text in the two
    raising cases, and nothing else happens. *)
Theorem inactivelist_fails_on_inactive_users (E : env) (C : config)
        (localtime_ok : Z -> bool) (other : string -> Z -> Z -> string -> M unit)
        (peer actor : Z) (args : string) (w : world) :
  let days := Commands.inactive_days args in
  let threshold n := int_of_float (clock E n) - days * 86400 in
  let inactive n := Database.get_inactive_users (int_of_float (clock E n)) days (st_db w) in
  1 <= days /\
  ends (Commands.cmd_inactivelist E peer actor args) w
       (fun r w' =>
          st_db w' = st_db w /\
          if negb (Database.binds (threshold (st_calls w))) then
            r = Raise OverflowError /\ adds w w' []
          else
            match inactive (st_calls w) with
            | [] => r = Ok tt /\ adds w w' [EvSend peer (MsgNoInactive days)]
            | _ :: _ => r = Raise KeyError /\ adds w w' []
            end) /\
  (Database.binds (threshold (S (st_calls w))) = false \/
   inactive (S (st_calls w)) <> [] ->
   Bot.same_user (Bot.owner_in (get_conversation_members E (st_calls w) peer)) actor
   || Bot.check_access (st_db w) actor "senior_moderator" (Some peer) = true ->
   returns (Commands.execute_command E C (Commands.handlers E C localtime_ok other)
                                     "inactivelist" peer actor args) w
           (fun _ w' => st_db w' = st_db w /\
                        st_last_command_time w' = st_last_command_time w /\
                        adds w w' [EvSend peer MsgCommandError])).
Proof.
  cbv zeta.
  assert (Hends : forall w0,
             ends (Commands.cmd_inactivelist E peer actor args) w0
               (fun r w' =>
                  quiet (tick w0) w' /\
                  if negb (Database.binds
                             (int_of_float (clock E (st_calls w0))
                              - Commands.inactive_days args * 86400))
                  then r = Raise OverflowError
                  else
                    match Database.get_inactive_users
                            (int_of_float (clock E (st_calls w0)))
                            (Commands.inactive_days args) (st_db w0) with
                    | [] => False
                    | _ :: _ => r = Raise KeyError
                    end) \/
             (Database.binds (int_of_float (clock E (st_calls w0))
                              - Commands.inactive_days args * 86400) = true /\
              Database.get_inactive_users (int_of_float (clock E (st_calls w0)))
                                          (Commands.inactive_days args) (st_db w0) = [] /\
              returns (Commands.cmd_inactivelist E peer actor args) w0
                      (fun _ w' => st_db w' = st_db w0 /\
                                   adds w0 w' [EvSend peer
                                                 (MsgNoInactive
                                                    (Commands.inactive_days args))]))).
  { intros w0. unfold Commands.cmd_inactivelist. cbv zeta.
    destruct (Database.binds (int_of_float (clock E (st_calls w0))
                              - Commands.inactive_days args * 86400)) eqn:Hb;
      cbn [negb].
    2:{ left. exists (Raise OverflowError), (tick w0). split.
        - unfold bind at 1. rewrite db_get_inactive_users_run, Hb. reflexivity.
        - split; [ repeat split | reflexivity ]. }
    destruct (Database.get_inactive_users (int_of_float (clock E (st_calls w0)))
                (Commands.inactive_days args) (st_db w0)) as [ | user rest ] eqn:Hlist.
    - right. split; [ reflexivity | ]. split; [ reflexivity | ].
      eapply returns_bind_run;
        [ rewrite db_get_inactive_users_run, Hb, Hlist; reflexivity | ].
      apply (reply_after E peer _ w0 (tick w0) [] (st_db w0)); [ reflexivity | ].
      unfold adds. cbn. rewrite app_nil_r. reflexivity.
    - left. eapply ends_bind_run;
        [ rewrite db_get_inactive_users_run, Hb, Hlist; reflexivity | ].
      cbv iota.
      match goal with
      | |- ends (bind (Bot.name_or _ ?f ?i) _) _ _ =>
          destruct (name_or_returns E f i (tick w0)) as (nm & w1 & Hrun & Hq)
      end.
      exists (Raise KeyError), w1. split.
      + unfold bind. rewrite Hrun. reflexivity.
      + split; [ exact Hq | reflexivity ]. }
  split; [ apply inactive_days_positive | ].
  split.
  - destruct (Hends w) as [(r & w' & Hrun & (Hd & Hl & Ht) & Hr) | (Hb & Hnone & Hret)].
    + exists r, w'. split; [ exact Hrun | ]. split; [ exact Hd | ].
      assert (Hnil : adds w w' []) by (unfold adds; rewrite Ht, app_nil_r; reflexivity).
      destruct (Database.binds _); cbn [negb] in *; [ | auto ].
      destruct (Database.get_inactive_users _ _ _); [ contradiction | auto ].
    + destruct Hret as (r & w' & Hrun & Hd & Ht).
      exists (Ok r), w'. split; [ exact Hrun | ]. split; [ exact Hd | ].
      rewrite Hb, Hnone. cbn [negb]. destruct r. auto.
  - intros Hfail Hallowed. unfold Commands.execute_command.
    change (Commands.required_role_of "inactivelist") with (Some "senior_moderator").
    eapply returns_bind_run; [ apply has_rights_run | ].
    rewrite Hallowed. cbn [negb].
    change (Commands.handler_of E C (Commands.handlers E C localtime_ok other) "inactivelist")
      with (Commands.cmd_inactivelist E).
    destruct (Hends (tick w)) as [(r & w' & Hrun & (Hd & Hl & Ht) & Hr) | (Hb & Hnone & _)].
    2:{ cbn [st_calls st_db tick] in Hb, Hnone.
        destruct Hfail as [Hf | Hf]; [ congruence | contradiction ]. }
    assert (He : exists e, r = Raise e).
    { destruct (Database.binds _); cbn [negb] in Hr; [ | eauto ].
      destruct (Database.get_inactive_users _ _ _); [ contradiction | eauto ]. }
    destruct He as [e ->].
    unfold returns, try_except. rewrite Hrun.
    eexists _, _. split; [ reflexivity | ]. cbn.
    split; [ exact Hd | ]. split; [ exact Hl | ].
    unfold adds. cbn. rewrite Ht. reflexivity.
Qed.

Lemma inactivelist_fails_on_inactive_users_witness :
  returns (Commands.execute_command (platform_at 100000000) logging_off
             (Commands.handlers (platform_at 100000000) logging_off
                                (fun _ => true) (fun _ _ _ _ => skip))
             "inactivelist" chat 10 "1")
          (mk_world two_chat_moderators ∅ 0 [])
          (fun _ w' => st_db w' = two_chat_moderators /\
                       st_last_command_time w' = ∅ /\
                       adds (mk_world two_chat_moderators ∅ 0 []) w'
                            [EvSend chat MsgCommandError]).
Proof.
  apply (proj2 (proj2
           (inactivelist_fails_on_inactive_users (platform_at 100000000) logging_off
              (fun _ => true) (fun _ _ _ _ => skip) chat 10 "1"
              (mk_world two_chat_moderators ∅ 0 [])))).
  - right. vm_compute. discriminate.
  - reflexivity.
Defined.

(** a number of days whose threshold the engine does not bind *)
Example inactivelist_of_unbound_threshold :
  let run := Commands.cmd_inactivelist (platform_at 100000000) chat 10
               "99999999999999999999" (mk_world two_chat_moderators ∅ 0 []) in
  fst run = Raise OverflowError /\
  st_trace (snd run) = [].
Proof. vm_compute. repeat split; reflexivity. Qed.


(** ** Runs that return *)

Lemma total_ret {A} (a : A) : total (ret a).
Proof. intros w. apply returns_ret. exact I. Qed.

Lemma total_bind {A B} (m : M A) (k : A -> M B) :
  total m -> (forall a, total (k a)) -> total (bind m k).
Proof.
  intros Hm Hk w. apply returns_bind.
  destruct (Hm w) as (a & w1 & Hrun & _). exists a, w1. split; [ exact Hrun | apply Hk ].
Qed.

Lemma total_try_except {A} (m h : M A) : total h -> total (try_except m h).
Proof.
  intros Hh w. unfold returns, try_except.
  destruct (m w) as [[a | e] w1].
  - exists a, w1. auto.
  - destruct (Hh w1) as (a & w2 & Hrun & _). exists a, w2. auto.
Qed.

Lemma total_external {A} (f : nat -> A) : total (external f).
Proof. intros w. eexists _, _. split; [ reflexivity | exact I ]. Qed.

Lemma total_emit (ev : event) : total (emit ev).
Proof. intros w. eexists _, _. split; [ reflexivity | exact I ]. Qed.

Lemma total_get_db : total get_db.
Proof. intros w. eexists _, _. split; [ reflexivity | exact I ]. Qed.

Lemma total_put_db (d : DB) : total (put_db d).
Proof. intros w. eexists _, _. split; [ reflexivity | exact I ]. Qed.

Lemma total_skip : total skip.
Proof. apply total_ret. Qed.

Create HintDb total.

#[local] Hint Resolve total_ret total_external total_emit total_get_db total_put_db
  total_skip : total.

Ltac total_steps :=
  repeat first
    [ solve [ auto with total ]
    | apply total_bind; [ | intros ? ]
    | apply total_try_except
    | progress cbv zeta
    | match goal with
      | |- total (match ?x with _ => _ end) => destruct x
      | |- total (if ?b then _ else _) => destruct b
      | |- total (let '(_, _) := ?x in _) => destruct x
      end ].

Lemma total_extract (E : env) (mention : string) :
  total (Bot.extract_user_id_from_mention E mention).
Proof. unfold Bot.extract_user_id_from_mention. total_steps. Qed.

Lemma total_send_message (E : env) (peer : Z) (m : message) :
  total (Bot.send_message E peer m).
Proof. unfold Bot.send_message. total_steps. Qed.

#[local] Hint Resolve total_extract total_send_message : total.

Lemma total_check_access_m (user : Z) (required : string) (peer : option Z) :
  total (Bot.check_access_m user required peer).
Proof. unfold Bot.check_access_m. total_steps. Qed.

Lemma total_is_conversation_owner (E : env) (peer user : Z) :
  total (Bot.is_conversation_owner E peer user).
Proof. unfold Bot.is_conversation_owner, Bot.get_conversation_owner. total_steps. Qed.

#[local] Hint Resolve total_check_access_m total_is_conversation_owner : total.

(** ** The dispatch of commands *)

Lemma is_conversation_owner_run (E : env) (peer user : Z) (w : world) :
  Bot.is_conversation_owner E peer user w
  = (Ok (Bot.same_user (Bot.owner_in (get_conversation_members E (st_calls w) peer))
                       user),
     tick w).
Proof. reflexivity. Qed.

Lemma check_access_m_run (user : Z) (required : string) (peer : option Z) (w : world) :
  Bot.check_access_m user required peer w
  = (Ok (Bot.check_access (st_db w) user required peer), w).
Proof. reflexivity. Qed.

Lemma check_cooldown_run (E : env) (C : config) (user : Z) (w : world) :
  Bot.check_cooldown E C user w
  = if on_cooldown C (st_last_command_time w) user (clock E (st_calls w))
    then (Ok false, tick w)
    else (Ok true,
          mk_world (st_db w)
                   (<[user := clock E (st_calls w)]> (st_last_command_time w))
                   (S (st_calls w)) (st_trace w)).
Proof.
  unfold Bot.check_cooldown, bind, Bot.time_time, external, on_cooldown.
  cbn [tick st_last_command_time st_db st_calls st_trace].
  destruct (st_last_command_time w !! user) as [last|]; [ | reflexivity ].
  destruct (Qlt_bool (clock E (st_calls w) - last) (inject_Z (command_cooldown C)));
    reflexivity.
Qed.

Lemma reply_run (E : env) (peer : Z) (m : message) (w : world) :
  (Bot.send_message E peer m >> skip) w
  = (Ok tt, mk_world (st_db w) (st_last_command_time w) (S (st_calls w))
                     (st_trace w ++ [EvSend peer m])).
Proof. reflexivity. Qed.

Lemma total_has_rights (E : env) (peer user : Z) (required : string) :
  total (Bot.has_rights E peer user required).
Proof. unfold Bot.has_rights. total_steps. Qed.

(** whatever the handlers are *)
Lemma total_execute_command (E : env) (C : config)
      (handler : string -> Z -> Z -> string -> M unit)
      (name : string) (peer user : Z) (args : string) :
  total (Commands.execute_command E C handler name peer user args).
Proof.
  unfold Commands.execute_command.
  destruct (Commands.required_role_of name); [ | apply total_ret ].
  apply total_bind; [ apply total_has_rights | ]. intros allowed.
  destruct (negb allowed); total_steps.
Qed.

Lemma total_with_mention_resolved (E : env) (command args : string) :
  total (VkBot.with_mention_resolved E command args).
Proof. unfold VkBot.with_mention_resolved. total_steps. Qed.

(** X23. In quiet mode the command of an invoker who is neither the owner of
    the conversation nor of global rank "moderator" is dropped: the call
    returns, nothing is sent, and the store and the cooldown stamps are as
    before.  The test reads the global role, so the rule also drops the
    commands of those who hold a staff role in the conversation only. *)
Theorem quiet_mode_drops_commands (E : env) (C : config)
        (localtime_ok : Z -> bool) (other : string -> Z -> Z -> string -> M unit)
        (peer user : Z) (text : string) (message : option VkBot.reply) (w : world) :
  Bot.check_access (st_db w) user "moderator" None = false ->
  Bot.same_user (Bot.owner_in (get_conversation_members E (st_calls w) peer)) user
  = false ->
  returns (VkBot.handle_command E C localtime_ok other true peer user text message) w
          (fun _ w' => quiet w w').
Proof.
  intros Hstaff Howner. unfold VkBot.handle_command.
  destruct (Utils.parse_command text) as [command args].
  eapply returns_bind_run; [ apply is_conversation_owner_run | ].
  eapply returns_bind_run; [ apply check_access_m_run | ].
  cbn [tick st_db]. rewrite Hstaff, Howner. cbn [andb negb].
  apply returns_ret. repeat split.
Qed.

Lemma quiet_mode_drops_commands_witness :
  Database.get_role two_chat_moderators 20 (Some chat) = "moderator" /\
  returns (VkBot.handle_command platform_up logging_off (fun _ => true)
                       (fun _ _ _ _ => skip) true
                                chat 20 "/kick 10" None)
          (mk_world two_chat_moderators ∅ 0 [])
          (fun _ w' => quiet (mk_world two_chat_moderators ∅ 0 []) w').
Proof.
  split; [ reflexivity | ].
  apply (quiet_mode_drops_commands platform_up logging_off (fun _ => true)
                       (fun _ _ _ _ => skip)
           chat 20 "/kick 10" None (mk_world two_chat_moderators ∅ 0 []));
    reflexivity.
Defined.

(** X24. Outside quiet mode [handle_command] returns for every text,
    whatever the handlers do, and the cooldown is tested before the command
    name is looked up.  An invoker on cooldown gets the notice about spam
    and nothing else happens, also for a text that names no command.  A text
    that names no command, from an invoker who is not on cooldown, is
    dropped without an answer, but the time of the call is stored as the
    stamp of the invoker.  The clock is read after the request for the owner
    of the conversation. *)
Theorem cooldown_precedes_command_lookup (E : env) (C : config)
        (localtime_ok : Z -> bool) (other : string -> Z -> Z -> string -> M unit)
        (peer user : Z) (text : string) (message : option VkBot.reply) (w : world) :
  returns (VkBot.handle_command E C localtime_ok other false peer user text message) w
          (fun _ w' =>
             let now := clock E (S (st_calls w)) in
             if on_cooldown C (st_last_command_time w) user now then
               st_db w' = st_db w /\
               st_last_command_time w' = st_last_command_time w /\
               adds w w' [EvSend peer (MsgSpam user)]
             else if Commands.has_command (fst (Utils.parse_command text)) then True
             else
               st_db w' = st_db w /\
               st_last_command_time w' = <[user := now]> (st_last_command_time w) /\
               adds w w' []).
Proof.
  unfold VkBot.handle_command.
  destruct (Utils.parse_command text) as [command args]. cbn [fst].
  eapply returns_bind_run; [ apply is_conversation_owner_run | ].
  eapply returns_bind_run; [ apply check_access_m_run | ].
  cbn [andb]. cbv zeta.
  destruct (on_cooldown C (st_last_command_time w) user (clock E (S (st_calls w))))
    eqn:Hon.
  - eapply returns_bind_run.
    { rewrite check_cooldown_run. cbn [tick st_last_command_time st_calls].
      rewrite Hon. reflexivity. }
    cbn [negb]. eexists _, _. split; [ apply reply_run | ].
    unfold adds. cbn. auto.
  - eapply returns_bind_run.
    { rewrite check_cooldown_run. cbn [tick st_last_command_time st_calls].
      rewrite Hon. reflexivity. }
    cbn [negb]. destruct (Commands.has_command command); cbn [negb].
    + assert (Hrest : forall k : M unit, total k -> forall w0, returns k w0 (fun _ _ => True))
        by (intros k Hk; apply Hk).
      apply Hrest.
      destruct (VkBot.with_reply_target command args message) as [args' | m].
      * apply total_bind; [ apply total_with_mention_resolved | ]. intros args''.
        apply total_execute_command.
      * total_steps.
    + apply returns_ret. cbn. unfold adds. cbn. rewrite app_nil_r. auto.
Qed.

(** ** Replies *)

Lemma append_nil_r (s : string) : (s ++ "")%string = s.
Proof.
  induction s as [ | c r IH ]; [ reflexivity | ].
  change (String c r ++ "")%string with (String c (r ++ "")). rewrite IH. reflexivity.
Qed.

Lemma split_space1_no_space (name : string) :
  Py.contains " " name = false -> Py.split_space1 name = (name, None).
Proof.
  induction name as [ | c r IH ]; [ reflexivity | ].
  cbn [Py.contains Py.split_space1]. rewrite (Ascii.eqb_sym c " ").
  destruct (Ascii.eqb " " c); [ discriminate | ].
  intros H. rewrite (IH H). reflexivity.
Qed.

Lemma split_space1_at_space (name rest : string) :
  Py.contains " " name = false ->
  Py.split_space1 (name ++ String " " rest) = (name, Some rest).
Proof.
  induction name as [ | c r IH ].
  - intros _. reflexivity.
  - change (String c r ++ String " " rest)%string with (String c (r ++ String " " rest)).
    cbn [Py.contains Py.split_space1]. rewrite (Ascii.eqb_sym c " ").
    destruct (Ascii.eqb " " c); [ discriminate | ].
    intros H. rewrite (IH H). reflexivity.
Qed.

Lemma parse_command_bare (name : string) :
  Py.contains " " name = false ->
  Utils.parse_command ("/" ++ name) = (Py.lower name, "").
Proof.
  intros H. change ("/" ++ name)%string with (String "/" name).
  unfold Utils.parse_command. rewrite startswith_char, Ascii.eqb_refl.
  cbn [Py.drop]. rewrite (split_space1_no_space name H). reflexivity.
Qed.

Lemma parse_command_with_args (name args : string) :
  Py.contains " " name = false ->
  Utils.parse_command ("/" ++ name ++ " " ++ args) = (Py.lower name, args).
Proof.
  intros H.
  change ("/" ++ name ++ " " ++ args)%string with (String "/" (name ++ String " " args)).
  unfold Utils.parse_command. rewrite startswith_char, Ascii.eqb_refl.
  cbn [Py.drop]. rewrite (split_space1_at_space name args H). reflexivity.
Qed.

Lemma digit_is_no_space (c : ascii) : Py.is_digit c = true -> Py.is_space c = false.
Proof.
  unfold Py.is_digit, Py.is_space. intros H.
  apply andb_true_iff in H. destruct H as [H1 H2].
  apply Nat.leb_le in H1. apply Nat.leb_le in H2.
  apply orb_false_iff. split; apply andb_false_iff.
  - right. apply Nat.leb_gt. lia.
  - right. apply Nat.leb_gt. lia.
Qed.

Lemma rstrip_digits (s : string) :
  Py.all_chars Py.is_digit s = true -> Py.rstrip s = s.
Proof.
  induction s as [ | c r IH ]; [ reflexivity | ].
  cbn [Py.all_chars Py.rstrip]. intros H.
  apply andb_true_iff in H. destruct H as [Hc Hr].
  rewrite (IH Hr). destruct r; [ | reflexivity ].
  rewrite (digit_is_no_space c Hc). reflexivity.
Qed.

Lemma strip_digits (s : string) :
  Py.all_chars Py.is_digit s = true -> Py.strip s = s.
Proof.
  intros H. unfold Py.strip.
  assert (Hl : Py.lstrip s = s).
  { destruct s as [ | c r ]; [ reflexivity | ].
    cbn [Py.all_chars] in H. apply andb_true_iff in H. destruct H as [Hc _].
    cbn [Py.lstrip]. rewrite (digit_is_no_space c Hc). reflexivity. }
  rewrite Hl. apply rstrip_digits. exact H.
Qed.

(** the names of the commands that take nothing but a target *)
Lemma target_only_names (command : string) :
  VkBot.among command VkBot.takes_target_only = true ->
  Py.contains " " command = false /\
  Py.lower command = command /\
  VkBot.among command VkBot.cmd_requires_target = true.
Proof.
  unfold VkBot.among at 1. unfold VkBot.takes_target_only. cbn [existsb]. intros H.
  repeat (apply orb_true_iff in H; destruct H as [H | H]);
    try discriminate H;
    apply String.eqb_eq in H; subst command;
    (split; [ reflexivity | split; reflexivity ]).
Qed.

(** X25. A command that takes nothing but a target, sent without arguments
    as a reply to a message of [t], is handled as the same command typed
    with the decimal id of [t]: the two calls have the same outcome and the
    same final state.  For a positive [t] the handlers read that text as [t]
    without a request to the platform. *)
Theorem reply_supplies_target (E : env) (C : config)
        (localtime_ok : Z -> bool) (other : string -> Z -> Z -> string -> M unit)
        (quiet_mode : bool) (peer user : Z) (command : string) (t : Z) (w : world) :
  t <> 0 ->
  VkBot.among command VkBot.takes_target_only = true ->
  VkBot.handle_command E C localtime_ok other quiet_mode peer user ("/" ++ command)
                       (Some (VkBot.Reply (Some t))) w
  = VkBot.handle_command E C localtime_ok other quiet_mode peer user
                         ("/" ++ command ++ " " ++ Py.str t) None w
  /\ (0 < t -> forall w1, Commands.resolve_target E (Py.str t) w1 = (Ok (Some t), w1)).
Proof.
  intros Ht Hcmd. destruct (target_only_names command Hcmd) as (Hsp & Hlow & Hreq).
  split.
  - unfold VkBot.handle_command.
    rewrite (parse_command_bare command Hsp), (parse_command_with_args command _ Hsp).
    rewrite Hlow.
    assert (Hreply : VkBot.with_reply_target command "" (Some (VkBot.Reply (Some t)))
                     = VkBot.GoOn (Py.str t)).
    { unfold VkBot.with_reply_target. rewrite Hreq, Hcmd.
      cbn [VkBot.names_no_target andb VkBot.get_user_id_from_reply Bot.truthy_id].
      destruct (t =? 0) eqn:Hz; [ apply Z.eqb_eq in Hz; contradiction | ].
      cbn [Py.truthy]. rewrite append_nil_r. reflexivity. }
    rewrite Hreply. reflexivity.
  - intros Hpos w1. destruct (str_digits_of_nonneg t ltac:(lia)) as [Hdig Hint].
    assert (Hall : Py.all_chars Py.is_digit (Py.str t) = true).
    { unfold Py.isdigit in Hdig. apply andb_true_iff in Hdig. apply Hdig. }
    unfold Commands.resolve_target, Commands.parts_of. cbv zeta.
    rewrite (strip_digits _ Hall).
    rewrite (split_space1_no_space _ (digits_have_no_space _ Hall)). cbn [fst].
    unfold bind. rewrite (digits_resolve E (Py.str t) w1 Hdig). rewrite Hint.
    cbn [Bot.truthy_id]. destruct (t =? 0) eqn:Hz; [ apply Z.eqb_eq in Hz; lia | ].
    unfold ret. cbn [Bot.truthy_id]. rewrite Hz. reflexivity.
Qed.

Lemma reply_supplies_target_witness :
  VkBot.handle_command platform_up logging_off (fun _ => true)
                       (fun _ _ _ _ => skip) false chat 10
                       "/kick" (Some (VkBot.Reply (Some 20)))
                       (mk_world two_chat_moderators ∅ 0 [])
  = VkBot.handle_command platform_up logging_off (fun _ => true)
                       (fun _ _ _ _ => skip) false chat 10
                         "/kick 20" None (mk_world two_chat_moderators ∅ 0 []).
Proof.
  refine (proj1 (reply_supplies_target platform_up logging_off (fun _ => true)
                       (fun _ _ _ _ => skip)
                   false chat 10 "kick" 20 (mk_world two_chat_moderators ∅ 0 []) _ _)).
  - discriminate.
  - reflexivity.
Defined.
